(** * ETL pipeline for financial filings: embedding and properties

    A shallow embedding of the normalization-and-warehousing pipeline
    ([functions.py], [main.py], [OLTP_load.py], [OLAP.py],
    [quality_check.py]) together with the properties of its specification.

    Conventions of the embedding.
    - A Python [str] is a [string]: a sequence of bytes.  Character classes
      ([str.strip], [str.upper], [\s], [\d], [[A-Z]]) are the ASCII ones;
      bytes above 127 belong to no class and are left alone by [upper] and
      [lower].
    - A Python exception is a value of [exn]; code that can raise returns a
      [result].
    - A missing value ([None], [NaN], [NaT]) is [None] of an option type,
      except in a float column, where it is the float [FNaN].
    - A Python float is the rational number its decimal text denotes (or an
      infinity, or NaN); rounding to binary64 is not part of the model. *)

From Stdlib Require Import Bool Arith List ZArith QArith Lia.
From Stdlib Require Import Strings.Ascii Strings.String DecimalString.
From Stdlib Require DecimalPos.
Import ListNotations.

Local Open Scope string_scope.

(** ** Exceptions *)

Inductive exn : Type :=
| ValueError (msg : string)
| TypeError (msg : string)
| IntegrityError (msg : string)
| OperationalError (msg : string)
| OverflowError (msg : string)
| StatementError (msg : string).

Inductive result (A : Type) : Type :=
| Ok (a : A)
| Raise (e : exn).

Arguments Ok {A} a.
Arguments Raise {A} e.

(** ** Python string operations *)

Module Text.

Definition in_range (lo hi c : ascii) : bool :=
  (Ascii.leb lo c && Ascii.leb c hi)%bool.

Definition is_upper (c : ascii) : bool := in_range "A" "Z" c.
Definition is_lower (c : ascii) : bool := in_range "a" "z" c.
Definition is_digit (c : ascii) : bool := in_range "0" "9" c.

(** [str.isspace] on ASCII: TAB, LF, VT, FF, CR, FS, GS, RS, US, SPACE. *)
Definition is_space (c : ascii) : bool :=
  (in_range "009" "013" c || in_range "028" "032" c)%bool.

Definition upper_char (c : ascii) : ascii :=
  if is_lower c then ascii_of_nat (nat_of_ascii c - 32) else c.

Definition lower_char (c : ascii) : ascii :=
  if is_upper c then ascii_of_nat (nat_of_ascii c + 32) else c.

Fixpoint map (f : ascii -> ascii) (s : string) : string :=
  match s with
  | EmptyString => EmptyString
  | String c s' => String (f c) (map f s')
  end.

Fixpoint all (p : ascii -> bool) (s : string) : bool :=
  match s with
  | EmptyString => true
  | String c s' => (p c && all p s')%bool
  end.

(** [s.upper()] and [s.lower()]. *)
Definition upper : string -> string := map upper_char.
Definition lower : string -> string := map lower_char.

(** [s.startswith(p)]. *)
Definition startswith (s p : string) : bool := prefix p s.

(** [s[i:]] and [s[:i]] for a non-negative [i]. *)
Fixpoint drop (n : nat) (s : string) : string :=
  match n, s with
  | O, _ => s
  | S _, EmptyString => EmptyString
  | S n', String _ s' => drop n' s'
  end.

Fixpoint take (n : nat) (s : string) : string :=
  match n, s with
  | O, _ => EmptyString
  | S _, EmptyString => EmptyString
  | S n', String c s' => String c (take n' s')
  end.

(** [s[i:j]] for non-negative [i], [j]. *)
Definition slice (i j : nat) (s : string) : string := take (j - i) (drop i s).

(** [s.endswith(p)]. *)
Definition endswith (s p : string) : bool :=
  (Nat.leb (length p) (length s) && (drop (length s - length p) s =? p))%bool.

(** [p in s]: [p] occurs in [s] as a substring. *)
Fixpoint contains (s p : string) : bool :=
  (prefix p s ||
   match s with
   | EmptyString => false
   | String _ s' => contains s' p
   end)%bool.

(** [p] occurs in [s]: the meaning of [p in s]. *)
Definition occurs_in (p s : string) : Prop := exists a b, s = a ++ p ++ b.

(** [s.lstrip()], [s.rstrip()], [s.strip()]. *)
Fixpoint lstrip (s : string) : string :=
  match s with
  | EmptyString => EmptyString
  | String c s' => if is_space c then lstrip s' else s
  end.

Fixpoint rstrip (s : string) : string :=
  match s with
  | EmptyString => EmptyString
  | String c s' =>
      match rstrip s' with
      | EmptyString => if is_space c then EmptyString else String c EmptyString
      | r => String c r
      end
  end.

Definition strip (s : string) : string := rstrip (lstrip s).

(** [s.replace(old, new)] for a non-empty [old]: occurrences are replaced
    from left to right, without overlap.  The fuel is the length of [s]. *)
Fixpoint replace_from (fuel : nat) (old new s : string) : string :=
  match fuel with
  | O => s
  | S fuel' =>
      match s with
      | EmptyString => EmptyString
      | String c s' =>
          if prefix old s
          then new ++ replace_from fuel' old new (drop (length old) s)
          else String c (replace_from fuel' old new s')
      end
  end.

Definition replace (s old new : string) : string :=
  replace_from (length s) old new s.

(** [s] without the character [c]. *)
Fixpoint remove (c : ascii) (s : string) : string :=
  match s with
  | EmptyString => EmptyString
  | String a s' => if (c =? a)%char then remove c s' else String a (remove c s')
  end.

(** The first, and the last, character of [s] satisfies [p]. *)
Definition first_is (p : ascii -> bool) (s : string) : bool :=
  match s with
  | EmptyString => false
  | String c _ => p c
  end.

Fixpoint last_is (p : ascii -> bool) (s : string) : bool :=
  match s with
  | EmptyString => false
  | String c EmptyString => p c
  | String _ s' => last_is p s'
  end.

(** [sep.join(l)]. *)
Definition join (sep : string) (l : list string) : string := concat sep l.

(** [os.path.basename] of [posixpath]: what follows the last slash. *)
Fixpoint basename_from (acc s : string) : string :=
  match s with
  | EmptyString => acc
  | String c s' =>
      if (c =? "/")%char then basename_from s' s' else basename_from acc s'
  end.

Definition basename (p : string) : string := basename_from p p.

(** The value of a decimal digit. *)
Definition digit_value (c : ascii) : Z := Z.of_nat (nat_of_ascii c - 48).

(** The number a string of decimal digits denotes, after [acc]. *)
Fixpoint digits_value (acc : Z) (s : string) : Z :=
  match s with
  | EmptyString => acc
  | String c s' => digits_value (10 * acc + digit_value c)%Z s'
  end.

(** The digits at the start of [s], where one underscore may separate two
    digits: the value after [acc], the number of digits read, and what is
    left. *)
Fixpoint scan_digits (acc : Z) (n : nat) (s : string) : Z * nat * string :=
  match s with
  | EmptyString => (acc, n, s)
  | String c s' =>
      if is_digit c then scan_digits (10 * acc + digit_value c)%Z (S n) s'
      else if ((c =? "_")%char && Nat.ltb 0 n)%bool then
        match s' with
        | String c' _ => if is_digit c' then scan_digits acc n s' else (acc, n, s)
        | EmptyString => (acc, n, s)
        end
      else (acc, n, s)
  end.

(** An optional sign: whether it is a minus, and what follows. *)
Definition scan_sign (s : string) : bool * string :=
  match s with
  | String "-" s' => (true, s')
  | String "+" s' => (false, s')
  | _ => (false, s)
  end.

(** [int(s)] *)
Definition py_int (s : string) : result Z :=
  let '(neg, s1) := scan_sign (strip s) in
  match scan_digits 0 0 s1 with
  | (v, S _, EmptyString) => Ok (if neg then - v else v)%Z
  | _ => Raise (ValueError ("invalid literal for int() with base 10: " ++ s))
  end.

(** [str(n)] for a non-negative integer [n]. *)
Definition str_of_Z (n : Z) : string :=
  DecimalString.NilZero.string_of_int (Z.to_int n).

End Text.

(** ** Floats *)

Inductive pyfloat : Type :=
| FNum (q : Q)
| FInf (neg : bool)
| FNaN.

Module Float.
Import Text.

(** [pd.isna] on a float. *)
Definition isna (x : pyfloat) : bool :=
  match x with
  | FNaN => true
  | _ => false
  end.

(** [- x] *)
Definition neg (x : pyfloat) : pyfloat :=
  match x with
  | FNum q => FNum (Qred (- q))
  | FInf b => FInf (negb b)
  | FNaN => FNaN
  end.

(** [mant * 10 ^ e], in lowest terms. *)
Definition decimal (neg : bool) (mant e : Z) : Q :=
  let q := Qred (inject_Z mant * Qpower (inject_Z 10) e) in
  if neg then Qred (- q) else q.

(** The exponent part of a float literal: [None] when it is malformed. *)
Definition scan_exponent (s : string) : option Z :=
  match s with
  | EmptyString => Some 0%Z
  | String c s' =>
      if ((c =? "e")%char || (c =? "E")%char)%bool then
        let '(neg, s1) := scan_sign s' in
        match scan_digits 0 0 s1 with
        | (v, S _, EmptyString) => Some (if neg then - v else v)%Z
        | _ => None
        end
      else None
  end.

(** [float(s)] *)
Definition py_float (s : string) : result pyfloat :=
  let '(neg, s1) := scan_sign (strip s) in
  let name := lower s1 in
  if ((name =? "inf") || (name =? "infinity"))%bool then Ok (FInf neg)
  else if name =? "nan" then Ok FNaN
  else
    let '(ip, ni, s2) := scan_digits 0 0 s1 in
    let '(mant, nf, s3) :=
      match s2 with
      | String "." s2' => scan_digits ip 0 s2'
      | _ => (ip, O, s2)
      end in
    match (ni + nf)%nat, scan_exponent s3 with
    | S _, Some e => Ok (FNum (decimal neg mant (e - Z.of_nat nf)))
    | _, _ => Raise (ValueError ("could not convert string to float: " ++ s))
    end.

End Float.

(** ** The [re] module: a backtracking matcher

    Alternatives are tried from left to right and repetition is greedy, as in
    Python, so the first match found is the one [re] reports.  Only the
    constructs the program's patterns use are provided. *)

Module Re.

Inductive regex : Type :=
| Eps
| Sym (p : ascii -> bool)
| Cat (r1 r2 : regex)
| Alt (r1 r2 : regex)
| Star (r : regex)
| Group (i : nat) (r : regex).

(** Captured groups, most recent first. *)
Definition caps : Type := list (nat * string).

Fixpoint lookup (i : nat) (c : caps) : option string :=
  match c with
  | [] => None
  | (j, s) :: c' => if Nat.eqb i j then Some s else lookup i c'
  end.

Section Matcher.
Context {R : Type}.

Definition cont : Type := string -> caps -> option R.

(** The loop of a greedy star: one more iteration of [body] is tried
    first, and an iteration that consumes nothing is refused. *)
Fixpoint star_loop (body : string -> caps -> cont -> option R)
         (fuel : nat) (s : string) (c : caps) (k : cont) : option R :=
  match fuel with
  | O => k s c
  | S fuel' =>
      match body s c (fun s' c' =>
                        if Nat.ltb (length s') (length s)
                        then star_loop body fuel' s' c' k
                        else None) with
      | Some x => Some x
      | None => k s c
      end
  end.

Fixpoint matchk (r : regex) : string -> caps -> cont -> option R :=
  match r with
  | Eps => fun s c k => k s c
  | Sym p => fun s c k =>
      match s with
      | String a s' => if p a then k s' c else None
      | EmptyString => None
      end
  | Cat r1 r2 => fun s c k =>
      matchk r1 s c (fun s' c' => matchk r2 s' c' k)
  | Alt r1 r2 => fun s c k =>
      match matchk r1 s c k with
      | Some x => Some x
      | None => matchk r2 s c k
      end
  | Star r' => fun s c k => star_loop (matchk r') (length s) s c k
  | Group i r' => fun s c k =>
      matchk r' s c (fun s' c' =>
        k s' ((i, Text.take (length s - length s') s) :: c'))
  end.
End Matcher.

(** A match object: [group(0)], the captured groups, and the text that
    follows the match. *)
Record match_obj : Type := MatchObj {
  group0 : string;
  groups : caps;
  rest : string
}.

Definition group (m : match_obj) (i : nat) : option string :=
  match i with
  | O => Some (group0 m)
  | _ => lookup i (groups m)
  end.

(** [re.match(r, s)]: a match at the start of [s]. *)
Definition re_match (r : regex) (s : string) : option match_obj :=
  matchk r s [] (fun s' c =>
    Some (MatchObj (Text.take (length s - length s') s) c s')).

(** [re.search(r, s)]: the leftmost match. *)
Fixpoint re_search (r : regex) (s : string) : option match_obj :=
  match re_match r s with
  | Some m => Some m
  | None =>
      match s with
      | EmptyString => None
      | String _ s' => re_search r s'
      end
  end.

(** Pattern syntax. *)
Definition chr (a : ascii) : regex := Sym (Ascii.eqb a).

Fixpoint lit (s : string) : regex :=
  match s with
  | EmptyString => Eps
  | String a EmptyString => chr a
  | String a s' => Cat (chr a) (lit s')
  end.

(** [r+], [r?], [r{n}], [r{lo,hi}] and [a|b|...]. *)
Definition plus (r : regex) : regex := Cat r (Star r).
Definition opt (r : regex) : regex := Alt r Eps.

Fixpoint rep (n : nat) (r : regex) : regex :=
  match n with
  | O => Eps
  | S O => r
  | S n' => Cat r (rep n' r)
  end.

Fixpoint upto (n : nat) (r : regex) : regex :=
  match n with
  | O => Eps
  | S n' => Alt (Cat r (upto n' r)) Eps
  end.

Definition rep_range (lo hi : nat) (r : regex) : regex :=
  Cat (rep lo r) (upto (hi - lo) r).

Fixpoint alts (l : list regex) : regex :=
  match l with
  | [] => Sym (fun _ => false)
  | [r] => r
  | r :: l' => Alt r (alts l')
  end.

Definition d : regex := Sym Text.is_digit.
Definition s : regex := Sym Text.is_space.

(** The language of a pattern: the texts it can match, whatever the order
    in which the matcher tries them. *)
Inductive lang : regex -> string -> Prop :=
| lang_eps : lang Eps ""
| lang_sym p a : p a = true -> lang (Sym p) (String a "")
| lang_cat r1 r2 s1 s2 : lang r1 s1 -> lang r2 s2 -> lang (Cat r1 r2) (s1 ++ s2)
| lang_alt_l r1 r2 s : lang r1 s -> lang (Alt r1 r2) s
| lang_alt_r r1 r2 s : lang r2 s -> lang (Alt r1 r2) s
| lang_star_nil r : lang (Star r) ""
| lang_star_app r s1 s2 : lang r s1 -> lang (Star r) s2 -> lang (Star r) (s1 ++ s2)
| lang_group i r s : lang r s -> lang (Group i r) s.

(** A matcher of [r] is sound: what it consumes before it calls its
    continuation is in the language of [r]. *)
Definition sound_for {R : Type} (r : regex)
           (m : string -> caps -> @cont R -> option R) : Prop :=
  forall s c k x,
    m s c k = Some x ->
    exists pre rest c', s = pre ++ rest /\ lang r pre /\ k rest c' = Some x.

(** [$]: the end of the text, or the newline that ends it. *)
Definition at_end (s : string) : bool :=
  ((s =? "") || (s =? String "010" ""))%string%bool.

(** [re.match] of the pattern [r$]: the anchor is tried after [r], and
    [r] is tried again when the anchor fails. *)
Definition re_match_end (r : regex) (s : string) : option match_obj :=
  matchk r s [] (fun s' c =>
    if at_end s'
    then Some (MatchObj (Text.take (length s - length s') s) c s')
    else None).

(** [re.sub(r$, repl, s)] for a pattern [r] that matches no empty text:
    the matches are replaced from left to right.  The fuel is the length of
    [s]. *)
Fixpoint sub_end_from (fuel : nat) (r : regex) (repl s : string) : string :=
  match fuel with
  | O => s
  | S fuel' =>
      match s with
      | EmptyString => EmptyString
      | String a s' =>
          match re_match_end r s with
          | Some m => (repl ++ sub_end_from fuel' r repl (rest m))%string
          | None => String a (sub_end_from fuel' r repl s')
          end
      end
  end.

Definition sub_end (r : regex) (repl s : string) : string :=
  sub_end_from (length s) r repl s.

End Re.

(** ** [functions.py] *)

Module Functions.
Import Re.

(** [r"([A-Z]+)_(\d{8})_"] *)
Definition filename_pattern : regex :=
  Cat (Group 1 (plus (Sym Text.is_upper)))
      (Cat (chr "_") (Cat (Group 2 (rep 8 d)) (chr "_"))).

Definition extract_metadata (file_path : string) : result (string * string) :=
  let filename := Text.basename file_path in
  match re_match filename_pattern filename with
  | None =>
      Raise (ValueError ("Filename does not match expected pattern: " ++ filename))
  | Some m =>
      match group m 1, group m 2 with
      | Some ticker, Some date_str =>
          let filing_date :=
            Text.slice 0 4 date_str ++ "-" ++ Text.slice 4 6 date_str
              ++ "-" ++ Text.drop 6 date_str in
          Ok (ticker, filing_date)
      | _, _ => Raise (TypeError "'NoneType' object is not subscriptable")
      end
  end.

Definition months : list string :=
  ["January"; "February"; "March"; "April"; "May"; "June"; "July";
   "August"; "September"; "October"; "November"; "December"].

(** [r"(January|...|December)\s+\d{1,2},?\s*\d{4}"] *)
Definition date_pattern : regex :=
  Cat (Group 1 (alts (List.map lit months)))
      (Cat (plus s)
           (Cat (rep_range 1 2 d)
                (Cat (opt (chr ","))
                     (Cat (Star s) (rep 4 d))))).

(** [r"\d{4}"] *)
Definition year_pattern : regex := rep 4 d.

(** [re.search(r, s).group(0)], which raises when nothing matches. *)
Definition search_group0 (r : regex) (s : string) : result string :=
  match re_search r s with
  | Some m => Ok (group0 m)
  | None => Raise (TypeError "'NoneType' object has no attribute 'group'")
  end.

(** The fields of the series [parse_period] returns: period type, end
    date, unaudited flag, fiscal year. *)
Definition period : Type := string * option string * bool * option Z.

Definition parse_period (p : string) : result period :=
  let unaudited := Text.contains (Text.lower p) "unaudited" in
  let period_type :=
    if Text.contains p "Three Months" then "Three Months"
    else if Text.contains p "Six Months" then "Six Months"
    else if Text.contains p "Year Ended" then "Year Ended"
    else "Point-in-Time" in
  match re_search date_pattern p with
  | Some m =>
      let end_date := group0 m in
      match search_group0 year_pattern end_date with
      | Raise e => Raise e
      | Ok y =>
          match Text.py_int y with
          | Raise e => Raise e
          | Ok year => Ok (period_type, Some end_date, unaudited, Some year)
          end
      end
  | None =>
      match re_search year_pattern p with
      | Some m =>
          match Text.py_int (group0 m) with
          | Raise e => Raise e
          | Ok year =>
              Ok (period_type, Some (Text.str_of_Z year), unaudited, Some year)
          end
      | None => Ok (period_type, None, unaudited, None)
      end
  end.

(** The filename convention: upper-case letters, an underscore, eight
    digits, an underscore, and whatever follows. *)
Definition follows_convention (name : string) : Prop :=
  exists ticker digits suffix,
    name = ticker ++ "_" ++ digits ++ "_" ++ suffix /\
    ticker <> "" /\ Text.all Text.is_upper ticker = true /\
    length digits = 8%nat /\ Text.all Text.is_digit digits = true.

(** A text of the shape [YYYY-MM-DD], all digits. *)
Definition iso_shape (date : string) : Prop :=
  exists y m d,
    date = y ++ "-" ++ m ++ "-" ++ d /\
    length y = 4%nat /\ length m = 2%nat /\ length d = 2%nat /\
    Text.all Text.is_digit (y ++ m ++ d) = true.

(** [YYYY-MM-DD] from the eight digits [YYYYMMDD]. *)
Definition hyphenate (digits : string) : string :=
  Text.slice 0 4 digits ++ "-" ++ Text.slice 4 6 digits ++ "-" ++ Text.slice 6 8 digits.

(** [unique_links.add(link)]: the set is kept as the list of its elements,
    each once.  Python lists the elements of a set in an order of its own;
    nothing depends on the order here. *)
Definition set_add (x : string) (s : list string) : list string :=
  if existsb (String.eqb x) s then s else (s ++ [x])%list.

(** [read_unique_links], on the lines of the text file. *)
Definition read_unique_links (lines : list string) : list string :=
  fold_left (fun unique_links line =>
               let link := Text.strip line in
               if ((link =? "") || Text.startswith link "#")%bool
               then unique_links
               else set_add link unique_links)
            lines [].

(** What starts at the last dot of [s], when [s] has a dot. *)
Fixpoint from_last_dot (s : string) : option string :=
  match s with
  | EmptyString => None
  | String c s' =>
      match from_last_dot s' with
      | Some e => Some e
      | None => if (c =? ".")%char then Some s else None
      end
  end.

(** [os.path.splitext(p)[1]] of [posixpath]: the extension starts at the
    last dot of the base name, unless only dots come before it there. *)
Definition splitext_ext (p : string) : string :=
  let name := Text.basename p in
  match from_last_dot name with
  | Some ext =>
      if Text.all (Ascii.eqb ".") (Text.take (length name - length ext) name)
      then ""
      else ext
  | None => ""
  end.

Section Files.

(** The files: the bytes [open(p, "rb")] reads and the text
    [open(p, "r", encoding="utf-8", errors="ignore")] reads, or nothing when
    opening or reading raises. *)
Variable read_bytes : string -> option string.
Variable read_text : string -> option string.

Definition detect_file_type (file_path : string) : string :=
  let ext := Text.lower (splitext_ext file_path) in
  if existsb (String.eqb ext) [".pdf"] then "pdf"
  else if existsb (String.eqb ext) [".html"; ".htm"] then "html"
  else
    match read_bytes file_path with
    | None => "unknown"
    | Some bytes =>
        let header := Text.lower (Text.take 8 bytes) in
        if Text.startswith header "%pdf" then "pdf"
        else
          match read_text file_path with
          | None => "unknown"
          | Some text =>
              let start := Text.lower (Text.take 500 text) in
              if (Text.contains start "<html" || Text.contains start "<!doctype")%bool
              then "html"
              else "unknown"
          end
    end.

End Files.

End Functions.

(** ** Python dictionaries

    A [dict] keeps its keys in insertion order; assigning to a key that is
    present changes its value in place. *)

Module Dict.
Section Dict.
Context {K V : Type} (eqb : K -> K -> bool).

Definition dict : Type := list (K * V).

Fixpoint get (k : K) (d : dict) : option V :=
  match d with
  | [] => None
  | (k', v) :: d' => if eqb k k' then Some v else get k d'
  end.

(** [k in d] *)
Definition mem (k : K) (d : dict) : bool :=
  match get k d with
  | Some _ => true
  | None => false
  end.

(** [d[k] = v] *)
Fixpoint set (k : K) (v : V) (d : dict) : dict :=
  match d with
  | [] => [(k, v)]
  | (k', v') :: d' => if eqb k k' then (k', v) :: d' else (k', v') :: set k v d'
  end.

(** [{key(x): val(x) for x in l}] *)
Definition of_list {A : Type} (key : A -> K) (val : A -> V) (l : list A) : dict :=
  fold_left (fun d x => set (key x) (val x) d) l [].

Definition keys (d : dict) : list K := List.map fst d.

End Dict.
End Dict.

(** ** [main.py]: from a table grid to tidy records *)

Module Main.

(** A cell of a grid read from HTML: a text, or nothing ([NaN]). *)
Definition cell : Type := option string.

Definition notna (x : cell) : bool :=
  match x with
  | Some _ => true
  | None => false
  end.

(** A data frame of text cells: column labels and rows. *)
Record frame : Type := Frame {
  columns : list string;
  rows : list (list cell)
}.

(** The cell of row [r] in column [j]. *)
Definition at_col (j : nat) (r : list cell) : cell := nth j r None.

(** The elements of [l] whose position is marked in [mask]. *)
Fixpoint select {A : Type} (mask : list bool) (l : list A) : list A :=
  match mask, l with
  | true :: mask', x :: l' => x :: select mask' l'
  | false :: mask', _ :: l' => select mask' l'
  | _, _ => []
  end.

(** [df.dropna(axis=1, how="all")]: the columns with a value in some row. *)
Definition dropna_columns (df : frame) : frame :=
  let mask :=
    List.map (fun j => existsb (fun r => notna (at_col j r)) (rows df))
             (seq 0 (List.length (columns df))) in
  Frame (select mask (columns df)) (List.map (select mask) (rows df)).

(** [.fillna("").astype(str)] on a text cell. *)
Definition fillna_str (x : cell) : string :=
  match x with
  | Some s => s
  | None => ""
  end.

(** [df.iloc[0:2].fillna("").astype(str).agg(" ".join).str.strip()]:
    for each column, the cells of the first two rows joined by a space. *)
Definition header_of (df : frame) : list string :=
  List.map (fun j =>
              Text.strip (Text.join " "
                (List.map (fun r => fillna_str (at_col j r)) (firstn 2 (rows df)))))
           (seq 0 (List.length (columns df))).

(** Steps 1 to 3 of the normalizer: drop the empty columns, build the
    header from the first two rows, drop the header rows.  Assigning the
    columns raises when their number differs from the width of the frame. *)
Definition build_header (df_raw : frame) : result frame :=
  let df := dropna_columns df_raw in
  let header := header_of df in
  let new_columns := "Line Item" :: tl header in
  if Nat.eqb (List.length new_columns) (List.length (columns df))
  then Ok (Frame new_columns (skipn 3 (rows df)))
  else Raise (ValueError "Length mismatch").

(** [make_unique]: one step of its loop, on the dictionary [seen] and the
    list [new_cols]. *)
Definition make_unique_step (st : Dict.dict (K:=string) (V:=Z) * list string) (c : string)
  : Dict.dict (K:=string) (V:=Z) * list string :=
  let '(seen, new_cols) := st in
  match Dict.get String.eqb c seen with
  | None => (Dict.set String.eqb c 0%Z seen, (new_cols ++ [c])%list)
  | Some n =>
      let n' := (n + 1)%Z in
      (Dict.set String.eqb c n' seen,
       (new_cols ++ [(c ++ "_" ++ Text.str_of_Z n')%string])%list)
  end.

Definition make_unique (cols : list string) : list string :=
  snd (fold_left make_unique_step cols ([], [])).

(** What [make_unique] is meant to compute: a name that occurred [k] times
    before is kept when [k] is zero and gets the suffix [_k] otherwise. *)
Definition unique_name (before : list string) (c : string) : string :=
  match count_occ string_dec before c with
  | O => c
  | S k => c ++ "_" ++ Text.str_of_Z (Z.of_nat (S k))
  end.

Fixpoint unique_names (before cols : list string) : list string :=
  match cols with
  | [] => []
  | c :: cols' => unique_name before c :: unique_names (before ++ [c]) cols'
  end.

(** The dictionary [seen] after the names [before]: each name that occurred
    is mapped to the number of its occurrences, less one. *)
Definition seen_after (before : list string) (seen : Dict.dict (K:=string) (V:=Z)) : Prop :=
  forall c,
    Dict.get String.eqb c seen
    = match count_occ string_dec before c with
      | O => None
      | S k => Some (Z.of_nat k)
      end.

(** [try: body except: handler]. *)
Definition try_except {A : Type} (body : result A) (handler : exn -> result A)
  : result A :=
  match body with
  | Ok a => Ok a
  | Raise e => handler e
  end.

(** The text [clean_number] hands to [float]. *)
Definition number_text (x : string) : string :=
  let x := Text.strip (Text.replace (Text.replace x "," "") "$" "") in
  if (Text.startswith x "(" && Text.endswith x ")")%bool
  then "-" ++ Text.slice 1 (length x - 1) x
  else x.

(** A character of an unsigned number: a digit or the point. *)
Definition numeral_char (c : ascii) : bool :=
  (Text.is_digit c || (c =? ".")%char)%bool.

(** The text of a value, once its commas and dollar signs are removed,
    starts and ends with a digit or a point. *)
Definition unsigned_text (v : string) : bool :=
  let x := Text.remove "$" (Text.remove "," v) in
  (Text.first_is numeral_char x && Text.last_is numeral_char x)%bool.

Definition clean_number (x : cell) : result pyfloat :=
  match x with
  | None => Ok FNaN
  | Some x => try_except (Float.py_float (number_text x)) (fun _ => Ok FNaN)
  end.

(** The frame after cleaning: the line item of each row and its numbers,
    one per column after the first. *)
Record clean_frame : Type := CleanFrame {
  ccolumns : list string;
  crows : list (string * list pyfloat)
}.

(** [clean_number] never raises: its value. *)
Definition cleaned (x : cell) : pyfloat :=
  match clean_number x with
  | Ok v => v
  | Raise _ => FNaN
  end.

(** [.astype(str).str.strip()] on a line-item cell. *)
Definition line_item_text (x : cell) : string :=
  match x with
  | Some s => Text.strip s
  | None => "nan"
  end.

(** Steps 5 and 6: clean the numbers of every column after the first, and
    the text of the first.  From here on a column is addressed by its
    position, which is the column its label selects when the labels are
    distinct. *)
Definition clean_frame_of (df : frame) : clean_frame :=
  CleanFrame (columns df)
    (List.map (fun r => (line_item_text (at_col 0 r), List.map cleaned (tl r)))
              (rows df)).

(** The columns that hold a number in some row ([num_cols]), after the
    first column. *)
Definition num_cols_mask (df : clean_frame) : list bool :=
  List.map (fun j =>
              (existsb (fun r => negb (Float.isna (nth j (snd r) FNaN))) (crows df)
               && negb (nth (S j) (ccolumns df) "" =? "Line Item"))%bool)
           (seq 0 (List.length (ccolumns df) - 1)).

Definition keep_num_cols (df : clean_frame) : clean_frame :=
  let mask := num_cols_mask df in
  CleanFrame (hd "" (ccolumns df) :: select mask (tl (ccolumns df)))
             (List.map (fun r => (fst r, select mask (snd r))) (crows df)).

(** The renaming of the period columns. *)
Definition rename_column (col : string) : string :=
  if Text.contains col "June 30, 2025" then "June 30, 2025 (unaudited)"
  else if Text.contains col "December 31, 2024" then "December 31, 2024"
  else col.

Definition rename_columns (df : clean_frame) : clean_frame :=
  CleanFrame (List.map rename_column (ccolumns df)) (crows df).

(** A row of the long format. *)
Record tidy : Type := Tidy {
  line_item : string;
  period : string;
  value : pyfloat
}.

(** The rows [melt] makes: column after column, the rows from top to
    bottom. *)
Definition melt_rows (df : clean_frame) : list tidy :=
  flat_map (fun j =>
              List.map (fun r =>
                          Tidy (fst r) (nth (S j) (ccolumns df) "") (nth j (snd r) FNaN))
                       (crows df))
           (seq 0 (List.length (ccolumns df) - 1)).

(** [df.melt(id_vars="Line Item", var_name="Period", value_name="Value")]:
    pandas refuses a frame that has a column called as the value column
    will be. *)
Definition melt (df : clean_frame) : result (list tidy) :=
  if existsb (String.eqb "Value") (ccolumns df)
  then Raise (ValueError
                "value_name (Value) cannot match an element in the DataFrame columns.")
  else Ok (melt_rows df).

(** [df.dropna(subset=["Value"])] *)
Definition dropna_value (l : list tidy) : list tidy :=
  filter (fun t => negb (Float.isna (value t))) l.

(** From the frame with its header rebuilt to the tidy rows. *)
Definition reshape (df : frame) : result (list tidy) :=
  match melt (rename_columns (keep_num_cols (clean_frame_of df))) with
  | Ok l => Ok (dropna_value l)
  | Raise e => Raise e
  end.

(** A column after the first that holds a number in some row is called
    "Value". *)
Definition value_column (df : frame) : Prop :=
  exists r i,
    In r (rows df) /\ (1 <= i < List.length (columns df))%nat /\
    Float.isna (cleaned (at_col i r)) = false /\
    nth i (columns df) "" = "Value".

(** [r"_\d+"]: the pattern [r"_\d+$"] without its anchor. *)
Definition suffix_pattern : Re.regex := Re.Cat (Re.chr "_") (Re.plus Re.d).

(** [.str.replace(r"_\d+$", "", regex=True)] on a period label. *)
Definition strip_suffix (label : string) : string :=
  Re.sub_end suffix_pattern "" label.

(** A text that ends with an underscore and digits, before the newline that
    may end it. *)
Definition has_suffix (label : string) : Prop :=
  exists stem digits nl,
    label = stem ++ "_" ++ digits ++ nl /\
    digits <> "" /\ Text.all Text.is_digit digits = true /\
    (nl = "" \/ nl = String "010" "").

(** The words a table is recognised by. *)
Definition keywords_balance : list string :=
  ["total assets"; "total liabilities"; "stockholders"].

Definition keywords_income : list string :=
  ["operating expenses"; "total operating expenses"; "income from operations";
   "net loss"; "earnings per share"; "comprehensive loss"].

(** [.astype(str)] on a cell: a missing value reads "nan". *)
Definition cell_str (x : cell) : string :=
  match x with
  | Some s => s
  | None => "nan"
  end.

(** [" ".join(df.astype(str).values.flatten()).lower()] *)
Definition table_text (df : frame) : string :=
  Text.lower (Text.join " " (List.map cell_str (List.concat (rows df)))).

(** The statement type a table is a candidate for ([df_type]), if any. *)
Definition df_type (df : frame) : option string :=
  let table_text := table_text df in
  if existsb (Text.contains table_text) keywords_balance
  then Some "Balance Sheet"
  else if existsb (Text.contains table_text) keywords_income
  then Some "Income Statement"
  else None.

End Main.

(** ** [OLTP_load.py]: the normalized store and its loader *)

Module OLTP.

(** [datetime.date] *)
Record date : Type := Date { year : Z; month : Z; day : Z }.

Definition date_eqb (a b : date) : bool :=
  ((year a =? year b)%Z && (month a =? month b)%Z && (day a =? day b)%Z)%bool.

Definition option_eqb {A : Type} (eqb : A -> A -> bool) (x y : option A) : bool :=
  match x, y with
  | Some a, Some b => eqb a b
  | None, None => true
  | _, _ => false
  end.

(** What a column of parsed dates holds: a date, [None], or pandas' [NaT]
    ("not a time"). *)
Inductive pydate : Type :=
| ADate (d : date)
| NoDate
| NaT.

Definition pydate_eqb (a b : pydate) : bool :=
  match a, b with
  | ADate x, ADate y => date_eqb x y
  | NoDate, NoDate => true
  | NaT, NaT => true
  | _, _ => false
  end.

(** The date a cell holds, if any: [pd.isna] is true of [None] and of
    [NaT]. *)
Definition date_of (d : pydate) : option date :=
  match d with
  | ADate x => Some x
  | NoDate => None
  | NaT => None
  end.

(** A nullable date of the store, as a cell. *)
Definition of_date (d : option date) : pydate :=
  match d with
  | Some x => ADate x
  | None => NoDate
  end.

(** SQLite stores an integer in 64 bits; [sqlite3] refuses a Python [int]
    outside of them. *)
Definition fits_int64 (v : option Z) : bool :=
  match v with
  | Some n => ((- 2 ^ 63 <=? n) && (n <? 2 ^ 63))%Z
  | None => true
  end.

(** The tables of the store. *)
Record Company : Type := mkCompany {
  company_id : Z;
  ticker : string
}.

Record Filing : Type := mkFiling {
  filing_id : Z;
  filing_company_id : Z;
  filing_date : date;
  fiscal_year : option Z;
  is_audited : option bool
}.

Record StatementType : Type := mkStatementType {
  statement_type_id : Z;
  statement_type_name : string
}.

Record LineItem : Type := mkLineItem {
  line_item_id : Z;
  line_item_name : string
}.

Record FinancialFact : Type := mkFinancialFact {
  fact_id : Z;
  fact_filing_id : Z;
  fact_statement_type_id : Z;
  fact_line_item_id : Z;
  period_type : option string;
  end_date : option date;
  value : option pyfloat
}.

Record db : Type := mkDb {
  company : list Company;
  filing : list Filing;
  statement_type : list StatementType;
  line_item : list LineItem;
  financial_fact : list FinancialFact
}.

(** The identifier SQLite gives to a new row: one more than the largest. *)
Definition next_id (ids : list Z) : Z := (fold_right Z.max 0 ids + 1)%Z.

(** *** The session

    A session holds the committed store, the store as the open transaction
    sees it, and the number of calls made to the database so far. *)
Record session : Type := mkSession {
  committed : db;
  pending : db;
  calls : nat
}.

Definition M (A : Type) : Type := session -> result A * session.

Definition ret {A : Type} (a : A) : M A := fun st => (Ok a, st).

Definition raise {A : Type} (e : exn) : M A := fun st => (Raise e, st).

Definition bind {A B : Type} (m : M A) (f : A -> M B) : M B :=
  fun st =>
    match m st with
    | (Ok a, st') => f a st'
    | (Raise e, st') => (Raise e, st')
    end.

Notation "x <- m ;; f" := (bind m (fun x => f))
  (at level 61, m at next level, right associativity).
Notation "m ;; f" := (bind m (fun _ => f))
  (at level 61, right associativity).

(** [for x in l: body x] *)
Fixpoint for_each {A : Type} (l : list A) (body : A -> M unit) : M unit :=
  match l with
  | [] => ret tt
  | x :: l' => body x ;; for_each l' body
  end.

(** [session.rollback()] and [session.close()] drop what is not committed. *)
Definition rollback (st : session) : session :=
  mkSession (committed st) (committed st) (calls st).

Definition close (st : session) : session :=
  mkSession (committed st) (committed st) (calls st).

(** [try: body except Exception: session.rollback(); raise
    finally: session.close()] *)
Definition try_rollback_finally_close {A : Type} (body : M A) : M A :=
  fun st =>
    match body st with
    | (Ok a, st') => (Ok a, close st')
    | (Raise e, st') => (Raise e, close (rollback st'))
    end.

(** A table of the store, seen through its rows. *)
Record table (R : Type) : Type := mkTable {
  rows_of : db -> list R;
  with_rows : list R -> db -> db
}.
Arguments rows_of {R}.
Arguments with_rows {R}.

Definition company_table : table Company :=
  mkTable _ company
    (fun r d => mkDb r (filing d) (statement_type d) (line_item d) (financial_fact d)).
Definition filing_table : table Filing :=
  mkTable _ filing
    (fun r d => mkDb (company d) r (statement_type d) (line_item d) (financial_fact d)).
Definition statement_type_table : table StatementType :=
  mkTable _ statement_type
    (fun r d => mkDb (company d) (filing d) r (line_item d) (financial_fact d)).
Definition line_item_table : table LineItem :=
  mkTable _ line_item
    (fun r d => mkDb (company d) (filing d) (statement_type d) r (financial_fact d)).
Definition financial_fact_table : table FinancialFact :=
  mkTable _ financial_fact
    (fun r d => mkDb (company d) (filing d) (statement_type d) (line_item d) r).

(** A table with a unique name: company, statement type, line item. *)
Record named (R : Type) : Type := mkNamed {
  tbl : table R;
  id_of : R -> Z;
  name_of : R -> string;
  make : Z -> string -> R
}.
Arguments tbl {R}.
Arguments id_of {R}.
Arguments name_of {R}.
Arguments make {R}.

Definition companies : named Company :=
  mkNamed _ company_table company_id ticker mkCompany.
Definition statement_types : named StatementType :=
  mkNamed _ statement_type_table statement_type_id statement_type_name mkStatementType.
Definition line_items : named LineItem :=
  mkNamed _ line_item_table line_item_id line_item_name mkLineItem.

(** The rows after inserting [names], each with a fresh identifier; the
    unique constraint on the name refuses a name that is present. *)
Fixpoint insert_names {R : Type} (T : named R) (names : list string) (rows : list R)
  : result (list R) :=
  match names with
  | [] => Ok rows
  | n :: names' =>
      if existsb (fun r => name_of T r =? n) rows
      then Raise (IntegrityError "UNIQUE constraint failed")
      else insert_names T names'
             (rows ++ [make T (next_id (List.map (id_of T) rows)) n])
  end.

(** The natural key of a filing, as Python builds it: a tuple whose parts
    may be [None].  The date of a key is a date or no date: [NaT] is no
    date either, and it equals none. *)
Definition filing_key : Type := option Z * option date * option Z * option bool.

Definition filing_key_eqb (a b : filing_key) : bool :=
  let '(c1, d1, y1, a1) := a in
  let '(c2, d2, y2, a2) := b in
  (option_eqb Z.eqb c1 c2 && option_eqb date_eqb d1 d2
   && option_eqb Z.eqb y1 y2 && option_eqb Bool.eqb a1 a2)%bool.

Definition key_of_filing (f : Filing) : filing_key :=
  (Some (filing_company_id f), Some (filing_date f), fiscal_year f, is_audited f).

(** A filing to create: company, filing date, fiscal year, audited flag. *)
Record new_filing : Type := mkNewFiling {
  nf_company_id : Z;
  nf_filing_date : date;
  nf_fiscal_year : option Z;
  nf_is_audited : option bool
}.

Definition key_of_new (f : new_filing) : filing_key :=
  (Some (nf_company_id f), Some (nf_filing_date f), nf_fiscal_year f, nf_is_audited f).

(** The unique constraint of [filing] as SQLite checks it: two rows clash
    when their four columns are equal and none of them is NULL. *)
Definition filing_clash (f : new_filing) (r : Filing) : bool :=
  ((nf_company_id f =? filing_company_id r)%Z
   && date_eqb (nf_filing_date f) (filing_date r)
   && match nf_fiscal_year f, fiscal_year r with
      | Some a, Some b => (a =? b)%Z
      | _, _ => false
      end
   && match nf_is_audited f, is_audited r with
      | Some a, Some b => Bool.eqb a b
      | _, _ => false
      end)%bool.

(** The rows after inserting [new], one row after the other: binding a
    fiscal year that does not fit 64 bits raises [OverflowError], and the
    unique constraint refuses a row that clashes with one that is there. *)
Fixpoint insert_filings (new : list new_filing) (rows : list Filing)
  : result (list Filing) :=
  match new with
  | [] => Ok rows
  | f :: new' =>
      if negb (fits_int64 (nf_fiscal_year f))
      then Raise (OverflowError "Python int too large to convert to SQLite INTEGER")
      else if existsb (filing_clash f) rows
      then Raise (IntegrityError "UNIQUE constraint failed")
      else insert_filings new'
             (rows ++ [mkFiling (next_id (List.map filing_id rows))
                         (nf_company_id f) (nf_filing_date f)
                         (nf_fiscal_year f) (nf_is_audited f)])
  end.

(** A fact to insert. *)
Record new_fact : Type := mkNewFact {
  nfa_filing_id : Z;
  nfa_statement_type_id : Z;
  nfa_line_item_id : Z;
  nfa_period_type : option string;
  nfa_end_date : pydate;
  nfa_value : option pyfloat
}.

(** The rows after adding the facts [new], each with a fresh identifier. *)
Fixpoint add_facts (new : list new_fact) (rows : list FinancialFact)
  : list FinancialFact :=
  match new with
  | [] => rows
  | f :: new' =>
      add_facts new'
        (rows ++ [mkFinancialFact (next_id (List.map fact_id rows))
                    (nfa_filing_id f) (nfa_statement_type_id f) (nfa_line_item_id f)
                    (nfa_period_type f) (date_of (nfa_end_date f)) (nfa_value f)])
  end.

Definition is_nat (d : pydate) : bool :=
  match d with
  | NaT => true
  | _ => false
  end.

(** Inserting facts: the parameters of all the rows are prepared first, and
    an end date that is [NaT] cannot be written as a date: the statement
    raises and no row is inserted. *)
Definition has_nat (new : list new_fact) : bool :=
  existsb (fun f => is_nat (nfa_end_date f)) new.

Definition insert_facts (new : list new_fact) (rows : list FinancialFact)
  : result (list FinancialFact) :=
  if has_nat new
  then Raise (StatementError "(builtins.ValueError) cannot convert float NaN to integer")
  else Ok (add_facts new rows).

(** A cell that holds [None], a boolean or a text. *)
Inductive pyval : Type :=
| PyNone
| PyBool (b : bool)
| PyStr (s : string).

(** A row of the data frame handed to the loader. *)
Record record : Type := mkRecord {
  Ticker : option string;
  Filing_Date : option string;
  Statement_Type : option string;
  Line_Item : option string;
  Period_Type : option string;
  End_Date : option string;
  Fiscal_Year : option Z;
  Unaudited : pyval;
  Value : pyfloat
}.

(** The counts the loader logs. *)
Record report : Type := mkReport {
  n_companies : nat;
  n_statement_types : nat;
  n_line_items : nat;
  n_filings : nat;
  n_facts : nat
}.

Definition BATCH_SIZE : nat := 1000.

(** [.unique()] and [.drop_duplicates()]: the first occurrences, in order. *)
Fixpoint unique_from {A : Type} (eqb : A -> A -> bool) (seen l : list A) : list A :=
  match l with
  | [] => []
  | x :: l' =>
      if existsb (eqb x) seen then unique_from eqb seen l'
      else x :: unique_from eqb (x :: seen) l'
  end.

Definition unique {A : Type} (eqb : A -> A -> bool) (l : list A) : list A :=
  unique_from eqb [] l.

(** [.dropna()] *)
Definition dropna {A : Type} (l : list (option A)) : list A :=
  flat_map (fun x => match x with Some a => [a] | None => [] end) l.

(** [to_bool] *)
Definition to_bool (v : pyval) : option bool :=
  match v with
  | PyNone => None
  | PyBool b => Some b
  | PyStr s =>
      let s := Text.lower (Text.strip s) in
      if existsb (String.eqb s) ["true"; "1"; "t"; "yes"; "y"] then Some true
      else if existsb (String.eqb s) ["false"; "0"; "f"; "no"; "n"] then Some false
      else None
  end.

(** [fact_rows[i:i + n]] for [i] in [range(0, len(fact_rows), n)]. *)
Fixpoint chunks_from {A : Type} (fuel n : nat) (l : list A) : list (list A) :=
  match fuel with
  | O => []
  | S fuel' =>
      match l with
      | [] => []
      | _ => firstn n l :: chunks_from fuel' n (skipn n l)
      end
  end.

Definition chunks {A : Type} (n : nat) (l : list A) : list (list A) :=
  chunks_from (List.length l) n l.

(** [df['ticker'].dropna().astype(str).str.upper().unique().tolist()], and
    the same for the statement types and the line items. *)
Definition tickers_of (df : list record) : list string :=
  unique String.eqb (List.map Text.upper (dropna (List.map Ticker df))).

Definition stmt_names_of (df : list record) : list string :=
  unique String.eqb (dropna (List.map Statement_Type df)).

Definition li_names_of (df : list record) : list string :=
  unique String.eqb (dropna (List.map Line_Item df)).

Section Loader.

(** The database fails at the calls [faulty] marks: whatever the cause, the
    call raises. *)
Variable faulty : nat -> bool.

(** [datetime.strptime(text, fmt).date()], [None] when it raises, and
    [pd.to_datetime(text, errors="coerce").date()]: a date, [NaT] for a text
    pandas cannot read as a date, and [NoDate] when the call raises. *)
Variable strptime : string -> string -> option date.
Variable to_datetime : string -> pydate.

(** One call to the database. *)
Definition db_call : M unit :=
  fun st =>
    let st' := mkSession (committed st) (pending st) (S (calls st)) in
    if faulty (calls st)
    then (Raise (OperationalError "database call failed"), st')
    else (Ok tt, st').

(** [session.query(...).all()] *)
Definition query {A : Type} (q : db -> A) : M A :=
  db_call ;; (fun st => (Ok (q (pending st)), st)).

(** Writing to the open transaction. *)
Definition write (f : db -> result db) : M unit :=
  db_call ;;
  (fun st =>
     match f (pending st) with
     | Ok d => (Ok tt, mkSession (committed st) d (calls st))
     | Raise e => (Raise e, st)
     end).

(** [session.commit()] *)
Definition commit : M unit :=
  db_call ;; (fun st => (Ok tt, mkSession (pending st) (pending st) (calls st))).

(** [session.bulk_insert_mappings(Model, rows)] for each model. *)
Definition bulk_insert_names {R : Type} (T : named R) (names : list string) : M unit :=
  write (fun d =>
           match insert_names T names (rows_of (tbl T) d) with
           | Ok rows => Ok (with_rows (tbl T) rows d)
           | Raise e => Raise e
           end).

Definition bulk_insert_filings (new : list new_filing) : M unit :=
  write (fun d =>
           match insert_filings new (filing d) with
           | Ok rows => Ok (with_rows filing_table rows d)
           | Raise e => Raise e
           end).

Definition bulk_insert_facts (new : list new_fact) : M unit :=
  write (fun d =>
           match insert_facts new (financial_fact d) with
           | Ok rows => Ok (with_rows financial_fact_table rows d)
           | Raise e => Raise e
           end).

(** [parse_date] *)
Definition date_formats : list string :=
  ["%B %d, %Y"; "%b %d, %Y"; "%Y-%m-%d"; "%m/%d/%Y"; "%d-%b-%Y"].

Fixpoint first_parse (d : string) (fmts : list string) : option date :=
  match fmts with
  | [] => None
  | fmt :: fmts' =>
      match strptime d fmt with
      | Some x => Some x
      | None => first_parse d fmts'
      end
  end.

Definition parse_date (d : option string) : pydate :=
  match d with
  | None => NoDate
  | Some d =>
      match first_parse d date_formats with
      | Some x => ADate x
      | None => to_datetime d
      end
  end.

(** [.astype(str)] on a text column: a missing value reads "nan". *)
Definition astype_str (x : option string) : string :=
  match x with
  | Some s => s
  | None => "nan"
  end.

(** [session.query(Model).filter(Model.name.in_(names)).all()] and the
    dictionary from name to identifier built from it. *)
Definition query_names {R : Type} (T : named R) (names : list string) : M (list R) :=
  query (fun d =>
           filter (fun r => existsb (String.eqb (name_of T r)) names)
                  (rows_of (tbl T) d)).

Definition name_map {R : Type} (T : named R) (rows : list R)
  : Dict.dict (K:=string) (V:=Z) :=
  Dict.of_list String.eqb (name_of T) (id_of T) rows.

(** Steps 1, 2 and 3 of the loader: the rows of [names] that exist are
    fetched, the missing names are inserted and committed, and the rows are
    fetched again. *)
Definition upsert_names {R : Type} (T : named R) (names : list string)
  : M (Dict.dict (K:=string) (V:=Z)) :=
  existing <- query_names T names ;;
  let existing_map := name_map T existing in
  let new_objs := filter (fun n => negb (Dict.mem String.eqb n existing_map)) names in
  match new_objs with
  | [] => ret existing_map
  | _ =>
      bulk_insert_names T new_objs ;;
      commit ;;
      existing <- query_names T names ;;
      ret (name_map T existing)
  end.

(** The rows of [filings_df]: ticker, parsed filing date, fiscal year,
    audited flag. *)
Definition filing_cols : Type := option string * pydate * option Z * option bool.

Definition filing_cols_eqb (a b : filing_cols) : bool :=
  let '(t1, d1, y1, a1) := a in
  let '(t2, d2, y2, a2) := b in
  (option_eqb String.eqb t1 t2 && pydate_eqb d1 d2
   && option_eqb Z.eqb y1 y2 && option_eqb Bool.eqb a1 a2)%bool.

Definition filing_cols_of (r : record) : filing_cols :=
  (Ticker r, parse_date (Filing_Date r), Fiscal_Year r, to_bool (Unaudited r)).

(** [filings_to_create] *)
Definition filings_to_create (df : list record)
           (existing_ticker_map : Dict.dict (K:=string) (V:=Z)) : list new_filing :=
  flat_map
    (fun row : filing_cols =>
       let '(t, d, y, a) := row in
       match Dict.get String.eqb (Text.upper (astype_str t)) existing_ticker_map, d with
       | Some c, ADate d => [mkNewFiling c d y a]
       | _, _ => []
       end)
    (unique filing_cols_eqb (List.map filing_cols_of df)).

(** [session.query(Filing).filter(Filing.company_id.in_(company_ids)).all()] *)
Definition query_filings (company_ids : list Z) : M (list Filing) :=
  query (fun d =>
           filter (fun f => existsb (Z.eqb (filing_company_id f)) company_ids)
                  (filing d)).

(** [for f in existing_filings: existing_filing_map[key] = f.filing_id] *)
Definition add_filings (existing : list Filing)
           (m : Dict.dict (K:=filing_key) (V:=Z)) : Dict.dict (K:=filing_key) (V:=Z) :=
  fold_left (fun m f => Dict.set filing_key_eqb (key_of_filing f) (filing_id f) m)
            existing m.

(** Step 4 of the loader. *)
Definition upsert_filings (to_create : list new_filing)
  : M (Dict.dict (K:=filing_key) (V:=Z)) :=
  let company_ids := unique Z.eqb (List.map nf_company_id to_create) in
  existing_filing_map <-
    match to_create with
    | [] => ret []
    | _ => existing <- query_filings company_ids ;; ret (add_filings existing [])
    end ;;
  let new_filings :=
    filter (fun f => negb (Dict.mem filing_key_eqb (key_of_new f) existing_filing_map))
           to_create in
  match new_filings with
  | [] => ret existing_filing_map
  | _ =>
      bulk_insert_filings new_filings ;;
      commit ;;
      existing <- query_filings company_ids ;;
      ret (add_filings existing existing_filing_map)
  end.

(** The fact staged for one row of the data frame, if any. *)
Definition fact_of_row (ticker_to_company_id stmtname_to_id lineitem_to_id
                          : Dict.dict (K:=string) (V:=Z))
           (existing_filing_map : Dict.dict (K:=filing_key) (V:=Z))
           (r : record) : option new_fact :=
  match Ticker r with
  | None => None
  | Some t =>
      let t := Text.upper t in
      let company_id := Dict.get String.eqb t ticker_to_company_id in
      let filing_date := date_of (parse_date (Filing_Date r)) in
      let fy := Fiscal_Year r in
      let is_aud := to_bool (Unaudited r) in
      let key : filing_key := (company_id, filing_date, fy, is_aud) in
      let filing_id :=
        match Dict.get filing_key_eqb key existing_filing_map with
        | Some i => Some i
        | None =>
            let fallback_filings :=
              filter (fun k : filing_key =>
                        let '(c, d, _, _) := k in
                        (option_eqb Z.eqb c company_id
                         && option_eqb date_eqb d filing_date)%bool)
                     (Dict.keys existing_filing_map) in
            match fallback_filings with
            | k :: _ => Dict.get filing_key_eqb k existing_filing_map
            | [] => None
            end
        end in
      match filing_id, Statement_Type r, Line_Item r with
      | Some filing_id, Some stmt_name, Some line_item_name =>
          match Dict.get String.eqb stmt_name stmtname_to_id,
                Dict.get String.eqb line_item_name lineitem_to_id with
          | Some stmt_id, Some li_id =>
              Some (mkNewFact filing_id stmt_id li_id (Period_Type r)
                      (parse_date (End_Date r))
                      (if Float.isna (Value r) then None else Some (Value r)))
          | _, _ => None
          end
      | _, _, _ => None
      end
  end.

(** The body of the [try] block. *)
Definition load_body (df : list record) : M report :=
  let tickers := tickers_of df in
  existing_ticker_map <- upsert_names companies tickers ;;
  let stmt_names := stmt_names_of df in
  existing_stmt_map <- upsert_names statement_types stmt_names ;;
  let li_names := li_names_of df in
  existing_li_map <- upsert_names line_items li_names ;;
  existing_filing_map <- upsert_filings (filings_to_create df existing_ticker_map) ;;
  let fact_rows :=
    flat_map (fun r =>
                match fact_of_row existing_ticker_map existing_stmt_map
                        existing_li_map existing_filing_map r with
                | Some f => [f]
                | None => []
                end) df in
  for_each (chunks BATCH_SIZE fact_rows)
           (fun chunk => bulk_insert_facts chunk ;; commit) ;;
  ret (mkReport (List.length existing_ticker_map) (List.length existing_stmt_map)
                (List.length existing_li_map) (List.length existing_filing_map)
                (List.length fact_rows)).

Definition load_dataframe_to_db (df : list record) : M report :=
  try_rollback_finally_close (load_body df).

End Loader.

(** A session on the store [d], with nothing pending. *)
Definition open_session (d : db) : session := mkSession d d 0.

(** The database never fails. *)
Definition reliable : nat -> bool := fun _ => false.

(** The database fails at its [k]-th call, counted from zero. *)
Definition fails_at (k : nat) : nat -> bool := Nat.eqb k.

(** The rows of a batch the loader can insert as facts: those with a ticker,
    a filing date that parses, a statement type and a line item. *)
Definition insertable (parse_date : option string -> pydate) (r : record) : bool :=
  match Ticker r, parse_date (Filing_Date r), Statement_Type r, Line_Item r with
  | Some _, ADate _, Some _, Some _ => true
  | _, _, _, _ => false
  end.

(** An insertable row whose end date is [NaT]: the loader stages it, and
    the insert of its chunk raises. *)
Definition nat_row (parse_date : option string -> pydate) (r : record) : bool :=
  (insertable parse_date r && is_nat (parse_date (End_Date r)))%bool.

(** The fiscal years of the batch fit 64 bits. *)
Definition years_fit (df : list record) : Prop :=
  forall r, In r df -> fits_int64 (Fiscal_Year r) = true.

(** No end date of the batch is a text that parses to [NaT]. *)
Definition end_dates_read (parse_date : option string -> pydate) (df : list record)
  : Prop :=
  forall r, In r df -> parse_date (End_Date r) <> NaT.

(** The accessors of a named table behave as a table and its names. *)
Definition lawful {R : Type} (T : named R) : Prop :=
  (forall rows d, rows_of (tbl T) (with_rows (tbl T) rows d) = rows) /\
  (forall d, with_rows (tbl T) (rows_of (tbl T) d) d = d) /\
  (forall rows rows' d,
      with_rows (tbl T) rows (with_rows (tbl T) rows' d) = with_rows (tbl T) rows d) /\
  (forall i n, name_of T (make T i n) = n /\ id_of T (make T i n) = i).

(** Some row of the table has the name [n]. *)
Definition has_name {R : Type} (T : named R) (rows : list R) (n : string) : bool :=
  existsb (fun r => name_of T r =? n) rows.

(** The rows with a name among [names], and the names the loader finds
    missing from a table. *)
Definition named_in {R : Type} (T : named R) (names : list string) (rows : list R)
  : list R :=
  filter (fun r => existsb (String.eqb (name_of T r)) names) rows.

Definition missing_names {R : Type} (T : named R) (names : list string) (rows : list R)
  : list string :=
  filter (fun n => negb (Dict.mem String.eqb n (name_map T (named_in T names rows))))
         names.

(** The filings of the companies of [to_create], the dictionary the loader
    builds from them first, and the filings it finds missing. *)
Definition filings_of (to_create : list new_filing) (rows : list Filing) : list Filing :=
  filter (fun f => existsb (Z.eqb (filing_company_id f))
                     (unique Z.eqb (List.map nf_company_id to_create)))
         rows.

Definition filing_map_of (to_create : list new_filing) (rows : list Filing)
  : Dict.dict (K:=filing_key) (V:=Z) :=
  match to_create with
  | [] => []
  | _ => add_filings (filings_of to_create rows) []
  end.

Definition missing_filings (to_create : list new_filing) (rows : list Filing)
  : list new_filing :=
  filter (fun f => negb (Dict.mem filing_key_eqb (key_of_new f)
                           (filing_map_of to_create rows)))
         to_create.

(** What becomes of the table of filings in step 4: nothing when no filing
    is missing, and else the outcome of inserting the missing ones. *)
Definition filings_outcome (to_create : list new_filing) (rows : list Filing)
  : result (list Filing) :=
  match missing_filings to_create rows with
  | [] => Ok rows
  | new => insert_filings new rows
  end.

(** Every ticker, statement type and line item of the batch has its row. *)
Definition covered (df : list record) (d : db) : Prop :=
  (forall x, In x (tickers_of df) -> has_name companies (company d) x = true) /\
  (forall x, In x (stmt_names_of df) -> has_name statement_types (statement_type d) x = true) /\
  (forall x, In x (li_names_of df) -> has_name line_items (line_item d) x = true).

(** No two ticker cells of the batch read the same once upper-cased, unless
    they are the same cell value. *)
Definition distinct_tickers (df : list record) : Prop :=
  forall r1 r2,
    In r1 df -> In r2 df ->
    Text.upper (astype_str (Ticker r1)) = Text.upper (astype_str (Ticker r2)) ->
    Ticker r1 = Ticker r2.

(** Some row of [filing] has the key of [f]. *)
Definition has_filing (rows : list Filing) (f : new_filing) : bool :=
  existsb (fun r => filing_key_eqb (key_of_new f) (key_of_filing r)) rows.

(** A key with a filing date. *)
Definition has_date (k : filing_key) : Prop :=
  match k with
  | (_, Some _, _, _) => True
  | _ => False
  end.

(** Stand-ins for the date library, for the examples: [strptime] reads
    [YYYY-MM-DD] under the format [%Y-%m-%d] and [Month D, YYYY] under the
    format [%B %d, %Y], with the day within the month, and nothing else;
    [to_datetime] reads nothing. *)
Definition month_names : list string :=
  ["January"; "February"; "March"; "April"; "May"; "June"; "July"; "August";
   "September"; "October"; "November"; "December"].

Definition leap_year (y : Z) : bool :=
  ((y mod 4 =? 0) && (negb (y mod 100 =? 0) || (y mod 400 =? 0)))%Z%bool.

Definition days_in_month (y m : Z) : Z :=
  if (m =? 2)%Z then (if leap_year y then 29 else 28)%Z
  else if ((m =? 4) || (m =? 6) || (m =? 9) || (m =? 11))%Z%bool then 30%Z
  else 31%Z.

Definition example_date (y m d : string) : option date :=
  let y := Text.digits_value 0 y in
  let m := Text.digits_value 0 m in
  let d := Text.digits_value 0 d in
  if ((1 <=? y)%Z && (1 <=? m)%Z && (m <=? 12)%Z
      && (1 <=? d)%Z && (d <=? days_in_month y m)%Z)%bool
  then Some (Date y m d)
  else None.

(** [Month D, YYYY], the month being number [m] of [names]. *)
Fixpoint example_long_date (names : list string) (m : Z) (text : string)
  : option date :=
  match names with
  | [] => None
  | name :: names' =>
      if Text.startswith text (name ++ " ")
      then
        let rest := Text.drop (length name + 1) text in
        let n := (length rest - 6)%nat in
        let d := Text.take n rest in
        let y := Text.drop (n + 2) rest in
        if ((1 <=? n)%nat && (n <=? 2)%nat && (length rest =? n + 6)%nat
            && (Text.slice n (n + 2) rest =? ", ")
            && Text.all Text.is_digit (d ++ y))%bool
        then example_date y (Text.str_of_Z m) d
        else None
      else example_long_date names' (m + 1) text
  end.

Definition example_strptime (text fmt : string) : option date :=
  if fmt =? "%Y-%m-%d"
  then
    let y := Text.slice 0 4 text in
    let m := Text.slice 5 7 text in
    let d := Text.slice 8 10 text in
    if ((length text =? 10)%nat
        && (Text.slice 4 5 text =? "-") && (Text.slice 7 8 text =? "-")
        && Text.all Text.is_digit (y ++ m ++ d))%bool
    then example_date y m d
    else None
  else if fmt =? "%B %d, %Y"
  then example_long_date month_names 1 text
  else None.

Definition example_to_datetime (text : string) : pydate := NaT.

Definition empty_db : db := mkDb [] [] [] [] [].

Definition example_row : record :=
  mkRecord (Some "CATX") (Some "2025-08-13") (Some "Balance Sheet")
           (Some "Total Assets") (Some "Point-in-Time") (Some "2025-06-30")
           (Some 2025%Z) (PyBool true) (FNum (-271381 # 1)).

(** A batch of three rows of one filing: the first two are insertable, the
    third has no filing date. *)
Definition example_batch : list record :=
  [example_row;
   mkRecord (Some "CATX") (Some "2025-08-13") (Some "Balance Sheet")
            (Some "Cash") (Some "Point-in-Time") None (Some 2025%Z)
            (PyBool true) FNaN;
   mkRecord (Some "CATX") None (Some "Balance Sheet") (Some "Debt")
            None None None PyNone (FNum 1)].

(** A computation keeps the facts: it leaves the committed facts alone and
    ends with no fact pending, whether it returns or raises. *)
Definition keeps_facts {A : Type} (m : M A) : Prop :=
  forall st r st',
    m st = (r, st') ->
    financial_fact (pending st) = financial_fact (committed st) ->
    financial_fact (committed st') = financial_fact (committed st) /\
    financial_fact (pending st') = financial_fact (committed st').

(** Every chunk but the last is full. *)
Fixpoint full_but_last {A : Type} (n : nat) (l : list (list A)) : Prop :=
  match l with
  | [] => True
  | [c] => True
  | c :: l' => List.length c = n /\ full_but_last n l'
  end.

(** Every table of [d'] starts with the rows that table has in [d]: rows
    were added at the end, none was removed or changed. *)
Definition extends (d d' : db) : Prop :=
  (exists a, company d' = (company d ++ a)%list) /\
  (exists a, filing d' = (filing d ++ a)%list) /\
  (exists a, statement_type d' = (statement_type d ++ a)%list) /\
  (exists a, line_item d' = (line_item d ++ a)%list) /\
  (exists a, financial_fact d' = (financial_fact d ++ a)%list).

(** The constraints of the schema: primary keys are distinct, so are the
    tickers and the names of statement types and line items, and every
    foreign key is the key of a row. *)
Record sound (d : db) : Prop := mkSound {
  company_ids : NoDup (List.map company_id (company d));
  company_tickers : NoDup (List.map ticker (company d));
  filing_ids : NoDup (List.map filing_id (filing d));
  statement_type_ids : NoDup (List.map statement_type_id (statement_type d));
  statement_type_names : NoDup (List.map statement_type_name (statement_type d));
  line_item_ids : NoDup (List.map line_item_id (line_item d));
  line_item_names : NoDup (List.map line_item_name (line_item d));
  fact_ids : NoDup (List.map fact_id (financial_fact d));
  filing_company :
    forall fl, In fl (filing d) ->
               In (filing_company_id fl) (List.map company_id (company d));
  fact_filing :
    forall ff, In ff (financial_fact d) ->
               In (fact_filing_id ff) (List.map filing_id (filing d));
  fact_statement_type :
    forall ff, In ff (financial_fact d) ->
               In (fact_statement_type_id ff)
                  (List.map statement_type_id (statement_type d));
  fact_line_item :
    forall ff, In ff (financial_fact d) ->
               In (fact_line_item_id ff) (List.map line_item_id (line_item d))
}.

(** A session under an invariant [I] of the store: the committed store and
    the store of the open transaction satisfy it, and the second extends
    the first. *)
Definition good (I : db -> Prop) (st : session) : Prop :=
  I (committed st) /\ I (pending st) /\ extends (committed st) (pending st).

Definition grows (st st' : session) : Prop :=
  extends (committed st) (committed st') /\ extends (pending st) (pending st').

(** A stage of the loader: run in a good session whose open transaction
    satisfies [Pre], it ends, whether it returns or raises, in a good
    session that has grown, and what it returns satisfies [Post]. *)
Definition stage (I : db -> Prop) {A : Type} (m : M A)
           (Pre : db -> Prop) (Post : A -> db -> Prop) : Prop :=
  forall st r st',
    good I st -> Pre (pending st) -> m st = (r, st') ->
    good I st' /\ grows st st' /\ (forall a, r = Ok a -> Post a (pending st')).

(** A property of the store that adding rows keeps. *)
Definition monotone (P : db -> Prop) : Prop :=
  forall d d', extends d d' -> P d -> P d'.

(** The entries of a dictionary are among [pairs]. *)
Definition entries_in {K : Type} (m : Dict.dict (K:=K) (V:=Z)) (pairs : list (K * Z))
  : Prop :=
  forall k i, In (k, i) m -> In (k, i) pairs.

(** The name and the identifier of each row of a named table, and the key
    and the identifier of each filing. *)
Definition name_ids {R : Type} (T : named R) (d : db) : list (string * Z) :=
  List.map (fun r => (name_of T r, id_of T r)) (rows_of (tbl T) d).

Definition filing_key_ids (d : db) : list (filing_key * Z) :=
  List.map (fun f => (key_of_filing f, filing_id f)) (filing d).

(** The filings to insert belong to companies of the store. *)
Definition filing_refs (new : list new_filing) (d : db) : Prop :=
  forall f, In f new -> In (nf_company_id f) (List.map company_id (company d)).

(** The filings with the keys of [new] are in the store. *)
Definition present (new : list new_filing) (d : db) : Prop :=
  forall f, In f new ->
            exists fl, In fl (filing d) /\ key_of_filing fl = key_of_new f.

(** The columns of a stored fact, but its identifier. *)
Definition new_fact_of (ff : FinancialFact) : new_fact :=
  mkNewFact (fact_filing_id ff) (fact_statement_type_id ff) (fact_line_item_id ff)
            (period_type ff) (of_date (end_date ff)) (value ff).

(** The fact [f] is what the row [r] asks for in the store [d]: the row
    has a ticker, a filing date that parses, a statement type and a line
    item; the fact points to the filing whose key is the company of the
    upper-cased ticker, the parsed filing date, the fiscal year and the
    flag of the row, to the statement type and to the line item the row
    names, and it carries the period type, the parsed end date and the
    value of the row (NULL for NaN). *)
Definition staged_from (parse_date : option string -> pydate) (d : db)
           (r : record) (f : new_fact) : Prop :=
  exists t dt sn ln c,
    Ticker r = Some t /\ parse_date (Filing_Date r) = ADate dt /\
    Statement_Type r = Some sn /\ Line_Item r = Some ln /\
    In (Text.upper t, c) (name_ids companies d) /\
    In ((Some c, Some dt, Fiscal_Year r, to_bool (Unaudited r)), nfa_filing_id f)
       (filing_key_ids d) /\
    In (sn, nfa_statement_type_id f) (name_ids statement_types d) /\
    In (ln, nfa_line_item_id f) (name_ids line_items d) /\
    nfa_period_type f = Period_Type r /\
    nfa_end_date f = parse_date (End_Date r) /\
    nfa_value f = (if Float.isna (Value r) then None else Some (Value r)).

Definition facts_from (parse_date : option string -> pydate) (df : list record)
           (new : list new_fact) (d : db) : Prop :=
  forall f, In f new -> exists r, In r df /\ staged_from parse_date d r f.

(** The facts of [d] that were not in [d0] come from rows of [df]. *)
Definition added_from (parse_date : option string -> pydate) (df : list record)
           (d0 d : db) : Prop :=
  exists added,
    financial_fact d = (financial_fact d0 ++ added)%list /\
    forall ff, In ff added ->
               exists r, In r df /\ staged_from parse_date d r (new_fact_of ff).

(** What keeps an invariant [I]: the three kinds of insert. *)
Definition kept_by_names (I : db -> Prop) {R : Type} (T : named R) : Prop :=
  forall names d rows',
    I d -> insert_names T names (rows_of (tbl T) d) = Ok rows' ->
    I (with_rows (tbl T) rows' d).

Definition kept_by_filings (I : db -> Prop) : Prop :=
  forall new d rows',
    I d -> filing_refs new d -> insert_filings new (filing d) = Ok rows' ->
    I (with_rows filing_table rows' d).

Definition kept_by_facts (I : db -> Prop)
           (parse_date : option string -> pydate) (df : list record) : Prop :=
  forall new d rows',
    I d -> facts_from parse_date df new d ->
    insert_facts new (financial_fact d) = Ok rows' ->
    I (with_rows financial_fact_table rows' d).

(** The rows of a named table only grow as the store does. *)
Definition grows_with {R : Type} (T : named R) : Prop :=
  (forall d d', extends d d' ->
                exists a, rows_of (tbl T) d' = (rows_of (tbl T) d ++ a)%list) /\
  (forall d a, extends d (with_rows (tbl T) (rows_of (tbl T) d ++ a)%list d)).

(** A date of the calendar, as far as its key needs it: what
    [datetime.date] guarantees of the year, the month and the day. *)
Definition valid_date (d : date) : Prop :=
  (1 <= year d <= 9999)%Z /\ (1 <= month d <= 12)%Z /\ (1 <= day d <= 31)%Z.

(** A store with one filing and one fact. *)
Definition example_loaded : db :=
  mkDb [mkCompany 1 "CATX"]
       [mkFiling 1 1 (Date 2025 8 13) (Some 2025%Z) (Some true)]
       [mkStatementType 1 "Balance Sheet"]
       [mkLineItem 1 "Total Assets"; mkLineItem 2 "Revenue"]
       [mkFinancialFact 1 1 1 1 (Some "Point-in-Time") (Some (Date 2025 6 30))
                        (Some (FNum (5 # 1)))].

(** A batch of one row whose end date is no date of the calendar. *)
Definition example_nat_batch : list record :=
  [mkRecord (Some "CATX") (Some "2025-08-13") (Some "Balance Sheet")
            (Some "Total Assets") (Some "Point-in-Time") (Some "June 31, 2025")
            (Some 2025%Z) (PyBool true) (FNum 1)].

(** Two rows of one filing whose tickers differ by letter case only. *)
Definition example_case_batch : list record :=
  [example_row;
   mkRecord (Some "catx") (Some "2025-08-13") (Some "Balance Sheet")
            (Some "Cash") (Some "Point-in-Time") (Some "2025-06-30")
            (Some 2025%Z) (PyBool true) (FNum 1)].

End OLTP.

(** ** [OLAP.py]: the star schema *)

(** Equality of two nullable integers that are both present or both NULL. *)
Definition option_eqb_Z : option Z -> option Z -> bool := OLTP.option_eqb Z.eqb.

Module OLAP.
Local Open Scope list_scope.

Record company_dim_row : Type := mkCompanyDim {
  company_key : Z;
  cik : string;
  ticker : string;
  company_name : string
}.

Record date_dim_row : Type := mkDateDim {
  date_key : option Z;
  date : option OLTP.date;
  year : option Z;
  quarter : option Z;
  month : option Z;
  day : option Z
}.

Record statement_type_dim_row : Type := mkStatementTypeDim {
  statement_type_key : Z;
  statement_type : string
}.

Record fact_financials_row : Type := mkFactFinancials {
  fact_id : Z;
  fact_company_key : option Z;
  fact_date_key : option Z;
  fact_statement_type_key : option Z;
  line_item_id : option Z;
  value : option pyfloat
}.

(** The analytical database: each table exists or not; [fact_sequence] is
    the entry of [fact_financials] in [sqlite_sequence], the largest
    identifier AUTOINCREMENT has given. *)
Record olap_db : Type := mkOlap {
  company_dim : option (list company_dim_row);
  date_dim : option (list date_dim_row);
  statement_type_dim : option (list statement_type_dim_row);
  fact_financials : option (list fact_financials_row);
  fact_sequence : option Z
}.

Definition no_tables : olap_db := mkOlap None None None None None.

(** A statement on the analytical database. *)
Definition stmt : Type := olap_db -> result olap_db.

Definition then_ (s1 s2 : stmt) : stmt :=
  fun d =>
    match s1 d with
    | Ok d' => s2 d'
    | Raise e => Raise e
    end.

Notation "s1 ;;; s2" := (then_ s1 s2) (at level 61, right associativity).

(** [DROP TABLE IF EXISTS ...]; dropping [fact_financials] removes its entry
    in [sqlite_sequence]. *)
Definition drop_fact_financials : stmt :=
  fun d => Ok (mkOlap (company_dim d) (date_dim d) (statement_type_dim d) None None).
Definition drop_company_dim : stmt :=
  fun d => Ok (mkOlap None (date_dim d) (statement_type_dim d)
                 (fact_financials d) (fact_sequence d)).
Definition drop_date_dim : stmt :=
  fun d => Ok (mkOlap (company_dim d) None (statement_type_dim d)
                 (fact_financials d) (fact_sequence d)).
Definition drop_statement_type_dim : stmt :=
  fun d => Ok (mkOlap (company_dim d) (date_dim d) None
                 (fact_financials d) (fact_sequence d)).

(** [CREATE TABLE ...], which fails when the table exists. *)
Definition already_exists {A : Type} (name : string) : result A :=
  Raise (OperationalError ("table " ++ name ++ " already exists")%string).

Definition create_company_dim : stmt :=
  fun d =>
    match company_dim d with
    | Some _ => already_exists "company_dim"
    | None => Ok (mkOlap (Some []) (date_dim d) (statement_type_dim d)
                    (fact_financials d) (fact_sequence d))
    end.
Definition create_date_dim : stmt :=
  fun d =>
    match date_dim d with
    | Some _ => already_exists "date_dim"
    | None => Ok (mkOlap (company_dim d) (Some []) (statement_type_dim d)
                    (fact_financials d) (fact_sequence d))
    end.
Definition create_statement_type_dim : stmt :=
  fun d =>
    match statement_type_dim d with
    | Some _ => already_exists "statement_type_dim"
    | None => Ok (mkOlap (company_dim d) (date_dim d) (Some [])
                    (fact_financials d) (fact_sequence d))
    end.
Definition create_fact_financials : stmt :=
  fun d =>
    match fact_financials d with
    | Some _ => already_exists "fact_financials"
    | None => Ok (mkOlap (company_dim d) (date_dim d) (statement_type_dim d)
                    (Some []) (fact_sequence d))
    end.

Definition no_such_table {A : Type} (name : string) : result A :=
  Raise (OperationalError ("no such table: " ++ name)%string).

(** [INSERT OR REPLACE] into a table with an integer primary key: a row
    with the key of the new row is removed first. *)
Definition insert_or_replace {R : Type} (key : R -> Z) (rows : list R) (r : R) : list R :=
  filter (fun r' => negb (key r' =? key r)%Z) rows ++ [r].

(** The primary key of [date_dim] may be NULL in the select; SQLite then
    gives the row the next row identifier. *)
Definition date_dim_insert (rows : list date_dim_row) (r : date_dim_row)
  : list date_dim_row :=
  match date_key r with
  | Some k =>
      filter (fun r' => negb (option_eqb_Z (date_key r') (Some k))) rows ++ [r]
  | None =>
      rows ++ [mkDateDim (Some (OLTP.next_id (OLTP.dropna (List.map date_key rows))))
                 (date r) (year r) (quarter r) (month r) (day r)]
  end.

(** [CAST(strftime('%Y%m%d', d) AS INT)] and the other parts of a date. *)
Definition date_key_of (d : OLTP.date) : Z :=
  (OLTP.year d * 10000 + OLTP.month d * 100 + OLTP.day d)%Z.

Definition quarter_of (d : OLTP.date) : Z := (Z.quot (OLTP.month d - 1) 3 + 1)%Z.

Definition date_dim_of (d : OLTP.date) : date_dim_row :=
  mkDateDim (Some (date_key_of d)) (Some d) (Some (OLTP.year d))
            (Some (quarter_of d)) (Some (OLTP.month d)) (Some (OLTP.day d)).

Definition date_dim_row_eqb (a b : date_dim_row) : bool :=
  (option_eqb_Z (date_key a) (date_key b)
   && OLTP.option_eqb OLTP.date_eqb (date a) (date b)
   && option_eqb_Z (year a) (year b) && option_eqb_Z (quarter a) (quarter b)
   && option_eqb_Z (month a) (month b) && option_eqb_Z (day a) (day b))%bool.

(** [INSERT OR REPLACE INTO company_dim ... SELECT company_id, company_id,
    ticker, ticker FROM oltp.company] *)
Definition populate_company_dim (oltp : OLTP.db) : stmt :=
  fun d =>
    match company_dim d with
    | None => no_such_table "company_dim"
    | Some rows =>
        let selected :=
          List.map (fun c => mkCompanyDim (OLTP.company_id c)
                               (Text.str_of_Z (OLTP.company_id c))
                               (OLTP.ticker c) (OLTP.ticker c))
                   (OLTP.company oltp) in
        Ok (mkOlap (Some (fold_left (insert_or_replace company_key) selected rows))
                   (date_dim d) (statement_type_dim d)
                   (fact_financials d) (fact_sequence d))
    end.

(** [INSERT OR REPLACE INTO date_dim ... SELECT DISTINCT ... FROM oltp.filing] *)
Definition populate_date_dim (oltp : OLTP.db) : stmt :=
  fun d =>
    match date_dim d with
    | None => no_such_table "date_dim"
    | Some rows =>
        let selected :=
          OLTP.unique date_dim_row_eqb
            (List.map (fun f => date_dim_of (OLTP.filing_date f)) (OLTP.filing oltp)) in
        Ok (mkOlap (company_dim d) (Some (fold_left date_dim_insert selected rows))
                   (statement_type_dim d) (fact_financials d) (fact_sequence d))
    end.

(** [INSERT OR REPLACE INTO statement_type_dim ... FROM oltp.statement_type] *)
Definition populate_statement_type_dim (oltp : OLTP.db) : stmt :=
  fun d =>
    match statement_type_dim d with
    | None => no_such_table "statement_type_dim"
    | Some rows =>
        let selected :=
          List.map (fun s => mkStatementTypeDim (OLTP.statement_type_id s)
                               (OLTP.statement_type_name s))
                   (OLTP.statement_type oltp) in
        Ok (mkOlap (company_dim d) (date_dim d)
                   (Some (fold_left (insert_or_replace statement_type_key) selected rows))
                   (fact_financials d) (fact_sequence d))
    end.

(** The select of the fact table: facts joined to their filing and to the
    company of the filing; the filing identifier fills the slot of the
    statement type key. *)
Definition select_facts (oltp : OLTP.db)
  : list (option Z * option Z * option Z * option Z * option pyfloat) :=
  flat_map
    (fun ff =>
       flat_map
         (fun fl =>
            List.map
              (fun f =>
                 (Some (OLTP.company_id f), Some (date_key_of (OLTP.filing_date fl)),
                  Some (OLTP.filing_id fl), Some (OLTP.fact_line_item_id ff),
                  OLTP.value ff))
              (filter (fun f => (OLTP.filing_company_id fl =? OLTP.company_id f)%Z)
                      (OLTP.company oltp)))
         (filter (fun fl => (OLTP.fact_filing_id ff =? OLTP.filing_id fl)%Z)
                 (OLTP.filing oltp)))
    (OLTP.financial_fact oltp).

(** One row inserted with an AUTOINCREMENT key: the key is one more than the
    largest ever given. *)
Definition insert_fact (st : list fact_financials_row * Z)
           (r : option Z * option Z * option Z * option Z * option pyfloat)
  : list fact_financials_row * Z :=
  let '(rows, seq) := st in
  let '(ck, dk, sk, li, v) := r in
  let id := (Z.max seq (fold_right Z.max 0 (List.map fact_id rows)) + 1)%Z in
  (rows ++ [mkFactFinancials id ck dk sk li v], id).

(** [INSERT INTO fact_financials (...) SELECT ... FROM oltp.financial_fact ff
    JOIN oltp.filing fl ... JOIN oltp.company f ...]: the statement writes
    the entry of the table in [sqlite_sequence] even when the select is
    empty (the entry is then 0 for a table that had none). *)
Definition populate_fact_financials (oltp : OLTP.db) : stmt :=
  fun d =>
    match fact_financials d with
    | None => no_such_table "fact_financials"
    | Some rows =>
        let seq0 := match fact_sequence d with Some s => s | None => 0%Z end in
        let '(rows', seq) := fold_left insert_fact (select_facts oltp) (rows, seq0) in
        Ok (mkOlap (company_dim d) (date_dim d) (statement_type_dim d) (Some rows')
                   (Some seq))
    end.

(** The rows of a table, none when it does not exist. *)
Definition rows_in {R : Type} (t : option (list R)) : list R :=
  match t with
  | Some rows => rows
  | None => []
  end.

Definition create_and_populate_olap_schema_from_oltp (oltp : OLTP.db) : stmt :=
  drop_fact_financials ;;; drop_company_dim ;;; drop_date_dim ;;;
  drop_statement_type_dim ;;;
  create_company_dim ;;; create_date_dim ;;; create_statement_type_dim ;;;
  create_fact_financials ;;;
  populate_company_dim oltp ;;;
  populate_date_dim oltp ;;;
  populate_statement_type_dim oltp ;;;
  populate_fact_financials oltp.

End OLAP.

(** ** [quality_check.py] *)

Module QualityCheck.
Import OLAP.
Local Open Scope list_scope.

(** [a > b] on dates written [YYYY-MM-DD]. *)
Definition date_gtb (a b : OLTP.date) : bool :=
  ((OLTP.year b <? OLTP.year a)
   || ((OLTP.year a =? OLTP.year b)
       && ((OLTP.month b <? OLTP.month a)
           || ((OLTP.month a =? OLTP.month b) && (OLTP.day b <? OLTP.day a)))))%Z%bool.

(** [v <= 0] in SQL: false for NULL. *)
Definition non_positive (v : option pyfloat) : bool :=
  match v with
  | Some (FNum q) => Qle_bool q 0
  | Some (FInf neg) => neg
  | Some FNaN => false
  | None => false
  end.

Definition table_or_fail {R : Type} (name : string) (t : option (list R))
  : result (list R) :=
  match t with
  | Some rows => Ok rows
  | None => no_such_table name
  end.

Definition count {A : Type} (l : list A) : Z := Z.of_nat (List.length l).

Definition pair_eqb (a b : option Z * option Z) : bool :=
  (option_eqb_Z (fst a) (fst b) && option_eqb_Z (snd a) (snd b))%bool.

(** (1) [SELECT COUNT( * ) FROM date_dim WHERE date > DATE('now')] *)
Definition future_dates (today : OLTP.date) (dates : list date_dim_row) : Z :=
  count (filter (fun r => match date r with
                          | Some d => date_gtb d today
                          | None => false
                          end) dates).

(** (2) the fact identifiers that occur more than once *)
Definition duplicate_fact_ids (facts : list fact_financials_row) : Z :=
  let ids := List.map fact_id facts in
  count (filter (fun i => Nat.ltb 1 (List.length (filter (Z.eqb i) ids)))
                (OLTP.unique Z.eqb ids)).

(** (3) [... FROM fact_financials ff JOIN oltp.line_item li
         ON ff.line_item_id = li.line_item_id
         WHERE li.name = 'Revenue' AND ff.value <= 0] *)
Definition revenue_non_positive (oltp : OLTP.db) (facts : list fact_financials_row) : Z :=
  count
    (filter (fun p : fact_financials_row * OLTP.LineItem =>
               ((OLTP.line_item_name (snd p) =? "Revenue")
                && non_positive (value (fst p)))%bool)
            (flat_map
               (fun ff =>
                  List.map (fun li => (ff, li))
                    (filter (fun li => option_eqb_Z (line_item_id ff)
                                         (Some (OLTP.line_item_id li)))
                            (OLTP.line_item oltp)))
               facts)).

(** (4) the groups of company and date with a fact that has no line item *)
Definition missing_required_metrics (facts : list fact_financials_row) : Z :=
  let group_of := fun ff => (fact_company_key ff, fact_date_key ff) in
  count (filter (fun g =>
                   existsb (fun ff => (pair_eqb (group_of ff) g
                                       && match line_item_id ff with
                                          | None => true
                                          | Some _ => false
                                          end)%bool) facts)
                (OLTP.unique pair_eqb (List.map group_of facts))).

(** (5) the facts whose company key is in no row of [company_dim] *)
Definition orphaned_company_refs (companies : list company_dim_row)
           (facts : list fact_financials_row) : Z :=
  count (filter (fun ff =>
                   negb (existsb (fun cd => option_eqb_Z (fact_company_key ff)
                                              (Some (company_key cd)))
                                 companies))
                facts).

(** [run_quality_checks]: [today] is what [DATE('now')] gives. *)
Definition run_quality_checks (today : OLTP.date) (olap : olap_db) (oltp : OLTP.db)
  : result (list (string * Z)) :=
  match table_or_fail "date_dim" (date_dim olap) with
  | Raise e => Raise e
  | Ok dates =>
      let results := [("future_dates", future_dates today dates)] in
      match table_or_fail "fact_financials" (fact_financials olap) with
      | Raise e => Raise e
      | Ok facts =>
          let results := results ++ [("duplicate_fact_ids", duplicate_fact_ids facts)] in
          let results :=
            results ++ [("revenue_non_positive", revenue_non_positive oltp facts)] in
          let results :=
            results ++ [("missing_required_metrics", missing_required_metrics facts)] in
          match table_or_fail "company_dim" (company_dim olap) with
          | Raise e => Raise e
          | Ok companies =>
              Ok (results
                    ++ [("orphaned_company_refs", orphaned_company_refs companies facts)])
          end
      end
  end.

(** [results[name]] *)
Definition lookup (name : string) (results : list (string * Z)) : option Z :=
  Dict.get String.eqb name results.

(** The fact rows whose line item is called "Revenue" and whose value is
    not positive. *)
Definition is_revenue_loss (oltp : OLTP.db) (ff : fact_financials_row) : bool :=
  (existsb (fun li => (option_eqb_Z (line_item_id ff) (Some (OLTP.line_item_id li))
                       && (OLTP.line_item_name li =? "Revenue"))%bool)
           (OLTP.line_item oltp)
   && non_positive (value ff))%bool.

(** An analytical database with one "Revenue" fact of value -50, and the
    store it reads the line items from. *)
Definition example_store : OLTP.db :=
  OLTP.mkDb [OLTP.mkCompany 1 "CATX"] [] []
            [OLTP.mkLineItem 1 "Total Assets"; OLTP.mkLineItem 2 "Revenue"] [].

Definition example_fact : fact_financials_row :=
  mkFactFinancials 1 (Some 1%Z) (Some 20250813%Z) (Some 1%Z) (Some 2%Z)
                   (Some (FNum (-50 # 1))).

Definition example_olap : olap_db :=
  mkOlap (Some [mkCompanyDim 1 "1" "CATX" "CATX"]) (Some []) (Some [])
         (Some [example_fact]) (Some 1%Z).

(** The distinct filing dates of the store that are after [today], and the
    facts of the store whose line item is called "Revenue" and whose value
    is not positive. *)
Definition later_filing_dates (today : OLTP.date) (oltp : OLTP.db) : list OLTP.date :=
  filter (fun d => date_gtb d today)
         (OLTP.unique OLTP.date_eqb (List.map OLTP.filing_date (OLTP.filing oltp))).

Definition revenue_losses (oltp : OLTP.db) : list OLTP.FinancialFact :=
  filter (fun ff =>
            (existsb (fun li => ((OLTP.fact_line_item_id ff =? OLTP.line_item_id li)%Z
                                 && (OLTP.line_item_name li =? "Revenue"))%bool)
                     (OLTP.line_item oltp)
             && non_positive (OLTP.value ff))%bool)
         (OLTP.financial_fact oltp).

End QualityCheck.

(** ** [main.py]: from the tidy rows to the loader *)

Module Pipeline.
Import Main.

(** The row of [df_tidy_clean] made from a tidy row: the period label
    loses the suffix of a renamed column and is parsed, and the row gets
    the ticker and the filing date read from the path of the file and the
    statement type of the table.  (The program computes these columns one
    after the other for the whole frame; this is what they hold for one
    row, in a frame that has rows.) *)
Definition tidy_record (file_path df_type : string) (t : tidy) : result OLTP.record :=
  match Functions.parse_period (strip_suffix (period t)) with
  | Raise e => Raise e
  | Ok (period_type, end_date, unaudited, fiscal_year) =>
      match Functions.extract_metadata file_path with
      | Raise e => Raise e
      | Ok (ticker, filing_date) =>
          Ok (OLTP.mkRecord (Some ticker) (Some filing_date) (Some df_type)
                (Some (line_item t)) (Some period_type) end_date fiscal_year
                (OLTP.PyBool unaudited) (value t))
      end
  end.

(** The results of [f] on the elements of [l], or the first exception. *)
Fixpoint map_result {A B : Type} (f : A -> result B) (l : list A) : result (list B) :=
  match l with
  | [] => Ok []
  | x :: l' =>
      match f x with
      | Raise e => Raise e
      | Ok y =>
          match map_result f l' with
          | Raise e => Raise e
          | Ok ys => Ok (y :: ys)
          end
      end
  end.

(** Lines 145 to 161 for the whole frame [df_tidy]: the frame handed to
    the loader.  On a frame without rows [.apply(F.parse_period)] gives an
    empty series instead of a frame of four columns, and the assignment of
    the four columns raises. *)
Definition tidy_records (file_path df_type : string) (rows : list tidy)
  : result (list OLTP.record) :=
  match rows with
  | [] => Raise (ValueError "Columns must be same length as key")
  | _ => map_result (tidy_record file_path df_type) rows
  end.

(** The end date [parse_period] reads in the period label of a tidy row. *)
Definition end_date_of (t : tidy) : option string :=
  match Functions.parse_period (strip_suffix (period t)) with
  | Ok (_, end_date, _, _) => end_date
  | Raise _ => None
  end.

End Pipeline.

(* ================================================================== *)
(** * Properties *)

(** ** The embedding on a few inputs *)

Example parse_period_ex1 :
  Functions.parse_period "Three Months Ended June 30, 2025 (unaudited)"
  = Ok ("Three Months", Some "June 30, 2025", true, Some 2025%Z).
Proof. reflexivity. Qed.

Example parse_period_ex2 :
  Functions.parse_period "As of 0042 x"
  = Ok ("Point-in-Time", Some "42", false, Some 42%Z).
Proof. reflexivity. Qed.

Example py_float_ex1 : Float.py_float " -1_234.50e1 " = Ok (FNum (-12345 # 1)).
Proof. reflexivity. Qed.

Example extract_metadata_ex1 :
  Functions.extract_metadata "data/CATX_20250813_QR.html" = Ok ("CATX", "2025-08-13").
Proof. reflexivity. Qed.

(** ** Strings *)

Section StringFacts.

Lemma append_nil_r (s : string) : s ++ "" = s.
Proof. induction s; simpl; congruence. Qed.

Lemma append_assoc (s1 s2 s3 : string) : (s1 ++ s2) ++ s3 = s1 ++ (s2 ++ s3).
Proof. induction s1; simpl; congruence. Qed.

Lemma length_append (s1 s2 : string) :
  length (s1 ++ s2) = (length s1 + length s2)%nat.
Proof. induction s1; simpl; congruence. Qed.

Lemma take_append (s1 s2 : string) : Text.take (length s1) (s1 ++ s2) = s1.
Proof. induction s1; simpl; [destruct s2 | ]; congruence. Qed.

Lemma drop_append (s1 s2 : string) : Text.drop (length s1) (s1 ++ s2) = s2.
Proof. induction s1; simpl; auto. Qed.

Lemma take_consumed (pre rest : string) :
  Text.take (length (pre ++ rest) - length rest) (pre ++ rest) = pre.
Proof.
  rewrite length_append.
  replace (length pre + length rest - length rest)%nat with (length pre) by lia.
  apply take_append.
Qed.

Lemma all_append (p : ascii -> bool) (s1 s2 : string) :
  Text.all p (s1 ++ s2) = (Text.all p s1 && Text.all p s2)%bool.
Proof. induction s1; simpl; [ | rewrite IHs1, andb_assoc ]; reflexivity. Qed.

End StringFacts.

(** ** The matcher finds only matches *)

Section MatcherFacts.
Import Re.

Context {R : Type}.

Lemma star_loop_sound r (body : string -> caps -> @cont R -> option R) :
  sound_for r body ->
  forall fuel, sound_for (Star r) (star_loop body fuel).
Proof.
  intros Hbody fuel; induction fuel as [ | fuel IH]; intros s0 c k x H; simpl in H.
  - exists "", s0, c. repeat split; auto. constructor.
  - destruct (body s0 c _) as [y | ] eqn:E.
    + injection H as ->.
      apply Hbody in E. destruct E as (pre & rest & c' & -> & Hpre & Hk).
      destruct (Nat.ltb _ _); [ | discriminate].
      apply IH in Hk. destruct Hk as (pre2 & rest2 & c2 & -> & Hpre2 & Hk).
      exists (pre ++ pre2), rest2, c2. rewrite append_assoc.
      repeat split; auto. constructor; assumption.
    + exists "", s0, c. repeat split; auto. constructor.
Qed.

Lemma matchk_sound r : sound_for (R:=R) r (matchk r).
Proof.
  induction r as [ | p | r1 IH1 r2 IH2 | r1 IH1 r2 IH2 | r IH | i r IH];
    intros s0 c k x H; simpl in H.
  - exists "", s0, c. repeat split; auto. constructor.
  - destruct s0 as [ | a s']; [discriminate | ].
    destruct (p a) eqn:E; [ | discriminate].
    exists (String a ""), s', c. repeat split; auto. constructor; assumption.
  - apply IH1 in H. destruct H as (pre1 & rest1 & c1 & -> & H1 & H).
    apply IH2 in H. destruct H as (pre2 & rest2 & c2 & -> & H2 & H).
    exists (pre1 ++ pre2), rest2, c2. rewrite append_assoc.
    repeat split; auto. constructor; assumption.
  - destruct (matchk r1 s0 c k) as [y | ] eqn:E.
    + injection H as ->. apply IH1 in E.
      destruct E as (pre & rest & c' & -> & Hl & Hk).
      exists pre, rest, c'. repeat split; auto. apply lang_alt_l; assumption.
    + apply IH2 in H. destruct H as (pre & rest & c' & -> & Hl & Hk).
      exists pre, rest, c'. repeat split; auto. apply lang_alt_r; assumption.
  - apply (star_loop_sound r _ IH) in H. exact H.
  - apply IH in H. destruct H as (pre & rest & c' & -> & Hl & Hk).
    exists pre, rest, ((i, Text.take (length (pre ++ rest) - length rest) (pre ++ rest)) :: c').
    repeat split; auto. constructor; assumption.
Qed.

End MatcherFacts.

Section SearchFacts.
Import Re.

Lemma re_match_sound r s m :
  re_match r s = Some m -> s = group0 m ++ rest m /\ lang r (group0 m).
Proof.
  unfold re_match; intros H.
  apply matchk_sound in H. destruct H as (pre & rest & c' & -> & Hl & Hk).
  injection Hk as <-. simpl. rewrite take_consumed. split; auto.
Qed.

Lemma re_search_sound r s m :
  re_search r s = Some m ->
  lang r (group0 m) /\ exists before, s = before ++ group0 m ++ rest m.
Proof.
  induction s as [ | a s IH]; simpl; intros H.
  - destruct (re_match r "") as [m' | ] eqn:E; [ | discriminate].
    injection H as ->. apply re_match_sound in E. destruct E as [E L].
    split; auto. exists "". exact E.
  - destruct (re_match r (String a s)) as [m' | ] eqn:E.
    + injection H as ->. apply re_match_sound in E. destruct E as [E L].
      split; auto. exists "". exact E.
    + apply IH in H. destruct H as [L [before ->]].
      split; auto. exists (String a before). reflexivity.
Qed.

Lemma re_search_complete r before s :
  re_match r s <> None -> re_search r (before ++ s) <> None.
Proof.
  intros H; induction before as [ | a before IH]; simpl.
  - destruct s; simpl; destruct (re_match r _); congruence.
  - destruct (re_match r (String a (before ++ s))); congruence.
Qed.

End SearchFacts.

Section FilenameFacts.
Import Re.

(** A greedy star over a character class runs to the end of the class. *)
Lemma star_sym_greedy {R : Type} (p : ascii -> bool) (t rest : string) :
  Text.all p t = true ->
  (forall b r, rest = String b r -> p b = false) ->
  forall (fuel : nat) (c : caps) (k : @cont R) (x : R),
    (length (t ++ rest) <= fuel)%nat ->
    k rest c = Some x ->
    star_loop (fun s0 c0 k0 =>
                 match s0 with
                 | "" => None
                 | String a s' => if p a then k0 s' c0 else None
                 end) fuel (t ++ rest) c k = Some x.
Proof.
  intros Hall Hstop.
  induction t as [ | a t IH]; simpl in *; intros fuel c k x Hfuel Hk.
  - destruct fuel as [ | fuel]; simpl; auto.
    destruct rest as [ | b rest]; auto.
    rewrite (Hstop b rest eq_refl). exact Hk.
  - apply andb_prop in Hall. destruct Hall as [Ha Ht].
    destruct fuel as [ | fuel]; [lia | ]. simpl. rewrite Ha.
    replace (length (t ++ rest) <? S (length (t ++ rest)))%nat with true
      by (symmetry; apply Nat.ltb_lt; lia).
    rewrite (IH Ht fuel c k x); auto. lia.
Qed.

Lemma take_split (s pre rest : string) :
  s = pre ++ rest -> Text.take (length s - length rest) s = pre.
Proof. intros ->. apply take_consumed. Qed.

Lemma string_of_length_8 (s : string) :
  length s = 8%nat ->
  exists a b c d e f g h,
    s = String a (String b (String c (String d
          (String e (String f (String g (String h ""))))))).
Proof.
  intros H.
  do 8 (destruct s as [ | ? s]; [discriminate | ]).
  destruct s; [ | discriminate].
  repeat eexists.
Qed.

Lemma filename_match (ticker digits suffix : string) :
  ticker <> "" ->
  Text.all Text.is_upper ticker = true ->
  length digits = 8%nat ->
  Text.all Text.is_digit digits = true ->
  re_match Functions.filename_pattern (ticker ++ "_" ++ digits ++ "_" ++ suffix)
  = Some (MatchObj (ticker ++ "_" ++ digits ++ "_")
                   [(2%nat, digits); (1%nat, ticker)] suffix).
Proof.
  intros Hne Hup Hlen Hdig.
  destruct ticker as [ | a t]; [congruence | ]. clear Hne.
  simpl in Hup. apply andb_prop in Hup. destruct Hup as [Ha Ht].
  destruct (string_of_length_8 _ Hlen) as (d1 & d2 & d3 & d4 & d5 & d6 & d7 & d8 & ->).
  simpl in Hdig.
  repeat (apply andb_prop in Hdig; destruct Hdig as [? Hdig]).
  unfold re_match, Functions.filename_pattern, plus.
  cbn [matchk]. cbn [append]. rewrite Ha.
  erewrite star_sym_greedy; [reflexivity | exact Ht | | simpl; lia | ].
  - intros b r E. injection E as <- _. reflexivity.
  - cbn [matchk rep d chr].
    repeat match goal with
           | E : Text.is_digit _ = true |- _ => rewrite E; clear E
           end.
    change ("_" =? "_")%char with true. cbv iota.
    f_equal. f_equal; [ | repeat f_equal ];
      apply take_split; simpl; rewrite ?append_assoc; reflexivity.
Qed.

Lemma lang_sym_inv p x :
  lang (Sym p) x -> exists a, x = String a "" /\ p a = true.
Proof. intros H; inversion H; subst; eauto. Qed.

Lemma lang_star_sym p x : lang (Star (Sym p)) x -> Text.all p x = true.
Proof.
  intros H. remember (Star (Sym p)) as r eqn:E.
  induction H; try discriminate; injection E as ->; auto.
  apply lang_sym_inv in H. destruct H as (a & -> & Ha).
  simpl. rewrite Ha. auto.
Qed.

Lemma lang_cat_inv r1 r2 x :
  lang (Cat r1 r2) x -> exists x1 x2, x = x1 ++ x2 /\ lang r1 x1 /\ lang r2 x2.
Proof. intros H; inversion H; subst; eauto. Qed.

Lemma lang_group_inv i r x : lang (Group i r) x -> lang r x.
Proof. intros H; inversion H; subst; auto. Qed.

Lemma lang_rep_digits n x :
  lang (rep n d) x -> length x = n /\ Text.all Text.is_digit x = true.
Proof.
  revert x; induction n as [ | n IH]; intros x H.
  - inversion H; subst; auto.
  - destruct n as [ | n].
    + apply lang_sym_inv in H. destruct H as (a & -> & Ha). simpl. rewrite Ha. auto.
    + change (rep (S (S n)) d) with (Cat d (rep (S n) d)) in H.
      apply lang_cat_inv in H. destruct H as (x1 & x2 & -> & H1 & H2).
      apply lang_sym_inv in H1. destruct H1 as (a & -> & Ha).
      apply IH in H2. destruct H2 as [L A].
      simpl. rewrite Ha, L, A. auto.
Qed.

Lemma lang_filename_pattern x :
  lang Functions.filename_pattern x ->
  exists ticker digits,
    x = ticker ++ "_" ++ digits ++ "_" /\
    ticker <> "" /\ Text.all Text.is_upper ticker = true /\
    length digits = 8%nat /\ Text.all Text.is_digit digits = true.
Proof.
  unfold Functions.filename_pattern, plus. intros H.
  apply lang_cat_inv in H. destruct H as (t & x1 & -> & Ht & H).
  apply lang_cat_inv in H. destruct H as (u1 & x2 & -> & Hu1 & H).
  apply lang_cat_inv in H. destruct H as (dg & u2 & -> & Hd & Hu2).
  apply lang_group_inv, lang_cat_inv in Ht. destruct Ht as (a & t' & -> & Ha & Ht).
  apply lang_sym_inv in Ha. destruct Ha as (a' & -> & Ha).
  apply lang_star_sym in Ht.
  apply lang_sym_inv in Hu1. destruct Hu1 as (b1 & -> & Hb1).
  apply lang_sym_inv in Hu2. destruct Hu2 as (b2 & -> & Hb2).
  apply Ascii.eqb_eq in Hb1, Hb2. subst b1 b2.
  apply lang_group_inv, lang_rep_digits in Hd. destruct Hd as [Hl Hd].
  exists (String a' t'), dg. simpl. rewrite Ha, Ht. repeat split; auto. discriminate.
Qed.

Lemma filename_no_match (name : string) :
  ~ Functions.follows_convention name ->
  re_match Functions.filename_pattern name = None.
Proof.
  intros Hno. destruct (re_match _ name) as [m | ] eqn:E; auto.
  exfalso. apply Hno. apply re_match_sound in E. destruct E as [-> L].
  apply lang_filename_pattern in L.
  destruct L as (t & dg & -> & H1 & H2 & H3 & H4).
  exists t, dg, (rest m). rewrite !append_assoc. simpl. rewrite ?append_assoc. auto.
Qed.

End FilenameFacts.

(** ** [extract_metadata] *)

Section ExtractMetadata.
Import Functions.

Lemma extract_metadata_ok file_path ticker digits suffix :
  Text.basename file_path = ticker ++ "_" ++ digits ++ "_" ++ suffix ->
  ticker <> "" ->
  Text.all Text.is_upper ticker = true ->
  length digits = 8%nat ->
  Text.all Text.is_digit digits = true ->
  extract_metadata file_path = Ok (ticker, hyphenate digits).
Proof.
  intros E Hne Hup Hlen Hdig. unfold extract_metadata.
  rewrite E, (filename_match ticker digits suffix Hne Hup Hlen Hdig). simpl.
  destruct (string_of_length_8 _ Hlen) as (d1 & d2 & d3 & d4 & d5 & d6 & d7 & d8 & ->).
  reflexivity.
Qed.

Lemma hyphenate_iso digits :
  length digits = 8%nat ->
  Text.all Text.is_digit digits = true ->
  iso_shape (hyphenate digits).
Proof.
  intros Hlen Hdig.
  destruct (string_of_length_8 _ Hlen) as (d1 & d2 & d3 & d4 & d5 & d6 & d7 & d8 & ->).
  exists (String d1 (String d2 (String d3 (String d4 "")))),
         (String d5 (String d6 "")), (String d7 (String d8 "")).
  repeat split; auto.
Qed.

Lemma extract_metadata_mismatch file_path :
  ~ follows_convention (Text.basename file_path) ->
  extract_metadata file_path
  = Raise (ValueError ("Filename does not match expected pattern: "
                         ++ Text.basename file_path)).
Proof.
  intros H. unfold extract_metadata. rewrite (filename_no_match _ H). reflexivity.
Qed.


Lemma lowercase_name_deviates : ~ follows_convention "catx_20250813_QR.html".
Proof.
  intros (t & dg & sfx & E & Hne & Hup & _).
  destruct t as [ | a t]; [congruence | ].
  simpl in E. injection E as <- _. discriminate Hup.
Qed.


(** C10: the eight digits are not checked against the calendar: for every
    base name made of upper-case letters, an underscore, any eight digits and
    an underscore, the extractor succeeds and the filing date is the digits
    with hyphens after the fourth and the sixth, as for
    [XYZ_99999999_a.html], whose filing date is [9999-99-99]. *)
Theorem extract_metadata_no_calendar_check :
  (forall file_path ticker digits suffix,
      Text.basename file_path = ticker ++ "_" ++ digits ++ "_" ++ suffix ->
      ticker <> "" ->
      Text.all Text.is_upper ticker = true ->
      length digits = 8%nat ->
      Text.all Text.is_digit digits = true ->
      extract_metadata file_path
      = Ok (ticker, Text.slice 0 4 digits ++ "-" ++ Text.slice 4 6 digits
                      ++ "-" ++ Text.slice 6 8 digits)) /\
  extract_metadata "XYZ_99999999_a.html" = Ok ("XYZ", "9999-99-99").
Proof.
  split; [ | reflexivity].
  intros file_path ticker digits suffix E Hne Hup Hlen Hdig.
  exact (extract_metadata_ok file_path ticker digits suffix E Hne Hup Hlen Hdig).
Qed.

Lemma extract_metadata_no_calendar_check_witness :
  extract_metadata "reports/AB_20251340_x.pdf" = Ok ("AB", "2025-13-40").
Proof.
  apply (proj1 extract_metadata_no_calendar_check
           "reports/AB_20251340_x.pdf" "AB" "20251340" "x.pdf");
    solve [reflexivity | discriminate].
Defined.

End ExtractMetadata.

(** ** [parse_period] *)

Section ParsePeriod.
Import Re Functions.

Lemma prefix_spec (p s : string) :
  prefix p s = true <-> exists b, s = p ++ b.
Proof.
  revert s; induction p as [ | a p IH]; intros s; simpl.
  - destruct s; split; eauto.
  - destruct s as [ | c s]; simpl.
    + split; [discriminate | intros [b E]; discriminate].
    + destruct (ascii_dec a c) as [-> | Hne].
      * rewrite IH. split; intros [b E]; exists b; congruence.
      * split; [discriminate | intros [b E]; congruence].
Qed.

Lemma contains_spec (s p : string) :
  Text.contains s p = true <-> Text.occurs_in p s.
Proof.
  unfold Text.occurs_in. induction s as [ | c s IH].
  - cbn [Text.contains]. rewrite orb_false_r, prefix_spec. split.
    + intros [b E]. exists "", b. exact E.
    + intros (a & b & E). destruct a; [eauto | discriminate].
  - cbn [Text.contains]. rewrite orb_true_iff, prefix_spec, IH. split.
    + intros [[b E] | (a & b & E)].
      * exists "", b. exact E.
      * exists (String c a), b. simpl. congruence.
    + intros (a & b & E). destruct a as [ | c' a].
      * left. exists b. exact E.
      * right. exists a, b. simpl in E. congruence.
Qed.

Lemma digit_not_space c : Text.is_digit c = true -> Text.is_space c = false.
Proof.
  destruct c as [[] [] [] [] [] [] [] []]; vm_compute; congruence.
Qed.

Lemma digit_not_sign c s :
  Text.is_digit c = true -> Text.scan_sign (String c s) = (false, String c s).
Proof.
  destruct c as [[] [] [] [] [] [] [] []]; vm_compute; congruence.
Qed.

Lemma rstrip_digits s : Text.all Text.is_digit s = true -> Text.rstrip s = s.
Proof.
  induction s as [ | c s IH]; simpl; auto.
  intros H. apply andb_prop in H. destruct H as [Hc Hs].
  rewrite (IH Hs), (digit_not_space c Hc). destruct s; reflexivity.
Qed.

Lemma scan_digits_all s :
  Text.all Text.is_digit s = true ->
  forall acc n,
    Text.scan_digits acc n s = (Text.digits_value acc s, (n + length s)%nat, "").
Proof.
  induction s as [ | c s IH]; simpl; intros H acc n.
  - rewrite Nat.add_0_r. reflexivity.
  - apply andb_prop in H. destruct H as [Hc Hs].
    rewrite Hc, (IH Hs). do 2 f_equal. lia.
Qed.

(** [int] accepts every non-empty run of digits. *)
Lemma py_int_digits s :
  s <> "" -> Text.all Text.is_digit s = true ->
  Text.py_int s = Ok (Text.digits_value 0 s).
Proof.
  intros Hne H. unfold Text.py_int, Text.strip.
  destruct s as [ | c s]; [congruence | ].
  pose proof H as H'. simpl in H'. apply andb_prop in H'. destruct H' as [Hc Hs].
  cbn [Text.lstrip]. rewrite (digit_not_space c Hc), (rstrip_digits _ H).
  rewrite (digit_not_sign c s Hc), (scan_digits_all _ H). reflexivity.
Qed.

Lemma year_match_complete a b c e s :
  Text.is_digit a = true -> Text.is_digit b = true ->
  Text.is_digit c = true -> Text.is_digit e = true ->
  re_match year_pattern (String a (String b (String c (String e s)))) <> None.
Proof.
  intros Ha Hb Hc He. unfold re_match, year_pattern. cbn [matchk rep d].
  rewrite Ha, Hb, Hc, He. discriminate.
Qed.

Lemma string_of_length_4 (s : string) :
  length s = 4%nat ->
  exists a b c e, s = String a (String b (String c (String e ""))).
Proof.
  intros H.
  do 4 (destruct s as [ | ? s]; [discriminate | ]).
  destruct s; [ | discriminate].
  repeat eexists.
Qed.

(** A year is found in every text that ends with four digits. *)
Lemma year_search_complete before digits :
  length digits = 4%nat -> Text.all Text.is_digit digits = true ->
  re_search year_pattern (before ++ digits) <> None.
Proof.
  intros Hl Hd. apply re_search_complete.
  destruct (string_of_length_4 _ Hl) as (a & b & c & e & ->).
  simpl in Hd. repeat (apply andb_prop in Hd; destruct Hd as [? Hd]).
  apply year_match_complete; assumption.
Qed.

Lemma lang_date_pattern x :
  lang date_pattern x ->
  exists before digits,
    x = before ++ digits /\ length digits = 4%nat /\
    Text.all Text.is_digit digits = true.
Proof.
  unfold date_pattern. intros H.
  do 5 (apply lang_cat_inv in H;
          let x1 := fresh "x" in let H1 := fresh "H" in
          destruct H as (x1 & ? & -> & H1 & H)).
  apply (lang_rep_digits 4) in H. destruct H as [Hl Hd].
  eexists _, _. split; [ | split; eassumption].
  rewrite <- !append_assoc. reflexivity.
Qed.

(** The year found in a text is accepted by [int]. *)
Lemma year_found_is_int s m :
  re_search year_pattern s = Some m ->
  Text.py_int (group0 m) = Ok (Text.digits_value 0 (group0 m)).
Proof.
  intros H. apply re_search_sound in H. destruct H as [L _].
  apply lang_rep_digits in L. destruct L as [Hl Hd].
  apply py_int_digits; auto. intros E. rewrite E in Hl. discriminate.
Qed.

Lemma parse_period_returns p :
  exists end_date unaudited year,
    parse_period p
    = Ok (if Text.contains p "Three Months" then "Three Months"
          else if Text.contains p "Six Months" then "Six Months"
          else if Text.contains p "Year Ended" then "Year Ended"
          else "Point-in-Time", end_date, unaudited, year).
Proof.
  unfold parse_period.
  destruct (re_search date_pattern p) as [m | ] eqn:E.
  - apply re_search_sound in E. destruct E as [L _].
    apply lang_date_pattern in L. destruct L as (before & digits & Eg & Hl & Hd).
    unfold search_group0.
    destruct (re_search year_pattern (group0 m)) as [m' | ] eqn:E'.
    + rewrite (year_found_is_int _ _ E'). eauto.
    + exfalso. rewrite Eg in E'. revert E'. apply year_search_complete; assumption.
  - destruct (re_search year_pattern p) as [m' | ] eqn:E'.
    + rewrite (year_found_is_int _ _ E'). eauto.
    + eauto.
Qed.

(** C3: the period parser returns its four fields for every label and never
    raises; the period type is "Three Months" when that text occurs in the
    label, else "Six Months" when that occurs, else "Year Ended" when that
    occurs, else "Point-in-Time", the occurrences being exact (case
    sensitive). *)
Theorem parse_period_total (p : string) :
  exists period_type end_date unaudited year,
    parse_period p = Ok (period_type, end_date, unaudited, year) /\
    (Text.occurs_in "Three Months" p -> period_type = "Three Months") /\
    (~ Text.occurs_in "Three Months" p -> Text.occurs_in "Six Months" p ->
     period_type = "Six Months") /\
    (~ Text.occurs_in "Three Months" p -> ~ Text.occurs_in "Six Months" p ->
     Text.occurs_in "Year Ended" p -> period_type = "Year Ended") /\
    (~ Text.occurs_in "Three Months" p -> ~ Text.occurs_in "Six Months" p ->
     ~ Text.occurs_in "Year Ended" p -> period_type = "Point-in-Time").
Proof.
  destruct (parse_period_returns p) as (end_date & unaudited & year & E).
  eexists _, end_date, unaudited, year. split; [exact E | ].
  rewrite <- !contains_spec.
  destruct (Text.contains p "Three Months");
    destruct (Text.contains p "Six Months");
    destruct (Text.contains p "Year Ended");
    repeat split; intros; congruence.
Qed.

Lemma parse_period_total_witness :
  exists period_type end_date unaudited year,
    parse_period "Six Months Ended June 30, 2025"
    = Ok (period_type, end_date, unaudited, year) /\
    period_type = "Six Months".
Proof.
  destruct (parse_period_total "Six Months Ended June 30, 2025")
    as (pt & ed & ua & y & E & _ & H & _).
  exists pt, ed, ua, y. split; [exact E | ].
  apply H.
  - rewrite <- contains_spec. vm_compute. discriminate.
  - rewrite <- contains_spec. vm_compute. reflexivity.
Defined.

End ParsePeriod.

(** ** Column names: [make_unique] *)

Section MakeUnique.
Import Main.

Lemma dict_get_set_same (k : string) (v : Z) d :
  Dict.get String.eqb k (Dict.set String.eqb k v d) = Some v.
Proof.
  induction d as [ | [k' v'] d IH]; simpl.
  - rewrite String.eqb_refl. reflexivity.
  - destruct (String.eqb k k') eqn:E; simpl; rewrite E; auto.
Qed.

Lemma dict_get_set_other (k k' : string) (v : Z) d :
  k <> k' ->
  Dict.get String.eqb k (Dict.set String.eqb k' v d) = Dict.get String.eqb k d.
Proof.
  intros Hne. induction d as [ | [k1 v1] d IH]; simpl.
  - apply String.eqb_neq in Hne. rewrite Hne. reflexivity.
  - destruct (String.eqb k' k1) eqn:E; simpl.
    + apply String.eqb_eq in E. subst k1.
      apply String.eqb_neq in Hne. rewrite Hne. reflexivity.
    + rewrite IH. reflexivity.
Qed.

Lemma make_unique_step_spec before seen new_cols c :
  seen_after before seen ->
  exists seen',
    make_unique_step (seen, new_cols) c
    = (seen', (new_cols ++ [unique_name before c])%list)
    /\ seen_after (before ++ [c]) seen'.
Proof.
  intros Hseen. unfold make_unique_step, unique_name.
  rewrite (Hseen c).
  destruct (count_occ string_dec before c) as [ | k] eqn:Ek.
  - eexists. split; [reflexivity | ].
    intros c'. rewrite count_occ_app. simpl.
    destruct (string_dec c c') as [<- | Hne].
    + rewrite dict_get_set_same, Ek. reflexivity.
    + rewrite dict_get_set_other by congruence. rewrite Nat.add_0_r. apply Hseen.
  - eexists. split.
    + replace (Z.of_nat k + 1)%Z with (Z.of_nat (S k)) by lia. reflexivity.
    + intros c'. rewrite count_occ_app. simpl.
      destruct (string_dec c c') as [<- | Hne].
      * rewrite dict_get_set_same, Ek.
        replace (S k + 1)%nat with (S (S k)) by lia. reflexivity.
      * rewrite dict_get_set_other by congruence. rewrite Nat.add_0_r. apply Hseen.
Qed.

Lemma make_unique_fold cols :
  forall before seen new_cols,
    seen_after before seen ->
    snd (fold_left make_unique_step cols (seen, new_cols))
    = (new_cols ++ unique_names before cols)%list.
Proof.
  induction cols as [ | c cols IH]; intros before seen new_cols Hseen;
    cbn [fold_left unique_names].
  - rewrite app_nil_r. reflexivity.
  - destruct (make_unique_step_spec before seen new_cols c Hseen) as (seen' & E & Hseen').
    rewrite E, (IH _ _ _ Hseen'), <- app_assoc. reflexivity.
Qed.

(** A first occurrence keeps its name; the occurrence after [k] earlier ones
    gets the suffix [_k]. *)
Lemma make_unique_names cols : make_unique cols = unique_names [] cols.
Proof.
  unfold make_unique. apply (make_unique_fold cols [] [] []).
  intros c. reflexivity.
Qed.

Lemma make_unique_length cols : List.length (make_unique cols) = List.length cols.
Proof.
  rewrite make_unique_names. generalize (@nil string).
  induction cols as [ | c cols IH]; intros before; simpl; auto.
Qed.

(** C6: the names [make_unique] returns are not always distinct: a later
    duplicate renamed to [Total_1] collides with a column that is already
    called [Total_1]. *)
Theorem make_unique_collision :
  make_unique ["Line Item"; "Total"; "Total"; "Total_1"]
  = ["Line Item"; "Total"; "Total_1"; "Total_1"]
  /\ ~ NoDup (make_unique ["Line Item"; "Total"; "Total"; "Total_1"]).
Proof.
  split; [reflexivity | ].
  change (make_unique ["Line Item"; "Total"; "Total"; "Total_1"])
    with ["Line Item"; "Total"; "Total_1"; "Total_1"].
  intros H. inversion H as [ | x1 l1 _ H1]; subst.
  inversion H1 as [ | x2 l2 _ H2]; subst.
  inversion H2 as [ | x3 l3 Hin _]; subst.
  apply Hin. left. reflexivity.
Qed.

End MakeUnique.

(** ** Header reconstruction *)

Section Header.
Import Main.

Lemma nth_map_seq {A : Type} (f : nat -> A) (n j : nat) (default : A) :
  (j < n)%nat -> nth j (List.map f (seq 0 n)) default = f j.
Proof.
  intros H. rewrite (nth_indep _ default (f 0%nat)) by (rewrite length_map, length_seq; exact H).
  rewrite (map_nth f (seq 0 n) 0%nat j), seq_nth by exact H. reflexivity.
Qed.

Lemma header_of_length df : List.length (header_of df) = List.length (columns df).
Proof. unfold header_of. rewrite length_map, length_seq. reflexivity. Qed.

(** C7, as the code has it: the header of a column after the first is the
    cells of the first two rows joined by a space and stripped, the first
    column is called "Line Item", and the data are the rows from the fourth
    on: the first three rows are removed, not only the two the header is
    built from. *)
Theorem build_header_spec (df_raw : frame) :
  columns (dropna_columns df_raw) <> [] ->
  exists out,
    build_header df_raw = Ok out /\
    nth 0 (columns out) "" = "Line Item" /\
    List.length (columns out) = List.length (columns (dropna_columns df_raw)) /\
    (forall r0 r1 more j,
        rows (dropna_columns df_raw) = r0 :: r1 :: more ->
        (1 <= j < List.length (columns (dropna_columns df_raw)))%nat ->
        nth j (columns out) ""
        = Text.strip (fillna_str (at_col j r0) ++ " " ++ fillna_str (at_col j r1))) /\
    rows out = skipn 3 (rows (dropna_columns df_raw)).
Proof.
  intros Hne. unfold build_header.
  set (df := dropna_columns df_raw) in *.
  assert (Hlen : List.length ("Line Item" :: tl (header_of df)) = List.length (columns df)).
  { pose proof (header_of_length df) as H.
    destruct (header_of df) as [ | h hs]; destruct (columns df); simpl in *; congruence. }
  rewrite Hlen, Nat.eqb_refl.
  eexists. split; [reflexivity | ]. simpl.
  repeat split; auto.
  intros r0 r1 more j Hrows [Hj1 Hj2].
  destruct j as [ | j]; [lia | ].
  change (nth (S j) ("Line Item" :: tl (header_of df)) "") with (nth j (tl (header_of df)) "").
  replace (nth j (tl (header_of df)) "") with (nth (S j) (header_of df) "")
    by (destruct (header_of df); [destruct j | ]; reflexivity).
  unfold header_of. rewrite nth_map_seq by exact Hj2.
  change (rows df = r0 :: r1 :: more) in Hrows.
  rewrite Hrows. reflexivity.
Qed.

Lemma build_header_spec_witness :
  df_type (Frame ["0"; "1"]
             [[None; Some "June 30, 2025"]; [None; Some "(unaudited)"];
              [Some "ASSETS"; None]; [Some "Total assets"; Some "10"]])
  = Some "Balance Sheet" /\
  exists out,
    build_header (Frame ["0"; "1"]
                    [[None; Some "June 30, 2025"]; [None; Some "(unaudited)"];
                     [Some "ASSETS"; None]; [Some "Total assets"; Some "10"]])
    = Ok out /\
    columns out = ["Line Item"; "June 30, 2025 (unaudited)"] /\
    rows out = [[Some "Total assets"; Some "10"]].
Proof.
  split; [reflexivity | ].
  destruct (build_header_spec
              (Frame ["0"; "1"]
                 [[None; Some "June 30, 2025"]; [None; Some "(unaudited)"];
                  [Some "ASSETS"; None]; [Some "Total assets"; Some "10"]]))
    as (out & E & _).
  - discriminate.
  - exists out. split; [exact E | ].
    vm_compute in E. injection E as <-. split; reflexivity.
Defined.

(** C7 as stated fails on a candidate grid: in this balance-sheet table the
    row that follows the two header rows, "Total assets", is a data row,
    and it is not in the output. *)
Lemma build_header_drops_third_row :
  ~ (forall df_raw out,
        df_type df_raw <> None ->
        build_header df_raw = Ok out ->
        rows out = skipn 2 (rows (dropna_columns df_raw))).
Proof.
  intros H.
  specialize (H (Frame ["0"; "1"]
                   [[None; Some "June 30, 2025"]; [None; Some "(unaudited)"];
                    [Some "Total assets"; Some "10"]; [Some "Cash"; Some "20"]])
                (Frame ["Line Item"; "June 30, 2025 (unaudited)"]
                       [[Some "Cash"; Some "20"]])).
  assert (E : rows (Frame ["Line Item"; "June 30, 2025 (unaudited)"]
                          [[Some "Cash"; Some "20"]])
              = skipn 2 (rows (dropna_columns
                                 (Frame ["0"; "1"]
                                    [[None; Some "June 30, 2025"];
                                     [None; Some "(unaudited)"];
                                     [Some "Total assets"; Some "10"];
                                     [Some "Cash"; Some "20"]])))).
  { apply H; [vm_compute; discriminate | reflexivity]. }
  vm_compute in E. discriminate E.
Qed.

End Header.

(** ** Numeric cleaning *)

Section CleanNumber.
Import Main.

Lemma replace_from_single c s :
  forall fuel, (length s <= fuel)%nat ->
    Text.replace_from fuel (String c "") "" s = Text.remove c s.
Proof.
  induction s as [ | a s IH]; intros fuel Hf.
  - destruct fuel; reflexivity.
  - destruct fuel as [ | fuel]; [simpl in Hf; lia | ].
    cbn [Text.replace_from Text.remove prefix].
    destruct (ascii_dec c a) as [-> | Hne].
    + rewrite Ascii.eqb_refl.
      assert (P : prefix "" s = true) by (destruct s; reflexivity).
      rewrite P. cbn. apply IH. simpl in Hf. lia.
    + apply Ascii.eqb_neq in Hne. rewrite Hne. f_equal. apply IH. simpl in Hf. lia.
Qed.

Lemma replace_single c s : Text.replace s (String c "") "" = Text.remove c s.
Proof. apply replace_from_single. lia. Qed.

Lemma remove_append c a b :
  Text.remove c (a ++ b) = Text.remove c a ++ Text.remove c b.
Proof.
  induction a as [ | x a IH]; simpl; auto.
  destruct (c =? x)%char; simpl; congruence.
Qed.

Lemma number_text_removes x :
  number_text x
  = let y := Text.strip (Text.remove "$" (Text.remove "," x)) in
    if (Text.startswith y "(" && Text.endswith y ")")%bool
    then "-" ++ Text.slice 1 (length y - 1) y
    else y.
Proof. unfold number_text. rewrite !replace_single. reflexivity. Qed.

(** Commas and dollar signs do not count, wherever they stand. *)
Lemma number_text_separators a b :
  number_text (a ++ "," ++ b) = number_text (a ++ b) /\
  number_text (a ++ "$" ++ b) = number_text (a ++ b).
Proof.
  rewrite !number_text_removes. cbv zeta.
  rewrite !remove_append. simpl. rewrite ?remove_append. simpl. auto.
Qed.

Lemma clean_number_returns x : exists v, clean_number x = Ok v.
Proof.
  destruct x as [x | ]; simpl; [ | eauto].
  destruct (Float.py_float (number_text x)); simpl; eauto.
Qed.

Lemma numeral_char_facts c :
  numeral_char c = true ->
  Text.is_space c = false /\
  (forall s, Text.scan_sign (String c s) = (false, String c s)) /\
  (forall s, prefix "(" (String c s) = false).
Proof.
  destruct c as [[] [] [] [] [] [] [] []]; vm_compute; intros H;
    solve [discriminate H | repeat split; reflexivity].
Qed.

Lemma rstrip_last s :
  Text.last_is (fun c => negb (Text.is_space c)) s = true -> Text.rstrip s = s.
Proof.
  induction s as [ | c s IH]; simpl; auto.
  destruct s as [ | c' s'].
  - simpl. intros H. apply negb_true_iff in H. rewrite H. reflexivity.
  - intros H. rewrite (IH H). reflexivity.
Qed.

Lemma last_is_weaken (p q : ascii -> bool) s :
  (forall c, p c = true -> q c = true) ->
  Text.last_is p s = true -> Text.last_is q s = true.
Proof.
  intros Hpq. induction s as [ | c s IH]; simpl; auto.
  destruct s; auto.
Qed.

Lemma last_is_cons p c s : s <> "" -> Text.last_is p (String c s) = Text.last_is p s.
Proof. destruct s; [congruence | reflexivity]. Qed.

Lemma last_is_snoc p s c : Text.last_is p (s ++ String c "") = p c.
Proof.
  induction s as [ | a s IH]; simpl; auto.
  rewrite IH. destruct (s ++ String c "") eqn:E; auto.
  destruct s; discriminate.
Qed.

(** A leading minus sign negates what [float] reads. *)
Lemma py_float_minus x :
  Text.strip x = x ->
  Text.scan_sign x = (false, x) ->
  Text.strip ("-" ++ x) = "-" ++ x ->
  exists v,
    try_except (Float.py_float x) (fun _ => Ok FNaN) = Ok v /\
    try_except (Float.py_float ("-" ++ x)) (fun _ => Ok FNaN) = Ok (Float.neg v).
Proof.
  intros Hs Hsign Hs'. unfold Float.py_float.
  rewrite Hs, Hs', Hsign. cbn [append Text.scan_sign].
  destruct (_ || _)%bool; [simpl; eauto | ].
  destruct (String.eqb _ _); [simpl; eauto | ].
  destruct (Text.scan_digits 0 0 x) as [[ip ni] s2].
  destruct (match s2 with
            | String "." s2' => Text.scan_digits ip 0 s2'
            | _ => (ip, 0%nat, s2)
            end) as [[mant nf] s3].
  destruct (ni + nf)%nat; [simpl; eauto | ].
  destruct (Float.scan_exponent s3); simpl; eauto.
Qed.

(** A value in parentheses is the negated value. *)
Lemma clean_number_parentheses v :
  unsigned_text v = true ->
  exists q,
    clean_number (Some v) = Ok q /\
    clean_number (Some ("(" ++ v ++ ")")) = Ok (Float.neg q).
Proof.
  unfold unsigned_text, clean_number. cbv zeta. intros H.
  apply andb_prop in H. destruct H as [Hfirst Hlast].
  rewrite !number_text_removes. cbv zeta.
  rewrite !remove_append.
  change (Text.remove "$" (Text.remove "," "(")) with "(".
  change (Text.remove "$" (Text.remove "," ")")) with ")".
  set (x := Text.remove "$" (Text.remove "," v)) in *.
  destruct x as [ | c x'] eqn:Ex; [discriminate | ]. rewrite <- Ex in *.
  assert (Hc : numeral_char c = true) by (rewrite Ex in Hfirst; exact Hfirst).
  destruct (numeral_char_facts c Hc) as (Hsp & Hsign & Hpar).
  assert (Hlast' : Text.last_is (fun c => negb (Text.is_space c)) x = true).
  { revert Hlast. apply last_is_weaken. intros a Ha.
    apply numeral_char_facts in Ha. destruct Ha as [-> _]. reflexivity. }
  assert (Hstrip : Text.strip x = x).
  { unfold Text.strip. rewrite Ex. cbn [Text.lstrip]. rewrite Hsp.
    rewrite <- Ex. apply rstrip_last. exact Hlast'. }
  assert (Hstrip' : Text.strip ("-" ++ x) = "-" ++ x).
  { unfold Text.strip. cbn [append Text.lstrip]. change (Text.is_space "-") with false.
    cbv iota. apply rstrip_last. rewrite last_is_cons by (rewrite Ex; discriminate).
    exact Hlast'. }
  assert (Hwrap : Text.strip ("(" ++ x ++ ")") = "(" ++ x ++ ")").
  { unfold Text.strip. cbn [append Text.lstrip]. change (Text.is_space "(") with false.
    cbv iota. apply rstrip_last.
    change (String "(" (x ++ ")")) with (String "(" x ++ String ")" "").
    rewrite last_is_snoc. reflexivity. }
  rewrite Hstrip, Hwrap.
  assert (Hnp : Text.startswith x "(" = false) by (rewrite Ex; apply Hpar).
  rewrite Hnp. cbn [andb].
  assert (Hsw : Text.startswith ("(" ++ x ++ ")") "(" = true).
  { cbn. destruct (x ++ ")"); reflexivity. }
  assert (Hew : Text.endswith ("(" ++ x ++ ")") ")" = true).
  { unfold Text.endswith.
    change ("(" ++ x ++ ")") with (String "(" x ++ ")").
    rewrite length_append. cbn [length].
    replace (S (length x) + 1 - 1)%nat with (length (String "(" x)) by (simpl; lia).
    rewrite drop_append.
    replace (1 <=? S (length x) + 1)%nat with true by (symmetry; apply Nat.leb_le; lia).
    reflexivity. }
  rewrite Hsw, Hew. cbn [andb].
  assert (Hslice : Text.slice 1 (length ("(" ++ x ++ ")") - 1) ("(" ++ x ++ ")") = x).
  { unfold Text.slice. cbn [append length Text.drop].
    rewrite length_append. cbn [length].
    replace (S (length x + 1) - 1 - 1)%nat with (length x) by lia.
    apply take_append. }
  rewrite Hslice.
  apply py_float_minus; auto. rewrite Ex. apply Hsign.
Qed.

Lemma dropna_value_notna l :
  Forall (fun t => Float.isna (value t) = false) (dropna_value l).
Proof.
  apply Forall_forall. intros t H. apply filter_In in H.
  destruct H as [_ H]. apply negb_true_iff in H. exact H.
Qed.



End CleanNumber.

(** ** The loader under failures *)

Section LoaderFailures.
Import OLTP.

Variable faulty : nat -> bool.
Variable strptime : string -> string -> option date.
Variable to_datetime : string -> pydate.

Lemma keeps_facts_ret {A : Type} (a : A) : keeps_facts (ret a).
Proof. intros st r st' E H. injection E as <- <-. auto. Qed.

Lemma keeps_facts_bind {A B : Type} (m : M A) (f : A -> M B) :
  keeps_facts m -> (forall a, keeps_facts (f a)) -> keeps_facts (bind m f).
Proof.
  intros Hm Hf st r st' E H. unfold bind in E.
  destruct (m st) as [[a | e] st1] eqn:E1.
  - destruct (Hm _ _ _ E1 H) as [H1 H2].
    destruct (Hf a _ _ _ E H2) as [H3 H4]. split; congruence.
  - injection E as <- <-. exact (Hm _ _ _ E1 H).
Qed.

Lemma keeps_facts_db_call : keeps_facts (db_call faulty).
Proof.
  intros st r st' E H. unfold db_call in E.
  destruct (faulty (calls st)); injection E as <- <-; auto.
Qed.

Lemma keeps_facts_query {A : Type} (q : db -> A) : keeps_facts (query faulty q).
Proof.
  apply keeps_facts_bind; [apply keeps_facts_db_call | ].
  intros _ st r st' E H. injection E as <- <-. auto.
Qed.

Lemma keeps_facts_commit : keeps_facts (commit faulty).
Proof.
  apply keeps_facts_bind; [apply keeps_facts_db_call | ].
  intros _ st r st' E H. injection E as <- <-. simpl. auto.
Qed.

Lemma keeps_facts_write (f : db -> result db) :
  (forall d d', f d = Ok d' -> financial_fact d' = financial_fact d) ->
  keeps_facts (write faulty f).
Proof.
  intros Hf. apply keeps_facts_bind; [apply keeps_facts_db_call | ].
  intros _ st r st' E H.
  destruct (f (pending st)) as [d | e] eqn:Ef; injection E as <- <-; simpl; auto.
  split; auto. rewrite (Hf _ _ Ef). exact H.
Qed.

Lemma keeps_facts_upsert_names {R : Type} (T : named R) names :
  (forall rows d, financial_fact (with_rows (tbl T) rows d) = financial_fact d) ->
  keeps_facts (upsert_names faulty T names).
Proof.
  intros HT. unfold upsert_names.
  apply keeps_facts_bind; [apply keeps_facts_query | intros existing].
  destruct (filter _ names); [apply keeps_facts_ret | ].
  apply keeps_facts_bind.
  { apply keeps_facts_write. intros d d' E.
    destruct (insert_names T _ _); [ | discriminate].
    injection E as <-. apply HT. }
  intros _. apply keeps_facts_bind; [apply keeps_facts_commit | intros _].
  apply keeps_facts_bind; [apply keeps_facts_query | intros ?; apply keeps_facts_ret].
Qed.

Lemma keeps_facts_upsert_filings to_create :
  keeps_facts (upsert_filings faulty to_create).
Proof.
  unfold upsert_filings.
  apply keeps_facts_bind.
  { destruct to_create; [apply keeps_facts_ret | ].
    apply keeps_facts_bind; [apply keeps_facts_query | intros ?; apply keeps_facts_ret]. }
  intros m. destruct (filter _ to_create); [apply keeps_facts_ret | ].
  apply keeps_facts_bind.
  { apply keeps_facts_write. intros d d' E.
    destruct (insert_filings _ _); [ | discriminate].
    injection E as <-. reflexivity. }
  intros _. apply keeps_facts_bind; [apply keeps_facts_commit | intros _].
  apply keeps_facts_bind; [apply keeps_facts_query | intros ?; apply keeps_facts_ret].
Qed.

Lemma insert_facts_length new rows :
  List.length (add_facts new rows) = (List.length rows + List.length new)%nat.
Proof.
  revert rows; induction new as [ | f new IH]; intros rows; simpl.
  - lia.
  - rewrite IH, length_app. simpl. lia.
Qed.

Lemma chunks_from_full {A : Type} (n : nat) :
  forall fuel (l : list A), full_but_last n (chunks_from fuel n l).
Proof.
  induction fuel as [ | fuel IH]; intros l; simpl; auto.
  destruct l as [ | x l]; simpl; auto.
  specialize (IH (skipn n (x :: l))).
  destruct (chunks_from fuel n (skipn n (x :: l))) as [ | c cs] eqn:E; auto.
  split; auto.
  apply firstn_length_le.
  destruct (Nat.le_gt_cases n (List.length (x :: l))) as [Hle | Hgt]; auto.
  rewrite skipn_all2 in E by lia.
  destruct fuel; discriminate E.
Qed.

(** The loop over the chunks: when it raises, the facts committed by the
    loop so far are whole chunks. *)
Lemma chunk_loop_whole_chunks (chs : list (list new_fact)) :
  full_but_last BATCH_SIZE chs ->
  forall st r st',
    for_each chs (fun chunk => bulk_insert_facts faulty chunk ;; commit faulty) st
    = (r, st') ->
    financial_fact (pending st) = financial_fact (committed st) ->
    match r with
    | Ok _ => True
    | Raise _ =>
        exists k,
          List.length (financial_fact (committed st'))
          = (List.length (financial_fact (committed st)) + k * BATCH_SIZE)%nat
    end.
Proof.
  induction chs as [ | c chs IH]; intros Hfull st r st' E Hp.
  - injection E as <- <-. exact I.
  - cbn [for_each] in E. unfold bind at 1 in E.
    destruct ((bulk_insert_facts faulty c ;; commit faulty) st) as [[[] | e] st1] eqn:E1.
    + (* the chunk is committed *)
      unfold bind, bulk_insert_facts, write, commit, bind, db_call, insert_facts in E1.
      destruct (faulty (calls st)); [discriminate | ]. simpl in E1.
      destruct (has_nat c); [discriminate | ]. simpl in E1.
      destruct (faulty (S (calls st))); [discriminate | ].
      injection E1 as <-.
      destruct chs as [ | c' chs'].
      * injection E as <- <-. exact I.
      * destruct Hfull as [Hc Hfull].
        specialize (IH Hfull _ _ _ E eq_refl).
        destruct r; auto. destruct IH as [k Hk].
        exists (S k). cbn [financial_fact committed] in Hk.
        rewrite Hk, insert_facts_length, Hp, Hc, Nat.mul_succ_l. lia.
    + (* the insert or its commit raised: nothing of the chunk is committed *)
      injection E as <- <-. exists 0%nat.
      unfold bind, bulk_insert_facts, write, commit, bind, db_call, insert_facts in E1.
      destruct (faulty (calls st)).
      * injection E1 as _ <-. simpl. lia.
      * simpl in E1. destruct (has_nat c).
        -- injection E1 as _ <-. simpl. lia.
        -- simpl in E1. destruct (faulty (S (calls st))); [ | discriminate].
           injection E1 as _ <-. simpl. lia.
Qed.

Lemma bind_keeps_facts {A B : Type} (m : M A) (f : A -> M B) st r st' :
  keeps_facts m ->
  bind m f st = (r, st') ->
  financial_fact (pending st) = financial_fact (committed st) ->
  (exists a st1,
      f a st1 = (r, st') /\
      financial_fact (committed st1) = financial_fact (committed st) /\
      financial_fact (pending st1) = financial_fact (committed st1))
  \/ (exists e,
        r = Raise e /\
        financial_fact (committed st') = financial_fact (committed st)).
Proof.
  intros K E Hp. unfold bind in E.
  destruct (m st) as [[a | e] st1] eqn:E1; destruct (K _ _ _ E1 Hp) as [Hc Hp'].
  - left. exists a, st1. auto.
  - right. injection E as <- <-. exists e. auto.
Qed.

Lemma load_body_whole_chunks df st r st' :
  load_body faulty strptime to_datetime df st = (r, st') ->
  financial_fact (pending st) = financial_fact (committed st) ->
  match r with
  | Ok _ => True
  | Raise _ =>
      exists k,
        List.length (financial_fact (committed st'))
        = (List.length (financial_fact (committed st)) + k * BATCH_SIZE)%nat
  end.
Proof.
  intros E Hp. unfold load_body in E. cbv zeta in E.
  (* the four upserts keep the facts *)
  do 4 (apply bind_keeps_facts in E;
        [ | solve [ apply keeps_facts_upsert_names; reflexivity
                  | apply keeps_facts_upsert_filings ] | exact Hp ];
        destruct E as [(? & ? & E & Hc & Hp') | (? & -> & Hc)];
        [ rewrite <- Hc; clear Hc Hp; rename Hp' into Hp
        | exists 0%nat; rewrite Hc; simpl; lia ]).
  (* the loop over the chunks *)
  unfold bind at 1 in E.
  match type of E with
  | context [for_each ?chs ?body ?st] =>
      destruct (for_each chs body st) as [[[] | e] st5] eqn:E5;
      pose proof (chunk_loop_whole_chunks chs (chunks_from_full _ _ _) _ _ _ E5 Hp) as Hloop
  end.
  - injection E as <- <-. exact I.
  - injection E as <- <-. exact Hloop.
Qed.

(** C2, as the code has it: when the body of the loader raises, the loader
    raises the same exception to its caller, what was committed before the
    failure stays committed and what was pending is dropped; the facts of the
    call that stay committed are whole chunks of a thousand rows: the chunks
    committed before the failure are not undone. *)
Theorem load_failure_rolls_back df st e st_fail :
  pending st = committed st ->
  load_body faulty strptime to_datetime df st = (Raise e, st_fail) ->
  exists st',
    load_dataframe_to_db faulty strptime to_datetime df st = (Raise e, st') /\
    committed st' = committed st_fail /\
    pending st' = committed st' /\
    exists k,
      List.length (financial_fact (committed st'))
      = (List.length (financial_fact (committed st)) + k * BATCH_SIZE)%nat.
Proof.
  intros Hclean E.
  unfold load_dataframe_to_db, try_rollback_finally_close. rewrite E.
  eexists. split; [reflexivity | ]. simpl. repeat split.
  apply (load_body_whole_chunks df st (Raise e) st_fail E).
  rewrite Hclean. reflexivity.
Qed.

End LoaderFailures.

Section LoaderFailureExamples.
Import OLTP.

(** In the examples the database fails at call 18, the insert of the second
    chunk of facts. *)

Lemma load_failure_rolls_back_witness :
  exists st',
    load_dataframe_to_db (fails_at 18) example_strptime example_to_datetime
      (repeat example_row 1001) (open_session empty_db)
    = (Raise (OperationalError "database call failed"), st') /\
    committed st'
    = committed (snd (load_body (fails_at 18) example_strptime
                        example_to_datetime (repeat example_row 1001)
                        (open_session empty_db))) /\
    pending st' = committed st' /\
    exists k,
      List.length (financial_fact (committed st'))
      = (List.length (financial_fact (committed (open_session empty_db)))
         + k * BATCH_SIZE)%nat.
Proof.
  apply (load_failure_rolls_back (fails_at 18) example_strptime
           example_to_datetime (repeat example_row 1001) (open_session empty_db)).
  - reflexivity.
  - vm_compute. reflexivity.
Defined.

(** C2 as stated fails: a failure at the second chunk leaves the first
    thousand facts of the call committed. *)
Lemma load_failure_keeps_committed_chunks :
  ~ (forall faulty df st e st',
        pending st = committed st ->
        load_dataframe_to_db faulty example_strptime example_to_datetime df st
        = (Raise e, st') ->
        financial_fact (committed st') = financial_fact (committed st)).
Proof.
  intros H.
  pose (run := load_dataframe_to_db (fails_at 18) example_strptime
                 example_to_datetime (repeat example_row 1001)
                 (open_session empty_db)).
  assert (E : run = (Raise (OperationalError "database call failed"), snd run))
    by (vm_compute; reflexivity).
  specialize (H (fails_at 18) (repeat example_row 1001)
                (open_session empty_db) _ _ eq_refl E).
  apply (f_equal (@List.length _)) in H.
  revert H. vm_compute. discriminate.
Qed.

End LoaderFailureExamples.

(** ** Equality tests, [unique] and dictionaries *)

Section Containers.
Import OLTP.

Lemma option_eqb_spec {A : Type} (eqb : A -> A -> bool) :
  (forall a b, eqb a b = true <-> a = b) ->
  forall x y, option_eqb eqb x y = true <-> x = y.
Proof.
  intros H [a | ] [b | ]; simpl; try rewrite H;
    split; intros E; try discriminate; congruence.
Qed.

Lemma date_eqb_spec a b : date_eqb a b = true <-> a = b.
Proof.
  destruct a as [y1 m1 d1], b as [y2 m2 d2]. unfold date_eqb. simpl.
  rewrite !andb_true_iff, !Z.eqb_eq. split.
  - intros [[-> ->] ->]. reflexivity.
  - intros E. injection E as -> -> ->. auto.
Qed.

Lemma bool_eqb_spec a b : Bool.eqb a b = true <-> a = b.
Proof. destruct a, b; simpl; split; congruence. Qed.

Lemma filing_key_eqb_spec a b : filing_key_eqb a b = true <-> a = b.
Proof.
  destruct a as [[[c1 d1] y1] a1], b as [[[c2 d2] y2] a2]. unfold filing_key_eqb.
  rewrite !andb_true_iff, !(option_eqb_spec _ Z.eqb_eq),
    (option_eqb_spec _ date_eqb_spec), (option_eqb_spec _ bool_eqb_spec).
  split.
  - intros [[[-> ->] ->] ->]. reflexivity.
  - intros E. injection E as -> -> -> ->. auto.
Qed.

Lemma pydate_eqb_spec a b : pydate_eqb a b = true <-> a = b.
Proof.
  destruct a as [x | | ], b as [y | | ]; simpl; try rewrite date_eqb_spec;
    split; intros E; try discriminate; congruence.
Qed.

Lemma filing_cols_eqb_spec a b : filing_cols_eqb a b = true <-> a = b.
Proof.
  destruct a as [[[c1 d1] y1] a1], b as [[[c2 d2] y2] a2]. unfold filing_cols_eqb.
  rewrite !andb_true_iff, (option_eqb_spec _ String.eqb_eq),
    (option_eqb_spec _ Z.eqb_eq),
    pydate_eqb_spec, (option_eqb_spec _ bool_eqb_spec).
  split.
  - intros [[[-> ->] ->] ->]. reflexivity.
  - intros E. injection E as -> -> -> ->. auto.
Qed.

Section Unique.
Context {A : Type} (eqb : A -> A -> bool).
Hypothesis eqb_spec : forall a b, eqb a b = true <-> a = b.

Lemma existsb_eqb_In x l : existsb (eqb x) l = true <-> In x l.
Proof.
  rewrite existsb_exists. split.
  - intros (y & Hy & E). apply eqb_spec in E. congruence.
  - intros H. exists x. split; auto. apply eqb_spec. reflexivity.
Qed.

Lemma unique_from_In x l :
  forall seen, In x (unique_from eqb seen l) <-> In x l /\ ~ In x seen.
Proof.
  induction l as [ | y l IH]; intros seen; simpl.
  - tauto.
  - destruct (existsb (eqb y) seen) eqn:E.
    + apply existsb_eqb_In in E. rewrite IH. split.
      * tauto.
      * intros [[-> | H] Hn]; tauto.
    + assert (Hy : ~ In y seen).
      { intros H. apply existsb_eqb_In in H. congruence. }
      simpl. rewrite IH. simpl. split.
      * intros [-> | [H Hn]]; [tauto | ]. split; [tauto | ]. intros H'. apply Hn. tauto.
      * intros [[-> | H] Hn]; [tauto | ].
        destruct (eqb y x) eqn:Eyx.
        -- apply eqb_spec in Eyx. tauto.
        -- right. split; auto. intros [-> | H']; [ | tauto].
           assert (eqb x x = true) by (apply eqb_spec; reflexivity). congruence.
Qed.

Lemma unique_In x l : In x (unique eqb l) <-> In x l.
Proof. unfold unique. rewrite unique_from_In. simpl. tauto. Qed.

Lemma unique_from_NoDup l : forall seen, NoDup (unique_from eqb seen l).
Proof.
  induction l as [ | y l IH]; intros seen; simpl.
  - constructor.
  - destruct (existsb (eqb y) seen); auto.
    constructor; auto. rewrite unique_from_In. simpl. tauto.
Qed.

Lemma unique_NoDup l : NoDup (unique eqb l).
Proof. apply unique_from_NoDup. Qed.

End Unique.

Section DictFacts.
Context {K V : Type} (eqb : K -> K -> bool).
Hypothesis eqb_spec : forall a b, eqb a b = true <-> a = b.

Lemma eqb_refl_of_spec k : eqb k k = true.
Proof. apply eqb_spec. reflexivity. Qed.

Lemma dict_mem_set k k' (v : V) d :
  Dict.mem eqb k (Dict.set eqb k' v d) = (eqb k k' || Dict.mem eqb k d)%bool.
Proof.
  unfold Dict.mem. induction d as [ | [k1 v1] d IH]; simpl.
  - destruct (eqb k k'); reflexivity.
  - destruct (eqb k' k1) eqn:E1; simpl.
    + apply eqb_spec in E1. subst k1. destruct (eqb k k'); reflexivity.
    + destruct (eqb k k1) eqn:E2.
      * destruct (eqb k k'); reflexivity.
      * exact IH.
Qed.

Lemma dict_mem_fold {A : Type} (key : A -> K) (val : A -> V) l :
  forall d k,
    Dict.mem eqb k (fold_left (fun d x => Dict.set eqb (key x) (val x) d) l d)
    = (existsb (fun x => eqb k (key x)) l || Dict.mem eqb k d)%bool.
Proof.
  induction l as [ | x l IH]; intros d k; simpl; auto.
  rewrite IH, dict_mem_set. rewrite orb_assoc. f_equal. apply orb_comm.
Qed.

Lemma dict_mem_of_list {A : Type} (key : A -> K) (val : A -> V) l k :
  Dict.mem eqb k (Dict.of_list eqb key val l) = existsb (fun x => eqb k (key x)) l.
Proof. unfold Dict.of_list. rewrite dict_mem_fold. apply orb_false_r. Qed.

Lemma dict_get_mem k (d : Dict.dict (K:=K) (V:=V)) :
  Dict.mem eqb k d = true <-> exists v, Dict.get eqb k d = Some v.
Proof.
  unfold Dict.mem. destruct (Dict.get eqb k d); split; eauto.
  - discriminate.
  - intros [v E]. discriminate.
Qed.

Lemma dict_get_In_keys k v (d : Dict.dict (K:=K) (V:=V)) :
  Dict.get eqb k d = Some v -> In k (Dict.keys d).
Proof.
  induction d as [ | [k1 v1] d IH]; simpl; [discriminate | ].
  destruct (eqb k k1) eqn:E.
  - apply eqb_spec in E. auto.
  - auto.
Qed.

Lemma dict_keys_set (P : K -> Prop) k (v : V) d :
  P k -> Forall P (Dict.keys d) -> Forall P (Dict.keys (Dict.set eqb k v d)).
Proof.
  intros Hk. induction d as [ | [k1 v1] d IH]; simpl; intros H.
  - constructor; auto.
  - inversion H; subst. destruct (eqb k k1); simpl; constructor; auto.
Qed.

Lemma dict_keys_fold {A : Type} (P : K -> Prop) (key : A -> K) (val : A -> V) l :
  (forall x, P (key x)) ->
  forall d, Forall P (Dict.keys d) ->
    Forall P (Dict.keys (fold_left (fun d x => Dict.set eqb (key x) (val x) d) l d)).
Proof.
  intros Hk. induction l as [ | x l IH]; intros d H; simpl; auto.
  apply IH. apply dict_keys_set; auto.
Qed.

End DictFacts.

End Containers.

(** ** The loader when the database does not fail *)

Section LoaderStages.
Import OLTP.
Local Open Scope list_scope.

Variable strptime : string -> string -> option date.
Variable to_datetime : string -> pydate.

Lemma lawful_companies : lawful companies.
Proof. repeat split; intros; try destruct d; reflexivity. Qed.

Lemma lawful_statement_types : lawful statement_types.
Proof. repeat split; intros; try destruct d; reflexivity. Qed.

Lemma lawful_line_items : lawful line_items.
Proof. repeat split; intros; try destruct d; reflexivity. Qed.

Section Named.
Context {R : Type} (T : named R).
Hypothesis T_lawful : lawful T.

(** Steps 1 to 3, computed. *)
Lemma upsert_names_reliable names d n :
  upsert_names reliable T names (mkSession d d n)
  = match missing_names T names (rows_of (tbl T) d) with
    | [] => (Ok (name_map T (named_in T names (rows_of (tbl T) d))),
             mkSession d d (S n))
    | new =>
        match insert_names T new (rows_of (tbl T) d) with
        | Ok rows' =>
            let d' := with_rows (tbl T) rows' d in
            (Ok (name_map T (named_in T names (rows_of (tbl T) d'))),
             mkSession d' d' (4 + n))
        | Raise e => (Raise e, mkSession d d (2 + n))
        end
    end.
Proof.
  cbv beta iota zeta delta
      [upsert_names query_names query bind db_call reliable bulk_insert_names
       write commit ret pending committed calls].
  fold (named_in T names (rows_of (tbl T) d)).
  fold (missing_names T names (rows_of (tbl T) d)).
  destruct (missing_names T names (rows_of (tbl T) d)) as [ | x new]; [reflexivity | ].
  destruct (insert_names T (x :: new) (rows_of (tbl T) d)); reflexivity.
Qed.

Lemma has_name_app rows rows' x :
  has_name T (rows ++ rows') x = (has_name T rows x || has_name T rows' x)%bool.
Proof. apply existsb_app. Qed.

Lemma name_map_mem names rows x :
  In x names ->
  Dict.mem String.eqb x (name_map T (named_in T names rows)) = has_name T rows x.
Proof.
  intros Hx. unfold name_map, named_in, has_name.
  rewrite (dict_mem_of_list String.eqb String.eqb_eq).
  induction rows as [ | r rows IH]; simpl; auto.
  destruct (existsb (String.eqb (name_of T r)) names) eqn:E; simpl.
  - rewrite IH, (String.eqb_sym x). reflexivity.
  - rewrite IH. destruct (String.eqb (name_of T r) x) eqn:E'; auto.
    apply String.eqb_eq in E'. subst x.
    assert (existsb (String.eqb (name_of T r)) names = true)
      by (apply (existsb_eqb_In _ String.eqb_eq); exact Hx).
    congruence.
Qed.

Lemma missing_names_In names rows x :
  In x (missing_names T names rows) <-> In x names /\ has_name T rows x = false.
Proof.
  unfold missing_names. rewrite filter_In. split.
  - intros [Hx H]. rewrite (name_map_mem _ _ _ Hx) in H.
    apply negb_true_iff in H. auto.
  - intros [Hx H]. rewrite (name_map_mem _ _ _ Hx), H. auto.
Qed.

Lemma insert_names_ok new :
  NoDup new ->
  forall rows,
    (forall x, In x new -> has_name T rows x = false) ->
    exists added,
      insert_names T new rows = Ok (rows ++ added) /\
      List.map (name_of T) added = new.
Proof.
  destruct T_lawful as (_ & _ & _ & Hmake).
  assert (Hname : forall i n, name_of T (make T i n) = n) by (intros; apply Hmake).
  induction 1 as [ | x new Hx Hnd IH]; intros rows Hnew; simpl.
  - exists []. rewrite app_nil_r. auto.
  - change (existsb (fun r => name_of T r =? x) rows) with (has_name T rows x).
    rewrite (Hnew x) by (left; reflexivity).
    destruct (IH (rows ++ [make T (next_id (List.map (id_of T) rows)) x])) as (added & E & Hadded).
    + intros y Hy. rewrite has_name_app, (Hnew y) by (right; exact Hy).
      unfold has_name. simpl. rewrite Hname, orb_false_r.
      apply String.eqb_neq. intros ->. contradiction.
    + eexists. rewrite E, <- app_assoc. split; [reflexivity | ].
      simpl. rewrite Hname, Hadded. reflexivity.
Qed.

Lemma next_id_fresh ids i : In i ids -> (i < next_id ids)%Z.
Proof.
  unfold next_id. induction ids as [ | j ids IH]; simpl; [contradiction | ].
  intros [-> | H]; [lia | ]. specialize (IH H). lia.
Qed.

(** New rows get identifiers that no row has. *)
Lemma insert_names_ids new :
  forall rows rows',
    NoDup (List.map (id_of T) rows) ->
    insert_names T new rows = Ok rows' ->
    NoDup (List.map (id_of T) rows').
Proof.
  destruct T_lawful as (_ & _ & _ & Hmake).
  induction new as [ | x new IH]; intros rows rows' Hnd E; simpl in E.
  - injection E as <-. exact Hnd.
  - destruct (existsb _ rows); [discriminate | ].
    apply IH in E; auto.
    rewrite map_app. apply NoDup_app; auto.
    + simpl. repeat constructor. intros [].
    + intros i Hi [Hi' | []]. simpl in Hi'.
      rewrite (proj2 (Hmake _ _)) in Hi'. subst i.
      apply next_id_fresh in Hi. lia.
Qed.

(** Steps 1 to 3 never raise; afterwards every name has a row, nothing is
    added when every name had one, and the identifiers stay distinct. *)
Lemma upsert_names_spec names d n :
  NoDup names ->
  exists added n',
    upsert_names reliable T names (mkSession d d n)
    = (Ok (name_map T (named_in T names (rows_of (tbl T) d ++ added))),
       mkSession (with_rows (tbl T) (rows_of (tbl T) d ++ added) d)
                 (with_rows (tbl T) (rows_of (tbl T) d ++ added) d) n') /\
    (forall x, In x names -> has_name T (rows_of (tbl T) d ++ added) x = true) /\
    ((forall x, In x names -> has_name T (rows_of (tbl T) d) x = true) -> added = []) /\
    (NoDup (List.map (id_of T) (rows_of (tbl T) d)) ->
     NoDup (List.map (id_of T) (rows_of (tbl T) d ++ added))).
Proof.
  intros Hnd. destruct T_lawful as (Hget & Hset & _ & _).
  rewrite upsert_names_reliable.
  destruct (missing_names T names (rows_of (tbl T) d)) as [ | x new] eqn:Emiss.
  - exists [], (S n). rewrite app_nil_r, Hset. repeat split; auto.
    intros x Hx. destruct (has_name T (rows_of (tbl T) d) x) eqn:E; auto.
    assert (In x (missing_names T names (rows_of (tbl T) d)))
      by (apply missing_names_In; auto).
    rewrite Emiss in H. contradiction.
  - destruct (insert_names_ok (x :: new)) with (rows := rows_of (tbl T) d)
      as (added & E & Hadded).
    + rewrite <- Emiss. apply NoDup_filter. exact Hnd.
    + intros y Hy. rewrite <- Emiss in Hy. apply missing_names_In in Hy. tauto.
    + exists added, (4 + n)%nat. rewrite E. cbv zeta. rewrite Hget.
      repeat split; auto.
      * intros y Hy. rewrite has_name_app.
        destruct (has_name T (rows_of (tbl T) d) y) eqn:Ey; auto. simpl.
        assert (Hin : In y (x :: new))
          by (rewrite <- Emiss; apply missing_names_In; auto).
        rewrite <- Hadded in Hin. apply in_map_iff in Hin.
        destruct Hin as (r & <- & Hr). unfold has_name.
        apply existsb_exists. exists r. split; auto. apply String.eqb_refl.
      * intros Hall. exfalso.
        assert (Hin : In x (missing_names T names (rows_of (tbl T) d)))
          by (rewrite Emiss; left; reflexivity).
        apply missing_names_In in Hin. destruct Hin as [Hx Hno].
        rewrite (Hall x Hx) in Hno. discriminate.
      * intros Hids. eapply insert_names_ids; eauto.
Qed.

End Named.

(** Step 4, computed. *)
Lemma upsert_filings_reliable F d n :
  upsert_filings reliable F (mkSession d d n)
  = let k0 := (match F with [] => 0 | _ => 1 end)%nat in
    match missing_filings F (filing d) with
    | [] => (Ok (filing_map_of F (filing d)), mkSession d d (k0 + n))
    | new =>
        match insert_filings new (filing d) with
        | Ok rows' =>
            let d' := with_rows filing_table rows' d in
            (Ok (add_filings (filings_of F rows') (filing_map_of F (filing d))),
             mkSession d' d' (3 + (k0 + n)))
        | Raise e => (Raise e, mkSession d d (1 + (k0 + n)))
        end
    end%nat.
Proof.
  destruct F as [ | f0 F]; [reflexivity | ].
  cbv beta iota zeta delta
      [upsert_filings query_filings query bind db_call reliable bulk_insert_filings
       write commit ret pending committed calls].
  fold (filings_of (f0 :: F) (filing d)).
  change (add_filings (filings_of (f0 :: F) (filing d)) [])
    with (filing_map_of (f0 :: F) (filing d)).
  fold (missing_filings (f0 :: F) (filing d)).
  destruct (missing_filings (f0 :: F) (filing d)) as [ | x new]; [reflexivity | ].
  destruct (insert_filings (x :: new) (filing d)); reflexivity.
Qed.

Lemma insert_filings_ok new :
  forall rows rows',
    insert_filings new rows = Ok rows' ->
    exists added,
      rows' = rows ++ added /\
      List.map key_of_filing added = List.map key_of_new new.
Proof.
  induction new as [ | f new IH]; intros rows rows' E; simpl in E.
  - injection E as <-. exists []. rewrite app_nil_r. auto.
  - destruct (fits_int64 (nf_fiscal_year f)); [ | discriminate].
    destruct (existsb (filing_clash f) rows); [discriminate | ].
    apply IH in E. destruct E as (added & -> & Hk).
    eexists. rewrite <- app_assoc. split; [reflexivity | ].
    simpl. rewrite Hk. reflexivity.
Qed.

Lemma has_filing_app rows rows' f :
  has_filing (rows ++ rows') f = (has_filing rows f || has_filing rows' f)%bool.
Proof. apply existsb_app. Qed.

Lemma add_filings_mem k l m :
  Dict.mem filing_key_eqb k (add_filings l m)
  = (existsb (fun r => filing_key_eqb k (key_of_filing r)) l
     || Dict.mem filing_key_eqb k m)%bool.
Proof. apply (dict_mem_fold filing_key_eqb filing_key_eqb_spec). Qed.

(** Among the filings of the companies of [F], a filing to create is found
    exactly when the table has its key. *)
Lemma filings_of_has F rows f :
  In f F ->
  existsb (fun r => filing_key_eqb (key_of_new f) (key_of_filing r)) (filings_of F rows)
  = has_filing rows f.
Proof.
  intros Hf. unfold filings_of, has_filing.
  induction rows as [ | r rows IH]; cbn [existsb filter]; auto.
  destruct (existsb _ (unique _ _)) eqn:E; cbn [existsb filter].
  - rewrite IH. reflexivity.
  - rewrite IH.
    destruct (filing_key_eqb (key_of_new f) (key_of_filing r)) eqn:Ek; auto.
    apply filing_key_eqb_spec in Ek. injection Ek as Ec _ _ _.
    assert (existsb (Z.eqb (filing_company_id r))
              (unique Z.eqb (List.map nf_company_id F)) = true).
    { apply (existsb_eqb_In _ Z.eqb_eq), (unique_In _ Z.eqb_eq).
      rewrite <- Ec. apply in_map. exact Hf. }
    congruence.
Qed.

Lemma filing_map_mem F rows f :
  In f F ->
  Dict.mem filing_key_eqb (key_of_new f) (filing_map_of F rows) = has_filing rows f.
Proof.
  intros Hf. unfold filing_map_of. destruct F as [ | f0 F']; [contradiction | ].
  rewrite add_filings_mem, orb_false_r. apply filings_of_has. exact Hf.
Qed.

Lemma missing_filings_In F rows f :
  In f (missing_filings F rows) <-> In f F /\ has_filing rows f = false.
Proof.
  unfold missing_filings. rewrite filter_In. split.
  - intros [Hf H]. rewrite (filing_map_mem _ _ _ Hf) in H.
    apply negb_true_iff in H. auto.
  - intros [Hf H]. rewrite (filing_map_mem _ _ _ Hf), H. auto.
Qed.

Lemma missing_filings_nil F rows :
  (forall f, In f F -> has_filing rows f = true) -> missing_filings F rows = [].
Proof.
  intros H. destruct (missing_filings F rows) as [ | f new] eqn:E; auto.
  assert (Hin : In f (missing_filings F rows)) by (rewrite E; left; reflexivity).
  apply missing_filings_In in Hin. destruct Hin as [Hf Hno].
  rewrite (H f Hf) in Hno. discriminate.
Qed.

Lemma add_filings_has_date l m :
  Forall has_date (Dict.keys m) -> Forall has_date (Dict.keys (add_filings l m)).
Proof.
  apply (dict_keys_fold filing_key_eqb has_date key_of_filing filing_id).
  intros f. exact I.
Qed.

Lemma filing_map_has_date F rows : Forall has_date (Dict.keys (filing_map_of F rows)).
Proof.
  unfold filing_map_of. destruct F; [constructor | ].
  apply add_filings_has_date. constructor.
Qed.

(** What step 4 leaves in the table of filings: the table as it was when
    no filing is missing, and else the outcome of the insert. *)
Lemma upsert_filings_spec F d n :
  match (match missing_filings F (filing d) with
         | [] => Ok (filing d)
         | new => insert_filings new (filing d)
         end) with
  | Ok rows' =>
      exists fmap n',
        upsert_filings reliable F (mkSession d d n)
        = (Ok fmap, mkSession (with_rows filing_table rows' d)
                              (with_rows filing_table rows' d) n') /\
        (exists added, rows' = filing d ++ added) /\
        (forall f, In f F -> Dict.mem filing_key_eqb (key_of_new f) fmap = true) /\
        Forall has_date (Dict.keys fmap) /\
        (forall f, In f F -> has_filing rows' f = true)
  | Raise e =>
      exists n', upsert_filings reliable F (mkSession d d n) = (Raise e, mkSession d d n')
  end.
Proof.
  rewrite upsert_filings_reliable. cbv zeta.
  destruct (missing_filings F (filing d)) as [ | x new] eqn:Emiss.
  - assert (Hall : forall f, In f F -> has_filing (filing d) f = true).
    { intros f Hf. destruct (has_filing (filing d) f) eqn:E; auto.
      assert (In f (missing_filings F (filing d))) by (apply missing_filings_In; auto).
      rewrite Emiss in H. contradiction. }
    eexists _, _. split; [destruct d; reflexivity | ].
    split; [exists []; rewrite app_nil_r; reflexivity | ].
    split; [ | split; [apply filing_map_has_date | exact Hall]].
    intros f Hf. rewrite (filing_map_mem _ _ _ Hf). auto.
  - destruct (insert_filings (x :: new) (filing d)) as [rows' | e] eqn:Eins.
    + apply insert_filings_ok in Eins. destruct Eins as (added & -> & Hkeys).
      assert (Hall : forall f, In f F -> has_filing (filing d ++ added) f = true).
      { intros f Hf. rewrite has_filing_app.
        destruct (has_filing (filing d) f) eqn:E; auto. simpl.
        assert (Hin : In f (x :: new))
          by (rewrite <- Emiss; apply missing_filings_In; auto).
        apply (in_map key_of_new) in Hin. rewrite <- Hkeys in Hin.
        apply in_map_iff in Hin. destruct Hin as (r & Hr & Hin).
        apply existsb_exists. exists r. split; auto.
        apply filing_key_eqb_spec. auto. }
      eexists _, _. split; [reflexivity | ].
      split; [eauto | ].
      split; [ | split; [apply add_filings_has_date, filing_map_has_date | exact Hall]].
      intros f Hf. rewrite add_filings_mem, (filings_of_has _ _ _ Hf), (Hall f Hf).
      reflexivity.
    + eexists. reflexivity.
Qed.

(** Step 5: the loop over the chunks, computed.  It returns when no chunk
    holds an end date that is [NaT]. *)

Lemma chunk_loop_reliable chs :
  Forall (fun c => has_nat c = false) chs ->
  forall d n,
    exists n',
      for_each chs (fun chunk => bulk_insert_facts reliable chunk ;; commit reliable)
               (mkSession d d n)
      = (Ok tt,
         mkSession
           (with_rows financial_fact_table
              (fold_left (fun rows c => add_facts c rows) chs (financial_fact d)) d)
           (with_rows financial_fact_table
              (fold_left (fun rows c => add_facts c rows) chs (financial_fact d)) d)
           n').
Proof.
  induction chs as [ | c chs IH]; intros Hall d n.
  - exists n. destruct d; reflexivity.
  - inversion Hall as [ | ? ? Hc Hall']; subst.
    cbn [for_each fold_left]. unfold bind at 1.
    replace ((bulk_insert_facts reliable c ;; commit reliable) (mkSession d d n))
      with (Ok tt, let d' := with_rows financial_fact_table
                               (add_facts c (financial_fact d)) d in
                   mkSession d' d' (2 + n)).
    2:{ unfold bind, bulk_insert_facts, write, commit, bind, db_call, insert_facts,
          reliable.
        cbn [pending committed calls]. fold (has_nat c). rewrite Hc. reflexivity. }
    cbv zeta.
    destruct (IH Hall' (with_rows financial_fact_table (add_facts c (financial_fact d)) d)
                 (2 + n)%nat) as [n' E].
    exists n'. rewrite E. destruct d; reflexivity.
Qed.

(** It raises as soon as a chunk holds such an end date, the database not
    failing. *)
Lemma chunk_loop_raises chs :
  Exists (fun c => has_nat c = true) chs ->
  forall d n,
    exists e st',
      for_each chs (fun chunk => bulk_insert_facts reliable chunk ;; commit reliable)
               (mkSession d d n)
      = (Raise e, st').
Proof.
  induction chs as [ | c chs IH]; intros Hex d n.
  - inversion Hex.
  - cbn [for_each]. unfold bind at 1.
    destruct (has_nat c) eqn:Hc.
    + replace ((bulk_insert_facts reliable c ;; commit reliable) (mkSession d d n))
        with (@Raise unit
                (StatementError
                   "(builtins.ValueError) cannot convert float NaN to integer"),
              mkSession d d (1 + n)).
      2:{ unfold bind, bulk_insert_facts, write, commit, bind, db_call, insert_facts,
            reliable.
          cbn [pending committed calls]. fold (has_nat c). rewrite Hc. reflexivity. }
      eauto.
    + replace ((bulk_insert_facts reliable c ;; commit reliable) (mkSession d d n))
        with (Ok tt, let d' := with_rows financial_fact_table
                                 (add_facts c (financial_fact d)) d in
                     mkSession d' d' (2 + n)).
      2:{ unfold bind, bulk_insert_facts, write, commit, bind, db_call, insert_facts,
            reliable.
          cbn [pending committed calls]. fold (has_nat c). rewrite Hc. reflexivity. }
      cbv zeta. apply IH.
      inversion Hex as [? ? H | ? ? H]; subst; [congruence | exact H].
Qed.

Lemma insert_chunks_length (chs : list (list new_fact)) :
  forall rows,
    List.length (fold_left (fun rows c => add_facts c rows) chs rows)
    = (List.length rows + List.length (List.concat chs))%nat.
Proof.
  induction chs as [ | c chs IH]; intros rows; simpl.
  - lia.
  - rewrite IH, insert_facts_length, length_app. lia.
Qed.

Lemma concat_chunks_from {A : Type} (n : nat) :
  (0 < n)%nat ->
  forall fuel (l : list A),
    (List.length l <= fuel)%nat -> List.concat (chunks_from fuel n l) = l.
Proof.
  intros Hn. induction fuel as [ | fuel IH]; intros l Hl.
  - destruct l; [reflexivity | simpl in Hl; lia].
  - destruct l as [ | x l]; [reflexivity | ].
    cbn [chunks_from List.concat]. rewrite IH.
    + apply firstn_skipn.
    + rewrite length_skipn. cbn [List.length] in *. lia.
Qed.

Lemma concat_chunks {A : Type} (l : list A) : List.concat (chunks BATCH_SIZE l) = l.
Proof.
  unfold chunks. apply concat_chunks_from; auto. unfold BATCH_SIZE. lia.
Qed.

Lemma chunks_length {A : Type} (l : list A) :
  List.length (List.concat (chunks BATCH_SIZE l)) = List.length l.
Proof. rewrite concat_chunks. reflexivity. Qed.

(** Some chunk holds a [NaT] exactly when some fact does. *)
Lemma has_nat_concat chs :
  has_nat (List.concat chs) = existsb has_nat chs.
Proof.
  unfold has_nat. induction chs as [ | c chs IH]; [reflexivity | ].
  cbn [List.concat existsb]. rewrite existsb_app, IH. reflexivity.
Qed.

Lemma chunks_nat_free l :
  has_nat l = false -> Forall (fun c => has_nat c = false) (chunks BATCH_SIZE l).
Proof.
  intros H. rewrite <- (concat_chunks l), has_nat_concat in H.
  apply Forall_forall. intros c Hc.
  destruct (has_nat c) eqn:E; auto.
  assert (existsb has_nat (chunks BATCH_SIZE l) = true)
    by (apply existsb_exists; eauto).
  congruence.
Qed.

Lemma chunks_with_nat l :
  has_nat l = true -> Exists (fun c => has_nat c = true) (chunks BATCH_SIZE l).
Proof.
  intros H. rewrite <- (concat_chunks l), has_nat_concat in H.
  apply existsb_exists in H. apply Exists_exists. exact H.
Qed.

Lemma dropna_In {A : Type} (a : A) l : In (Some a) l -> In a (dropna l).
Proof.
  intros H. unfold dropna. apply in_flat_map. exists (Some a). simpl. auto.
Qed.

Lemma dict_get_none_keys k (m : Dict.dict (K:=filing_key) (V:=Z)) :
  ~ In k (Dict.keys m) -> Dict.get filing_key_eqb k m = None.
Proof.
  intros H. destruct (Dict.get filing_key_eqb k m) eqn:E; auto.
  exfalso. apply H. eapply (dict_get_In_keys _ filing_key_eqb_spec). exact E.
Qed.

(** A row is staged as a fact exactly when it is insertable, once the
    dictionaries hold what the upserts put in them; the fact carries the
    parsed end date of the row. *)
Lemma fact_of_row_insertable df m1 m2 m3 fmap r :
  In r df ->
  (forall t, Ticker r = Some t -> Dict.mem String.eqb (Text.upper t) m1 = true) ->
  (forall x, Statement_Type r = Some x -> Dict.mem String.eqb x m2 = true) ->
  (forall x, Line_Item r = Some x -> Dict.mem String.eqb x m3 = true) ->
  (forall f, In f (filings_to_create strptime to_datetime df m1) ->
             Dict.mem filing_key_eqb (key_of_new f) fmap = true) ->
  Forall has_date (Dict.keys fmap) ->
  match fact_of_row strptime to_datetime m1 m2 m3 fmap r with
  | Some f =>
      insertable (parse_date strptime to_datetime) r = true /\
      nfa_end_date f = parse_date strptime to_datetime (End_Date r)
  | None => insertable (parse_date strptime to_datetime) r = false
  end.
Proof.
  intros Hr H1 H2 H3 H4 H5. unfold fact_of_row, insertable.
  destruct (Ticker r) as [t | ] eqn:Et; [ | reflexivity].
  specialize (H1 t eq_refl).
  apply (dict_get_mem String.eqb) in H1. destruct H1 as [c Ec]. rewrite Ec.
  assert (Hnone : forall k : filing_key,
             In k (Dict.keys fmap) ->
             (let '(c', d', _, _) := k in
              option_eqb Z.eqb c' (Some c) && option_eqb date_eqb d' None)%bool = false).
  { intros [[[c' [d' | ]] y'] a'] Hk.
    - destruct c'; simpl; rewrite ?andb_false_r; reflexivity.
    - rewrite Forall_forall in H5. destruct (H5 _ Hk). }
  assert (Hfall : filter (fun k : filing_key =>
                            let '(c', d', _, _) := k in
                            (option_eqb Z.eqb c' (Some c)
                             && option_eqb date_eqb d' None)%bool)
                         (Dict.keys fmap) = []).
  { clear - Hnone. induction (Dict.keys fmap) as [ | k ks IH]; auto.
    cbn [filter]. rewrite (Hnone k) by (left; reflexivity).
    apply IH. intros k' Hk'. apply Hnone. right. exact Hk'. }
  assert (Hget : Dict.get filing_key_eqb
                   (Some c, None, Fiscal_Year r, to_bool (Unaudited r)) fmap = None).
  { apply dict_get_none_keys. intros Hk. rewrite Forall_forall in H5.
    destruct (H5 _ Hk). }
  destruct (parse_date strptime to_datetime (Filing_Date r)) as [dt | | ] eqn:Ed;
    cbn [date_of].
  - (* the key of the row is the key of a filing to create *)
    assert (Hk : Dict.mem filing_key_eqb
                   (Some c, Some dt, Fiscal_Year r, to_bool (Unaudited r)) fmap = true).
    { apply (H4 (mkNewFiling c dt (Fiscal_Year r) (to_bool (Unaudited r)))).
      unfold filings_to_create. apply in_flat_map.
      exists (Ticker r, parse_date strptime to_datetime (Filing_Date r),
              Fiscal_Year r, to_bool (Unaudited r)).
      split.
      - apply (unique_In _ filing_cols_eqb_spec).
        change (In (filing_cols_of strptime to_datetime r)
                   (List.map (filing_cols_of strptime to_datetime) df)).
        apply in_map. exact Hr.
      - rewrite Et, Ed. simpl. rewrite Ec. left. reflexivity. }
    apply (dict_get_mem filing_key_eqb) in Hk. destruct Hk as [i Ei]. rewrite Ei.
    destruct (Statement_Type r) as [x | ] eqn:Ex; [ | reflexivity].
    destruct (Line_Item r) as [y | ] eqn:Ey; [ | reflexivity].
    specialize (H2 x eq_refl). specialize (H3 y eq_refl).
    apply (dict_get_mem String.eqb) in H2, H3.
    destruct H2 as [sx ->], H3 as [ly ->]. split; reflexivity.
  - (* no key of the dictionary lacks its date *)
    rewrite Hget, Hfall. reflexivity.
  - rewrite Hget, Hfall. reflexivity.
Qed.

Section FactRows.
Variables (df : list record) (m1 m2 m3 : Dict.dict (K:=string) (V:=Z))
          (fmap : Dict.dict (K:=filing_key) (V:=Z)).
Hypothesis H1 : forall r t, In r df -> Ticker r = Some t ->
                            Dict.mem String.eqb (Text.upper t) m1 = true.
Hypothesis H2 : forall r x, In r df -> Statement_Type r = Some x ->
                            Dict.mem String.eqb x m2 = true.
Hypothesis H3 : forall r x, In r df -> Line_Item r = Some x ->
                            Dict.mem String.eqb x m3 = true.
Hypothesis H4 : forall f, In f (filings_to_create strptime to_datetime df m1) ->
                          Dict.mem filing_key_eqb (key_of_new f) fmap = true.
Hypothesis H5 : Forall has_date (Dict.keys fmap).

Lemma fact_rows_of rows :
  (forall r, In r rows -> In r df) ->
  List.length
    (flat_map (fun r => match fact_of_row strptime to_datetime m1 m2 m3 fmap r with
                        | Some f => [f]
                        | None => []
                        end) rows)
  = List.length (filter (insertable (parse_date strptime to_datetime)) rows) /\
  has_nat
    (flat_map (fun r => match fact_of_row strptime to_datetime m1 m2 m3 fmap r with
                        | Some f => [f]
                        | None => []
                        end) rows)
  = existsb (nat_row (parse_date strptime to_datetime)) rows.
Proof.
  induction rows as [ | r rows IH]; intros Hsub; [split; reflexivity | ].
  destruct IH as [IH1 IH2]; [intros; apply Hsub; right; assumption | ].
  cbn [flat_map filter]. unfold has_nat in *.
  rewrite length_app, existsb_app, IH1, IH2.
  change (existsb (nat_row (parse_date strptime to_datetime)) (r :: rows))
    with ((insertable (parse_date strptime to_datetime) r
           && is_nat (parse_date strptime to_datetime (End_Date r)))
          || existsb (nat_row (parse_date strptime to_datetime)) rows)%bool.
  pose proof (fact_of_row_insertable df m1 m2 m3 fmap r (Hsub r (in_eq _ _))
                (fun t => H1 r t (Hsub r (in_eq _ _)))
                (fun x => H2 r x (Hsub r (in_eq _ _)))
                (fun x => H3 r x (Hsub r (in_eq _ _))) H4 H5) as Hrow.
  destruct (fact_of_row strptime to_datetime m1 m2 m3 fmap r) as [f | ].
  - destruct Hrow as [Hi He]. rewrite Hi, <- He. cbn [existsb List.length andb].
    rewrite orb_false_r. split; reflexivity.
  - rewrite Hrow. split; reflexivity.
Qed.

Lemma fact_rows_length :
  List.length
    (flat_map (fun r => match fact_of_row strptime to_datetime m1 m2 m3 fmap r with
                        | Some f => [f]
                        | None => []
                        end) df)
  = List.length (filter (insertable (parse_date strptime to_datetime)) df).
Proof. apply fact_rows_of. auto. Qed.

Lemma fact_rows_nat :
  has_nat
    (flat_map (fun r => match fact_of_row strptime to_datetime m1 m2 m3 fmap r with
                        | Some f => [f]
                        | None => []
                        end) df)
  = existsb (nat_row (parse_date strptime to_datetime)) df.
Proof. apply fact_rows_of. auto. Qed.

End FactRows.

(** One run of the loader from the store [d]: the names of the batch are
    added where they are missing, and then the outcome of step 4 decides.
    When the insert of the filings raises, nothing more is written.  When
    the filings are completed, the facts are staged: if an insertable row
    has an end date that is [NaT], the insert of its chunk raises; else
    every insertable row becomes a fact and the loader returns. *)
Lemma load_run df d n :
  exists ac ast ali,
    let d1 := mkDb (company d ++ ac) (filing d) (statement_type d ++ ast)
                   (line_item d ++ ali) (financial_fact d) in
    let F := filings_to_create strptime to_datetime df
               (name_map companies (named_in companies (tickers_of df) (company d1))) in
    covered df d1 /\
    (covered df d -> ac = [] /\ ast = [] /\ ali = []) /\
    (NoDup (List.map company_id (company d)) ->
     NoDup (List.map company_id (company d ++ ac))) /\
    match filings_outcome F (filing d) with
    | Ok rows' =>
        if existsb (nat_row (parse_date strptime to_datetime)) df
        then
          exists e st',
            load_dataframe_to_db reliable strptime to_datetime df (mkSession d d n)
            = (Raise e, st')
        else
          exists rep n' facts',
            load_dataframe_to_db reliable strptime to_datetime df (mkSession d d n)
            = (Ok rep,
               mkSession (mkDb (company d1) rows' (statement_type d1) (line_item d1) facts')
                         (mkDb (company d1) rows' (statement_type d1) (line_item d1) facts')
                         n') /\
            List.length facts'
            = (List.length (financial_fact d)
               + List.length (filter (insertable (parse_date strptime to_datetime)) df))%nat /\
            n_facts rep
            = List.length (filter (insertable (parse_date strptime to_datetime)) df) /\
            (exists added, rows' = filing d ++ added) /\
            (forall f, In f F -> has_filing rows' f = true)
    | Raise e =>
        exists n',
          load_dataframe_to_db reliable strptime to_datetime df (mkSession d d n)
          = (Raise e, mkSession d1 d1 n')
    end.
Proof.
  destruct d as [c f s l ff].
  destruct (upsert_names_spec companies lawful_companies (tickers_of df)
              (mkDb c f s l ff) n (unique_NoDup _ String.eqb_eq _))
    as (ac & n1 & E1 & P1 & Z1 & I1).
  cbn [rows_of with_rows tbl companies company_table company filing statement_type
       line_item financial_fact id_of] in E1, P1, Z1, I1.
  destruct (upsert_names_spec statement_types lawful_statement_types (stmt_names_of df)
              (mkDb (c ++ ac) f s l ff) n1 (unique_NoDup _ String.eqb_eq _))
    as (ast & n2 & E2 & P2 & Z2 & _).
  cbn [rows_of with_rows tbl statement_types statement_type_table company filing
       statement_type line_item financial_fact] in E2, P2, Z2.
  destruct (upsert_names_spec line_items lawful_line_items (li_names_of df)
              (mkDb (c ++ ac) f (s ++ ast) l ff) n2 (unique_NoDup _ String.eqb_eq _))
    as (ali & n3 & E3 & P3 & Z3 & _).
  cbn [rows_of with_rows tbl line_items line_item_table company filing
       statement_type line_item financial_fact] in E3, P3, Z3.
  exists ac, ast, ali.
  cbn [company filing statement_type line_item financial_fact]. cbv zeta.
  set (m1 := name_map companies (named_in companies (tickers_of df) (c ++ ac))) in *.
  set (m2 := name_map statement_types
               (named_in statement_types (stmt_names_of df) (s ++ ast))) in *.
  set (m3 := name_map line_items (named_in line_items (li_names_of df) (l ++ ali))) in *.
  set (F := filings_to_create strptime to_datetime df m1).
  split; [repeat split; assumption | ].
  split.
  { intros (C1 & C2 & C3). cbn [company statement_type line_item] in C1, C2, C3. auto. }
  split; [exact I1 | ].
  pose proof (upsert_filings_spec F (mkDb (c ++ ac) f (s ++ ast) (l ++ ali) ff) n3) as H4.
  cbn [filing] in H4. fold (filings_outcome F f) in H4.
  assert (Hbody :
             load_body reliable strptime to_datetime df
               (mkSession (mkDb c f s l ff) (mkDb c f s l ff) n)
             = (existing_filing_map <- upsert_filings reliable F ;;
                let fact_rows :=
                  flat_map (fun r => match fact_of_row strptime to_datetime m1 m2 m3
                                             existing_filing_map r with
                                     | Some f => [f]
                                     | None => []
                                     end) df in
                for_each (chunks BATCH_SIZE fact_rows)
                         (fun chunk => bulk_insert_facts reliable chunk ;; commit reliable) ;;
                ret (mkReport (List.length m1) (List.length m2) (List.length m3)
                              (List.length existing_filing_map) (List.length fact_rows)))
                 (mkSession (mkDb (c ++ ac) f (s ++ ast) (l ++ ali) ff)
                            (mkDb (c ++ ac) f (s ++ ast) (l ++ ali) ff) n3)).
  { unfold load_body. cbv zeta.
    unfold bind at 1. rewrite E1.
    unfold bind at 1. rewrite E2.
    unfold bind at 1. rewrite E3. reflexivity. }
  unfold load_dataframe_to_db, try_rollback_finally_close. rewrite Hbody. clear Hbody.
  destruct (filings_outcome F f) as [rows' | e].
  - destruct H4 as (fmap & n4 & E4 & Hadd & Hmem & Hdate & Hhas).
    cbn [with_rows filing_table company filing statement_type line_item financial_fact] in E4.
    pose (fact_rows :=
            flat_map (fun r => match fact_of_row strptime to_datetime m1 m2 m3 fmap r with
                               | Some f => [f]
                               | None => []
                               end) df).
    assert (Hm1 : forall r t, In r df -> Ticker r = Some t ->
                              Dict.mem String.eqb (Text.upper t) m1 = true).
    { intros r t Hr Ht. unfold m1. rewrite name_map_mem.
      + apply P1. apply (unique_In _ String.eqb_eq), in_map, dropna_In.
        rewrite <- Ht. apply in_map. exact Hr.
      + apply (unique_In _ String.eqb_eq), in_map, dropna_In.
        rewrite <- Ht. apply in_map. exact Hr. }
    assert (Hm2 : forall r x, In r df -> Statement_Type r = Some x ->
                              Dict.mem String.eqb x m2 = true).
    { intros r x Hr Hx. unfold m2. rewrite name_map_mem.
      + apply P2. apply (unique_In _ String.eqb_eq), dropna_In.
        rewrite <- Hx. apply in_map. exact Hr.
      + apply (unique_In _ String.eqb_eq), dropna_In.
        rewrite <- Hx. apply in_map. exact Hr. }
    assert (Hm3 : forall r x, In r df -> Line_Item r = Some x ->
                              Dict.mem String.eqb x m3 = true).
    { intros r x Hr Hx. unfold m3. rewrite name_map_mem.
      + apply P3. apply (unique_In _ String.eqb_eq), dropna_In.
        rewrite <- Hx. apply in_map. exact Hr.
      + apply (unique_In _ String.eqb_eq), dropna_In.
        rewrite <- Hx. apply in_map. exact Hr. }
    pose proof (fact_rows_length df m1 m2 m3 fmap Hm1 Hm2 Hm3 Hmem Hdate) as Hlen.
    pose proof (fact_rows_nat df m1 m2 m3 fmap Hm1 Hm2 Hm3 Hmem Hdate) as Hnat.
    fold fact_rows in Hlen, Hnat. rewrite <- Hnat.
    destruct (has_nat fact_rows) eqn:Enat.
    + destruct (chunk_loop_raises (chunks BATCH_SIZE fact_rows)
                  (chunks_with_nat _ Enat)
                  (mkDb (c ++ ac) rows' (s ++ ast) (l ++ ali) ff) n4) as (e & st5 & E5).
      cbv iota. unfold bind at 1. rewrite E4. cbv zeta. fold fact_rows.
      unfold bind at 1. rewrite E5. eauto.
    + destruct (chunk_loop_reliable (chunks BATCH_SIZE fact_rows)
                  (chunks_nat_free _ Enat)
                  (mkDb (c ++ ac) rows' (s ++ ast) (l ++ ali) ff) n4) as [n5 E5].
      cbv iota. unfold bind at 1. rewrite E4. cbv zeta. fold fact_rows.
      unfold bind at 1. rewrite E5.
      cbn [with_rows financial_fact_table company filing statement_type line_item
           financial_fact ret close committed pending calls].
      eexists _, _, _. split; [reflexivity | ].
      cbn [n_facts]. rewrite insert_chunks_length, chunks_length, Hlen. auto.
  - destruct H4 as [n4 E4].
    unfold bind at 1. rewrite E4. eexists. reflexivity.
Qed.

End LoaderStages.


(** ** When the first run returns *)

Section LoaderSuccess.
Import OLTP.
Local Open Scope list_scope.

Variable strptime : string -> string -> option date.
Variable to_datetime : string -> pydate.

Lemma dict_set_entries {K V : Type} (eqb : K -> K -> bool) (P : K * V -> Prop) k v d :
  (forall a b, eqb a b = true <-> a = b) ->
  P (k, v) -> Forall P d -> Forall P (Dict.set eqb k v d).
Proof.
  intros Hspec Hkv. induction d as [ | [k' v'] d IH]; intros Hd; simpl.
  - constructor; auto.
  - inversion Hd; subst. destruct (eqb k k') eqn:E.
    + apply Hspec in E. subst k'. constructor; auto.
    + constructor; auto.
Qed.

Lemma dict_get_entry {K V : Type} (eqb : K -> K -> bool) k v (d : Dict.dict (K:=K) (V:=V)) :
  (forall a b, eqb a b = true <-> a = b) ->
  Dict.get eqb k d = Some v -> In (k, v) d.
Proof.
  intros Hspec. induction d as [ | [k' v'] d IH]; simpl; [discriminate | ].
  destruct (eqb k k') eqn:E.
  - apply Hspec in E. subst k'. intros H. injection H as ->. left. reflexivity.
  - intros H. right. auto.
Qed.

(** An entry of the dictionary of a table is the name and the identifier of
    one of its rows. *)
Lemma name_map_get {R : Type} (T : named R) rows k i :
  Dict.get String.eqb k (name_map T rows) = Some i ->
  exists r, In r rows /\ name_of T r = k /\ id_of T r = i.
Proof.
  intros H. apply (dict_get_entry _ _ _ _ String.eqb_eq) in H.
  unfold name_map, Dict.of_list in H.
  assert (G : forall l d,
             Forall (fun kv => exists r, In r rows /\ name_of T r = fst kv
                                         /\ id_of T r = snd kv) d ->
             (forall x, In x l -> In x rows) ->
             Forall (fun kv => exists r, In r rows /\ name_of T r = fst kv
                                         /\ id_of T r = snd kv)
                    (fold_left (fun d x => Dict.set String.eqb (name_of T x) (id_of T x) d)
                               l d)).
  { induction l as [ | x l IH]; intros d Hd Hl; simpl; auto.
    apply IH; [ | intros; apply Hl; right; assumption].
    apply (dict_set_entries _ _ _ _ _ String.eqb_eq); auto.
    exists x. split; [apply Hl; left; reflexivity | auto]. }
  specialize (G rows [] (Forall_nil _) (fun x Hx => Hx)).
  rewrite Forall_forall in G. apply (G _ H).
Qed.

Lemma NoDup_map_eq {A B : Type} (f : A -> B) l x y :
  NoDup (List.map f l) -> In x l -> In y l -> f x = f y -> x = y.
Proof.
  induction l as [ | a l IH]; simpl; intros Hnd Hx Hy E; [contradiction | ].
  inversion Hnd as [ | ? ? Hnotin Hnd']; subst.
  destruct Hx as [-> | Hx], Hy as [-> | Hy]; auto.
  - exfalso. apply Hnotin. rewrite E. apply in_map. exact Hy.
  - exfalso. apply Hnotin. rewrite <- E. apply in_map. exact Hx.
Qed.

(** With distinct identifiers, two names with the same identifier are the
    same name. *)
Lemma name_map_injective {R : Type} (T : named R) rows k1 k2 i :
  NoDup (List.map (id_of T) rows) ->
  Dict.get String.eqb k1 (name_map T rows) = Some i ->
  Dict.get String.eqb k2 (name_map T rows) = Some i ->
  k1 = k2.
Proof.
  intros Hnd H1 H2.
  apply name_map_get in H1, H2.
  destruct H1 as (r1 & Hr1 & <- & Hi1), H2 as (r2 & Hr2 & <- & Hi2).
  f_equal. apply (NoDup_map_eq (id_of T) rows); congruence.
Qed.

Lemma NoDup_flat_map {A B : Type} (g : A -> list B) l :
  NoDup l ->
  (forall x, In x l -> NoDup (g x)) ->
  (forall x y z, In x l -> In y l -> In z (g x) -> In z (g y) -> x = y) ->
  NoDup (flat_map g l).
Proof.
  induction 1 as [ | x l Hx Hnd IH]; intros Hg Hinj; simpl; [constructor | ].
  apply NoDup_app.
  - apply Hg. left. reflexivity.
  - apply IH; [intros; apply Hg; right; assumption | ].
    intros a b z Ha Hb. apply Hinj; right; assumption.
  - intros z Hz Hz'. apply in_flat_map in Hz'. destruct Hz' as (y & Hy & Hzy).
    assert (x = y) by (apply (Hinj x y z); simpl; auto).
    subst y. contradiction.
Qed.

(** The filings to create are distinct when the ticker cells are. *)
Lemma filings_to_create_NoDup df rows :
  distinct_tickers df ->
  NoDup (List.map company_id rows) ->
  NoDup (filings_to_create strptime to_datetime df
           (name_map companies (named_in companies (tickers_of df) rows))).
Proof.
  intros Hdist Hids. unfold filings_to_create.
  set (m := name_map companies (named_in companies (tickers_of df) rows)).
  assert (Hids' : NoDup (List.map company_id (named_in companies (tickers_of df) rows))).
  { clear - Hids. unfold named_in.
    induction rows as [ | r rows IH]; simpl; [constructor | ].
    inversion Hids as [ | ? ? Hnotin Hnd]; subst.
    destruct (existsb _ (tickers_of df)); simpl; auto.
    constructor; auto. intros H. apply Hnotin.
    apply in_map_iff in H. destruct H as (r' & E & Hr'). apply filter_In in Hr'.
    rewrite <- E. apply in_map. tauto. }
  apply NoDup_flat_map.
  - apply (unique_NoDup _ filing_cols_eqb_spec).
  - intros [[[t d] y] a] _.
    destruct (Dict.get String.eqb _ m); [ | constructor].
    destruct d; repeat constructor. intros [].
  - intros [[[t1 d1] y1] a1] [[[t2 d2] y2] a2] z H1 H2 Hz1 Hz2.
    apply (proj1 (unique_In _ filing_cols_eqb_spec _ _)) in H1.
    apply (proj1 (unique_In _ filing_cols_eqb_spec _ _)) in H2.
    apply in_map_iff in H1, H2.
    destruct H1 as (r1 & E1 & Hr1), H2 as (r2 & E2 & Hr2).
    destruct (Dict.get String.eqb (Text.upper (astype_str t1)) m) as [c1 | ] eqn:G1;
      [ | contradiction].
    destruct (Dict.get String.eqb (Text.upper (astype_str t2)) m) as [c2 | ] eqn:G2;
      [ | contradiction].
    destruct d1 as [d1 | | ]; [ | contradiction | contradiction].
    destruct d2 as [d2 | | ]; [ | contradiction | contradiction].
    destruct Hz1 as [<- | []]. destruct Hz2 as [Ez | []].
    injection Ez as -> -> -> ->.
    assert (Eu : Text.upper (astype_str t1) = Text.upper (astype_str t2))
      by (symmetry; exact (name_map_injective companies _ _ _ _ Hids' G2 G1)).
    unfold filing_cols_of in E1, E2.
    injection E1 as Et1 _ _ _. injection E2 as Et2 _ _ _.
    rewrite <- Et1, <- Et2 in Eu. apply (Hdist r1 r2 Hr1 Hr2) in Eu.
    congruence.
Qed.

Lemma filing_clash_key f r :
  filing_clash f r = true ->
  filing_key_eqb (key_of_new f) (key_of_filing r) = true.
Proof.
  unfold filing_clash. rewrite !andb_true_iff. intros [[[Hc Hd] Hy] Ha].
  apply filing_key_eqb_spec. unfold key_of_new, key_of_filing.
  apply Z.eqb_eq in Hc. apply date_eqb_spec in Hd. rewrite Hc, Hd.
  destruct (nf_fiscal_year f), (fiscal_year r); try discriminate.
  destruct (nf_is_audited f), (is_audited r); try discriminate.
  apply Z.eqb_eq in Hy. apply (proj1 (bool_eqb_spec _ _)) in Ha. congruence.
Qed.

(** The insert of distinct filings that the table does not have succeeds,
    when their fiscal years fit 64 bits. *)
Lemma insert_filings_returns new :
  NoDup new ->
  (forall f, In f new -> fits_int64 (nf_fiscal_year f) = true) ->
  forall rows,
    (forall f, In f new -> has_filing rows f = false) ->
    exists rows', insert_filings new rows = Ok rows'.
Proof.
  induction 1 as [ | f new Hf Hnd IH]; intros Hfit rows Hnew; simpl; [eauto | ].
  rewrite (Hfit f (in_eq _ _)). cbn [negb].
  specialize (IH (fun g Hg => Hfit g (in_cons _ _ _ Hg))).
  assert (Hno : existsb (filing_clash f) rows = false).
  { destruct (existsb (filing_clash f) rows) eqn:E; auto.
    apply existsb_exists in E. destruct E as (r & Hr & Hclash).
    apply filing_clash_key in Hclash.
    assert (has_filing rows f = true)
      by (apply existsb_exists; exists r; auto).
    rewrite Hnew in H by (left; reflexivity). discriminate. }
  rewrite Hno. apply IH. intros g Hg.
  rewrite has_filing_app, (Hnew g) by (right; exact Hg).
  unfold has_filing. cbn [existsb orb]. rewrite orb_false_r.
  match goal with |- ?b = false => destruct b eqn:E; auto end.
  apply filing_key_eqb_spec in E. unfold key_of_new, key_of_filing in E. simpl in E.
  exfalso. apply Hf. destruct f, g. simpl in *. congruence.
Qed.

(** The fiscal year of a filing to create is the fiscal year of a row. *)
Lemma filings_to_create_years df m f :
  In f (filings_to_create strptime to_datetime df m) ->
  exists r, In r df /\ nf_fiscal_year f = Fiscal_Year r.
Proof.
  unfold filings_to_create. intros H. apply in_flat_map in H.
  destruct H as ([[[t d] y] a] & Hrow & Hf).
  apply (proj1 (unique_In _ filing_cols_eqb_spec _ _)) in Hrow.
  apply in_map_iff in Hrow. destruct Hrow as (r & E & Hr).
  unfold filing_cols_of in E. injection E as _ _ Ey _.
  exists r. split; [exact Hr | ].
  destruct (Dict.get String.eqb _ m); [ | contradiction].
  destruct d; try contradiction.
  destruct Hf as [<- | []]. simpl. congruence.
Qed.

Lemma filings_outcome_returns df rows filings :
  distinct_tickers df ->
  years_fit df ->
  NoDup (List.map company_id rows) ->
  exists filings',
    filings_outcome
      (filings_to_create strptime to_datetime df
         (name_map companies (named_in companies (tickers_of df) rows))) filings
    = Ok filings'.
Proof.
  intros Hdist Hfit Hids. unfold filings_outcome.
  set (F := filings_to_create _ _ _ _).
  destruct (missing_filings F filings) as [ | f new] eqn:E; [eauto | ].
  rewrite <- E. apply insert_filings_returns.
  - unfold missing_filings. apply NoDup_filter.
    apply filings_to_create_NoDup; assumption.
  - intros g Hg. apply missing_filings_In in Hg. destruct Hg as [Hg _].
    apply filings_to_create_years in Hg. destruct Hg as (r & Hr & ->).
    apply Hfit. exact Hr.
  - intros g Hg. apply missing_filings_In in Hg. tauto.
Qed.

(** No row is staged with an end date that is [NaT] when no end date of the
    batch parses to it. *)
Lemma end_dates_read_nat_free df :
  end_dates_read (parse_date strptime to_datetime) df ->
  existsb (nat_row (parse_date strptime to_datetime)) df = false.
Proof.
  intros H. destruct (existsb _ df) eqn:E; auto.
  apply existsb_exists in E. destruct E as (r & Hr & Hn).
  unfold nat_row in Hn. apply andb_prop in Hn. destruct Hn as [_ Hn].
  specialize (H r Hr). destruct (parse_date strptime to_datetime (End_Date r));
    try discriminate. congruence.
Qed.

(** The loader returns when the ticker cells of the batch are distinct, its
    fiscal years fit 64 bits, none of its end dates parses to [NaT], and
    the companies of the store have distinct identifiers. *)
Lemma load_returns df db0 :
  distinct_tickers df ->
  years_fit df ->
  end_dates_read (parse_date strptime to_datetime) df ->
  NoDup (List.map company_id (company db0)) ->
  exists rep st1,
    load_dataframe_to_db reliable strptime to_datetime df (open_session db0)
    = (Ok rep, st1) /\
    n_facts rep
    = List.length (filter (insertable (parse_date strptime to_datetime)) df) /\
    List.length (financial_fact (committed st1))
    = (List.length (financial_fact db0)
       + List.length (filter (insertable (parse_date strptime to_datetime)) df))%nat.
Proof.
  intros Hdist Hfit Hread Hids.
  destruct (load_run strptime to_datetime df db0 0)
    as (ac & ast & ali & _ & _ & Hids' & Hout).
  cbv zeta in Hout. cbn [company] in Hout.
  destruct (filings_outcome_returns df (company db0 ++ ac) (filing db0) Hdist Hfit
              (Hids' Hids))
    as [filings' E].
  rewrite E, (end_dates_read_nat_free df Hread) in Hout.
  destruct Hout as (rep & n' & facts' & Eload & Hlen & Hrep & _).
  exists rep. eexists. split; [exact Eload | ]. split; [exact Hrep | exact Hlen].
Qed.

End LoaderSuccess.

(** ** The same batch loaded twice *)

Section LoaderTwice.
Import OLTP.
Local Open Scope list_scope.

Variable strptime : string -> string -> option date.
Variable to_datetime : string -> pydate.


End LoaderTwice.

Section LoaderExamples.
Import OLTP.

Lemma example_batch_distinct : distinct_tickers example_batch.
Proof.
  intros r1 r2 H1 H2 _. simpl in H1, H2.
  destruct H1 as [<- | [<- | [<- | []]]];
    destruct H2 as [<- | [<- | [<- | []]]]; reflexivity.
Qed.


(** C1 as stated fails: a batch on which the loader raises gets no fact by
    the second run either.  Here the end date of the one row of the batch,
    "June 31, 2025", is no date of the calendar: [parse_date] gives [NaT],
    the insert of the fact raises in both runs, and the facts do not grow
    by the one insertable row of the batch. *)
Lemma load_twice_not_when_load_raises :
  ~ (forall df db0,
        let load := load_dataframe_to_db reliable example_strptime example_to_datetime
                      df in
        let n := List.length
                   (filter (insertable (parse_date example_strptime example_to_datetime))
                           df) in
        let st1 := snd (load (open_session db0)) in
        let st2 := snd (load (open_session (committed st1))) in
        List.length (financial_fact (committed st2))
        = (List.length (financial_fact (committed st1)) + n)%nat).
Proof.
  intros H. specialize (H example_nat_batch empty_db).
  vm_compute in H. discriminate H.
Qed.

(** The example batch loaded twice into an empty store: one company, one
    statement type, three line items and one filing after each run, two
    facts after the first and four after the second. *)
Example load_twice_example :
  let load := load_dataframe_to_db reliable example_strptime example_to_datetime
                example_batch in
  let st1 := snd (load (open_session empty_db)) in
  let st2 := snd (load (open_session (committed st1))) in
  List.length (financial_fact (committed st1)) = 2%nat /\
  List.length (financial_fact (committed st2)) = 4%nat /\
  List.length (company (committed st2)) = 1%nat /\
  List.length (line_item (committed st2)) = 3%nat /\
  List.length (filing (committed st2)) = 1%nat.
Proof. vm_compute. repeat split. Qed.

End LoaderExamples.

(** ** The star schema builder *)

Section StarSchema.
Import OLAP.
Local Open Scope list_scope.

(** Whatever the analytical database held, the builder starts from no
    table. *)
Lemma rebuild_from_scratch oltp olap :
  create_and_populate_olap_schema_from_oltp oltp olap
  = create_and_populate_olap_schema_from_oltp oltp no_tables.
Proof. destruct olap. reflexivity. Qed.

Lemma rebuild_returns oltp :
  exists facts seq,
    create_and_populate_olap_schema_from_oltp oltp no_tables
    = Ok (mkOlap
            (Some (fold_left (insert_or_replace company_key)
                     (List.map (fun c => mkCompanyDim (OLTP.company_id c)
                                           (Text.str_of_Z (OLTP.company_id c))
                                           (OLTP.ticker c) (OLTP.ticker c))
                               (OLTP.company oltp)) []))
            (Some (fold_left date_dim_insert
                     (OLTP.unique date_dim_row_eqb
                        (List.map (fun f => date_dim_of (OLTP.filing_date f))
                                  (OLTP.filing oltp))) []))
            (Some (fold_left (insert_or_replace statement_type_key)
                     (List.map (fun s => mkStatementTypeDim (OLTP.statement_type_id s)
                                           (OLTP.statement_type_name s))
                               (OLTP.statement_type oltp)) []))
            (Some facts) seq) /\
    facts = fst (fold_left insert_fact (select_facts oltp) ([], 0%Z)).
Proof.
  unfold create_and_populate_olap_schema_from_oltp, then_. cbn.
  destruct (fold_left insert_fact (select_facts oltp) ([], 0%Z)) as [rows seq].
  eexists _, _. split; reflexivity.
Qed.

Lemma insert_or_replace_from {R : Type} (key : R -> Z) (P : R -> Prop) selected :
  Forall P selected ->
  forall rows, Forall P rows -> Forall P (fold_left (insert_or_replace key) selected rows).
Proof.
  induction 1 as [ | r selected Hr _ IH]; intros rows Hrows; simpl; auto.
  apply IH. unfold insert_or_replace. apply Forall_app. split.
  - rewrite Forall_forall in *. intros x Hx. apply filter_In in Hx. apply Hrows, Hx.
  - constructor; auto.
Qed.

Lemma insert_fact_from (P : fact_financials_row -> Prop) selected :
  (forall id r, In r selected ->
                let '(ck, dk, sk, li, v) := r in P (mkFactFinancials id ck dk sk li v)) ->
  forall rows seq,
    Forall P rows -> Forall P (fst (fold_left insert_fact selected (rows, seq))).
Proof.
  induction selected as [ | r selected IH]; intros Hsel rows seq Hrows; simpl; auto.
  destruct r as [[[[ck dk] sk] li] v].
  apply IH.
  - intros id r' Hr'. apply Hsel. right. exact Hr'.
  - apply Forall_app. split; auto. constructor; auto.
    apply (Hsel _ (ck, dk, sk, li, v)). left. reflexivity.
Qed.

(** C8: the builder returns the same four tables whatever the analytical
    database held before, so no row of an earlier run is left, and building
    again from the same store, on top of its own result, returns that result
    again; every company row and every fact row of the result is read from
    the normalized store. *)
Theorem star_schema_rebuild (oltp : OLTP.db) (olap : olap_db) :
  exists star,
    create_and_populate_olap_schema_from_oltp oltp olap = Ok star /\
    (forall olap', create_and_populate_olap_schema_from_oltp oltp olap' = Ok star) /\
    create_and_populate_olap_schema_from_oltp oltp star = Ok star /\
    (company_dim star <> None /\ date_dim star <> None /\
     statement_type_dim star <> None /\ fact_financials star <> None) /\
    Forall (fun r => exists c,
                In c (OLTP.company oltp) /\
                company_key r = OLTP.company_id c /\ ticker r = OLTP.ticker c)
           (rows_in (company_dim star)) /\
    Forall (fun r => exists ff,
                In ff (OLTP.financial_fact oltp) /\
                line_item_id r = Some (OLTP.fact_line_item_id ff) /\
                value r = OLTP.value ff)
           (rows_in (fact_financials star)).
Proof.
  destruct (rebuild_returns oltp) as (facts & seq & E & Hfacts).
  eexists. split; [rewrite rebuild_from_scratch; exact E | ].
  split; [intros olap'; rewrite rebuild_from_scratch; exact E | ].
  split; [rewrite rebuild_from_scratch; exact E | ].
  split; [repeat split; discriminate | ].
  cbn [company_dim fact_financials rows_in]. split.
  - apply insert_or_replace_from; [ | constructor].
    apply Forall_forall. intros r Hr. apply in_map_iff in Hr.
    destruct Hr as (c & <- & Hc). exists c. auto.
  - rewrite Hfacts. apply insert_fact_from; [ | constructor].
    intros id r Hr. unfold select_facts in Hr.
    apply in_flat_map in Hr. destruct Hr as (ff & Hff & Hr).
    apply in_flat_map in Hr. destruct Hr as (fl & _ & Hr).
    apply in_map_iff in Hr. destruct Hr as (c & <- & _).
    exists ff. auto.
Qed.

End StarSchema.

(** ** The quality validator *)

Section QualityChecks.
Import OLAP QualityCheck.
Local Open Scope list_scope.

Lemma count_nonneg {A : Type} (l : list A) : (0 <= count l)%Z.
Proof. unfold count. lia. Qed.

Lemma filter_flat_map_length {A B : Type} (P : B -> bool) (g : A -> list B) l :
  List.length (filter P (flat_map g l))
  = list_sum (List.map (fun x => List.length (filter P (g x))) l).
Proof.
  induction l as [ | x l IH]; simpl; auto.
  rewrite filter_app, length_app, IH. reflexivity.
Qed.

Lemma filter_length_sum {A : Type} (P : A -> bool) l :
  List.length (filter P l) = list_sum (List.map (fun x => if P x then 1 else 0)%nat l).
Proof.
  induction l as [ | x l IH]; simpl; auto.
  destruct (P x); simpl; auto.
Qed.

(** With distinct identifiers, at most one line item is joined to a fact. *)
Lemma joined_line_items (i : option Z) (Q : OLTP.LineItem -> bool) lis :
  NoDup (List.map OLTP.line_item_id lis) ->
  List.length
    (filter (fun li => (option_eqb_Z i (Some (OLTP.line_item_id li)) && Q li)%bool) lis)
  = if existsb (fun li => (option_eqb_Z i (Some (OLTP.line_item_id li)) && Q li)%bool) lis
    then 1%nat else 0%nat.
Proof.
  induction lis as [ | li lis IH]; intros Hnd; [reflexivity | ].
  inversion Hnd as [ | ? ? Hnotin Hnd']; subst. cbn [filter existsb].
  destruct (option_eqb_Z i (Some (OLTP.line_item_id li))) eqn:Ei; cbn [andb].
  - (* no other line item has this identifier *)
    assert (Hrest : forall Q', filter (fun li' =>
                       (option_eqb_Z i (Some (OLTP.line_item_id li')) && Q' li')%bool) lis = []).
    { intros Q'. apply (option_eqb_spec Z.eqb Z.eqb_eq) in Ei. subst i.
      clear - Hnotin. induction lis as [ | li' lis IH]; auto. cbn [filter].
      destruct (option_eqb_Z (Some (OLTP.line_item_id li)) (Some (OLTP.line_item_id li'))) eqn:E.
      - exfalso. apply Hnotin. left.
        apply (option_eqb_spec Z.eqb Z.eqb_eq) in E. congruence.
      - cbn [andb]. apply IH. intros H. apply Hnotin. right. exact H. }
    assert (Hnone : existsb (fun li' =>
                       (option_eqb_Z i (Some (OLTP.line_item_id li')) && Q li')%bool) lis
                    = false).
    { specialize (IH Hnd'). rewrite (Hrest Q) in IH.
      destruct (existsb _ lis); [discriminate IH | reflexivity]. }
    rewrite Hnone, (Hrest Q). destruct (Q li); reflexivity.
  - apply IH. exact Hnd'.
Qed.

Lemma filter_map_length {A B : Type} (P : B -> bool) (f : A -> B) l :
  List.length (filter P (List.map f l)) = List.length (filter (fun x => P (f x)) l).
Proof.
  induction l as [ | x l IH]; simpl; auto.
  destruct (P (f x)); simpl; auto.
Qed.

Lemma filter_filter {A : Type} (P Q : A -> bool) l :
  filter P (filter Q l) = filter (fun x => (Q x && P x)%bool) l.
Proof.
  induction l as [ | x l IH]; simpl; auto.
  destruct (Q x); simpl; [destruct (P x) | ]; congruence.
Qed.

Lemma existsb_pointwise {A : Type} (f g : A -> bool) l :
  (forall x, f x = g x) -> existsb f l = existsb g l.
Proof.
  intros H. induction l as [ | x l IH]; simpl; auto. rewrite H, IH. reflexivity.
Qed.

Lemma existsb_and_const {A : Type} (P : A -> bool) (b : bool) l :
  existsb (fun x => (P x && b)%bool) l = (existsb P l && b)%bool.
Proof.
  induction l as [ | x l IH]; simpl; auto.
  rewrite IH. destruct (P x), b, (existsb P l); reflexivity.
Qed.

(** The third check counts the fact rows of a non-positive "Revenue". *)
Lemma revenue_non_positive_counts_facts oltp facts :
  NoDup (List.map OLTP.line_item_id (OLTP.line_item oltp)) ->
  revenue_non_positive oltp facts = count (filter (is_revenue_loss oltp) facts).
Proof.
  intros Hnd. unfold revenue_non_positive, count. f_equal.
  rewrite filter_flat_map_length, filter_length_sum. f_equal.
  apply map_ext. intros ff.
  rewrite filter_map_length, filter_filter. cbn [fst snd].
  rewrite (joined_line_items (line_item_id ff)
             (fun li => ((OLTP.line_item_name li =? "Revenue")%string
                         && non_positive (value ff))%bool) _ Hnd).
  unfold is_revenue_loss.
  rewrite <- existsb_and_const.
  replace (existsb (fun x => (option_eqb_Z (line_item_id ff) (Some (OLTP.line_item_id x))
                              && (OLTP.line_item_name x =? "Revenue")%string
                              && non_positive (value ff))%bool) (OLTP.line_item oltp))
    with (existsb (fun li => (option_eqb_Z (line_item_id ff) (Some (OLTP.line_item_id li))
                              && ((OLTP.line_item_name li =? "Revenue")%string
                                  && non_positive (value ff)))%bool) (OLTP.line_item oltp)).
  - reflexivity.
  - apply existsb_pointwise. intros li. apply andb_assoc.
Qed.

Lemma filter_length_pos {A : Type} (P : A -> bool) l x :
  In x l -> P x = true -> (1 <= List.length (filter P l))%nat.
Proof.
  intros Hx HP. assert (H : In x (filter P l)) by (apply filter_In; auto).
  destruct (filter P l); [contradiction | simpl; lia].
Qed.

Lemma revenue_non_positive_found oltp facts ff li :
  In ff facts -> In li (OLTP.line_item oltp) ->
  line_item_id ff = Some (OLTP.line_item_id li) ->
  OLTP.line_item_name li = "Revenue"%string ->
  non_positive (value ff) = true ->
  (1 <= revenue_non_positive oltp facts)%Z.
Proof.
  intros Hff Hli Hid Hname Hv. unfold revenue_non_positive, count.
  apply (Nat2Z.inj_le 1). apply (filter_length_pos _ _ (ff, li)).
  - apply in_flat_map. exists ff. split; auto.
    apply in_map. apply filter_In. split; auto.
    rewrite Hid. apply (option_eqb_spec Z.eqb Z.eqb_eq). reflexivity.
  - cbn [fst snd]. rewrite Hname, Hv. reflexivity.
Qed.

(** C9: when the three tables it reads exist, the validator returns a
    mapping whose keys are exactly the five check names, in that order, with
    integer counts; [revenue_non_positive] is the number of fact rows whose
    line item is called exactly "Revenue" and whose value is at most zero
    (line item identifiers being distinct, as the primary key makes them);
    and a "Revenue" fact of value -50 makes it at least 1. *)
Theorem quality_report today olap oltp dates facts companies :
  date_dim olap = Some dates ->
  fact_financials olap = Some facts ->
  company_dim olap = Some companies ->
  exists results,
    run_quality_checks today olap oltp = Ok results /\
    List.map fst results
    = ["future_dates"; "duplicate_fact_ids"; "revenue_non_positive";
       "missing_required_metrics"; "orphaned_company_refs"]%string /\
    Forall (fun kv => (0 <= snd kv)%Z) results /\
    lookup "revenue_non_positive" results = Some (revenue_non_positive oltp facts) /\
    (NoDup (List.map OLTP.line_item_id (OLTP.line_item oltp)) ->
     lookup "revenue_non_positive" results
     = Some (count (filter (is_revenue_loss oltp) facts))) /\
    (forall ff li q,
        In ff facts -> In li (OLTP.line_item oltp) ->
        line_item_id ff = Some (OLTP.line_item_id li) ->
        OLTP.line_item_name li = "Revenue"%string ->
        value ff = Some (FNum q) -> (q == -50 # 1)%Q ->
        exists n, lookup "revenue_non_positive" results = Some n /\ (1 <= n)%Z).
Proof.
  intros Hd Hf Hc. unfold run_quality_checks. rewrite Hd, Hf, Hc. cbn [table_or_fail].
  eexists. split; [reflexivity | ].
  split; [reflexivity | ].
  split.
  { repeat constructor; cbn [snd]; apply count_nonneg. }
  split; [reflexivity | ].
  split.
  { intros Hnd. rewrite <- (revenue_non_positive_counts_facts _ _ Hnd). reflexivity. }
  intros ff li q Hff Hli Hid Hname Hv Hq.
  eexists. split; [reflexivity | ].
  apply (revenue_non_positive_found oltp facts ff li); auto.
  rewrite Hv. cbn [non_positive]. apply Qle_bool_iff. rewrite Hq. discriminate.
Qed.

Lemma quality_report_witness :
  exists results,
    run_quality_checks (OLTP.Date 2026 1 1) example_olap example_store = Ok results /\
    lookup "revenue_non_positive" results = Some 1%Z /\
    exists n, lookup "revenue_non_positive" results = Some n /\ (1 <= n)%Z.
Proof.
  destruct (quality_report (OLTP.Date 2026 1 1) example_olap example_store
              [] [example_fact] [mkCompanyDim 1 "1" "CATX" "CATX"]
              eq_refl eq_refl eq_refl)
    as (results & E & _ & _ & _ & Hcount & Hfound).
  exists results. split; [exact E | ]. split.
  - rewrite Hcount; [reflexivity | ].
    repeat constructor; simpl; intuition discriminate.
  - apply (Hfound example_fact (OLTP.mkLineItem 2 "Revenue") (-50 # 1)).
    + left. reflexivity.
    + right. left. reflexivity.
    + reflexivity.
    + reflexivity.
    + reflexivity.
    + reflexivity.
Defined.

End QualityChecks.

(** ** Decimal numerals *)

Section Numerals.

Lemma uint_digits u :
  Text.all Text.is_digit (DecimalString.NilEmpty.string_of_uint u) = true.
Proof. induction u; simpl; auto. Qed.

Lemma uint_text_inj u u' :
  DecimalString.NilEmpty.string_of_uint u = DecimalString.NilEmpty.string_of_uint u' ->
  u = u'.
Proof.
  intros E.
  assert (H : Some u = Some u').
  { rewrite <- (DecimalString.NilEmpty.usu u), <- (DecimalString.NilEmpty.usu u'), E.
    reflexivity. }
  congruence.
Qed.

Lemma str_of_pos p :
  Text.str_of_Z (Z.pos p) = DecimalString.NilEmpty.string_of_uint (Pos.to_uint p).
Proof.
  unfold Text.str_of_Z. simpl.
  pose proof (DecimalPos.Unsigned.to_uint_nonnil p) as Hn.
  destruct (Pos.to_uint p); simpl; congruence.
Qed.

Lemma str_of_Z_digits k :
  (0 <= k)%Z ->
  Text.str_of_Z k <> "" /\ Text.all Text.is_digit (Text.str_of_Z k) = true.
Proof.
  intros Hk. destruct k as [ | p | p]; [split; [discriminate | reflexivity] | | lia].
  rewrite str_of_pos. split; [ | apply uint_digits].
  pose proof (DecimalPos.Unsigned.to_uint_nonnil p) as Hn.
  destruct (Pos.to_uint p); simpl; congruence.
Qed.

Lemma str_of_Z_inj j k :
  (0 < j)%Z -> (0 < k)%Z -> Text.str_of_Z j = Text.str_of_Z k -> j = k.
Proof.
  intros Hj Hk E.
  destruct j as [ | p | p]; try lia. destruct k as [ | q | q]; try lia.
  rewrite !str_of_pos in E. apply uint_text_inj in E.
  apply DecimalPos.Unsigned.to_uint_inj in E. congruence.
Qed.

(** The last underscore of a text that ends with digits is where the
    digits start. *)
Lemma split_at_last_underscore a b x y :
  Text.all Text.is_digit x = true ->
  Text.all Text.is_digit y = true ->
  a ++ "_" ++ x = b ++ "_" ++ y -> a = b /\ x = y.
Proof.
  intros Hx Hy. revert b.
  induction a as [ | c a IH]; intros [ | c' b] E; simpl in E.
  - injection E as E. auto.
  - injection E as <- E. subst x.
    rewrite all_append in Hx. simpl in Hx.
    rewrite andb_false_r in Hx. discriminate.
  - injection E as -> E. subst y.
    rewrite all_append in Hy. simpl in Hy.
    rewrite andb_false_r in Hy. discriminate.
  - injection E as -> E. destruct (IH b E) as [-> ->]. auto.
Qed.

End Numerals.

(** ** Period labels: the suffix of a renamed column *)

Section PeriodSuffix.
Import Re Main.

Lemma lang_suffix_pattern x :
  lang suffix_pattern x ->
  exists digits,
    x = "_" ++ digits /\ digits <> "" /\ Text.all Text.is_digit digits = true.
Proof.
  unfold suffix_pattern, plus. intros H.
  apply lang_cat_inv in H. destruct H as (u & x1 & -> & Hu & H).
  apply lang_cat_inv in H. destruct H as (a & ds & -> & Ha & Hds).
  apply lang_sym_inv in Hu. destruct Hu as (u' & -> & Hu).
  apply Ascii.eqb_eq in Hu. subst u'.
  apply lang_sym_inv in Ha. destruct Ha as (a' & -> & Ha).
  apply lang_star_sym in Hds.
  exists (String a' ds). simpl. rewrite Ha, Hds. repeat split; auto. discriminate.
Qed.

Lemma at_end_spec s : at_end s = true <-> s = "" \/ s = String "010" "".
Proof.
  unfold at_end. rewrite orb_true_iff, !String.eqb_eq. tauto.
Qed.

(** Where the anchored pattern matches, the text is an underscore, digits
    and the end. *)
Lemma re_match_end_sound s m :
  re_match_end suffix_pattern s = Some m ->
  exists digits,
    s = "_" ++ digits ++ rest m /\
    digits <> "" /\ Text.all Text.is_digit digits = true /\
    (rest m = "" \/ rest m = String "010" "").
Proof.
  unfold re_match_end. intros H.
  apply matchk_sound in H. destruct H as (pre & rst & c' & -> & Hl & Hk).
  destruct (at_end rst) eqn:E; [ | discriminate].
  injection Hk as <-. simpl.
  apply lang_suffix_pattern in Hl. destruct Hl as (ds & -> & Hne & Hd).
  exists ds. rewrite append_assoc. apply at_end_spec in E. auto.
Qed.

Lemma re_match_end_complete digits nl :
  digits <> "" ->
  Text.all Text.is_digit digits = true ->
  nl = "" \/ nl = String "010" "" ->
  exists m, re_match_end suffix_pattern ("_" ++ digits ++ nl) = Some m /\ rest m = nl.
Proof.
  intros Hne Hd Hnl.
  destruct digits as [ | a ds]; [congruence | ]. clear Hne.
  simpl in Hd. apply andb_prop in Hd. destruct Hd as [Ha Hds].
  unfold re_match_end, suffix_pattern, plus.
  cbn [matchk chr d]. cbn [append].
  change ("_" =? "_")%char with true. cbv iota. rewrite Ha.
  eexists. split.
  - eapply star_sym_greedy; [exact Hds | | simpl; lia | ].
    + intros b r E. destruct Hnl as [-> | ->]; [discriminate | ].
      injection E as <- _. reflexivity.
    + replace (at_end nl) with true; [reflexivity | ].
      symmetry. apply at_end_spec. exact Hnl.
  - reflexivity.
Qed.

Lemma sub_end_from_tail fuel nl :
  nl = "" \/ nl = String "010" "" ->
  sub_end_from fuel suffix_pattern "" nl = nl.
Proof.
  intros [-> | ->]; destruct fuel as [ | [ | fuel]]; reflexivity.
Qed.

Lemma underscore_not_in_digits x y ds r :
  Text.all Text.is_digit ds = true ->
  r = "" \/ r = String "010" "" ->
  x ++ "_" ++ y <> ds ++ r.
Proof.
  intros Hds Hr. revert ds Hds.
  induction x as [ | c x IH]; intros [ | c' ds] Hds E; simpl in *.
  - destruct Hr as [-> | ->]; discriminate.
  - injection E as <- _. discriminate.
  - destruct Hr as [-> | ->]; [discriminate | ].
    injection E as _ E. destruct x; discriminate.
  - injection E as <- E. apply andb_prop in Hds. destruct Hds as [_ Hds].
    exact (IH ds Hds E).
Qed.

Lemma strip_suffix_from stem digits nl :
  digits <> "" ->
  Text.all Text.is_digit digits = true ->
  nl = "" \/ nl = String "010" "" ->
  forall fuel,
    (length (stem ++ "_" ++ digits ++ nl) <= fuel)%nat ->
    sub_end_from fuel suffix_pattern "" (stem ++ "_" ++ digits ++ nl) = stem ++ nl.
Proof.
  intros Hne Hd Hnl.
  induction stem as [ | a stem IH]; intros fuel Hfuel.
  - destruct fuel as [ | fuel]; [simpl in Hfuel; lia | ].
    destruct (re_match_end_complete digits nl Hne Hd Hnl) as (m & E & Hr).
    change ("" ++ "_" ++ digits ++ nl) with (String "_" (digits ++ nl)) in *.
    cbn [sub_end_from]. change ("_" ++ digits ++ nl) with (String "_" (digits ++ nl)) in E.
    rewrite E, Hr. simpl. apply sub_end_from_tail. exact Hnl.
  - destruct fuel as [ | fuel]; [simpl in Hfuel; lia | ].
    change (String a stem ++ "_" ++ digits ++ nl)
      with (String a (stem ++ "_" ++ digits ++ nl)) in *.
    cbn [sub_end_from].
    destruct (re_match_end suffix_pattern (String a (stem ++ "_" ++ digits ++ nl)))
      as [m | ] eqn:E.
    + exfalso. apply re_match_end_sound in E.
      destruct E as (ds & E & _ & Hds & Hr).
      simpl in E. injection E as -> E.
      exact (underscore_not_in_digits stem (digits ++ nl) ds (rest m) Hds Hr E).
    + change (String a stem ++ nl) with (String a (stem ++ nl)).
      f_equal. apply IH. simpl in Hfuel |- *. lia.
Qed.

Lemma has_suffix_cons a label : has_suffix label -> has_suffix (String a label).
Proof.
  intros (stem & ds & nl & -> & H). exists (String a stem), ds, nl. auto.
Qed.

Lemma sub_end_no_match label :
  ~ has_suffix label ->
  forall fuel, sub_end_from fuel suffix_pattern "" label = label.
Proof.
  induction label as [ | a label IH]; intros Hno [ | fuel]; try reflexivity.
  cbn [sub_end_from].
  destruct (re_match_end suffix_pattern (String a label)) as [m | ] eqn:E.
  - exfalso. apply Hno. apply re_match_end_sound in E.
    destruct E as (ds & E & H). exists "", ds, (rest m). auto.
  - f_equal. apply IH. intros H. apply Hno, has_suffix_cons, H.
Qed.

Lemma strip_suffix_strips stem digits nl :
  digits <> "" ->
  Text.all Text.is_digit digits = true ->
  nl = "" \/ nl = String "010" "" ->
  strip_suffix (stem ++ "_" ++ digits ++ nl) = stem ++ nl.
Proof.
  intros Hne Hd Hnl. unfold strip_suffix, sub_end.
  apply strip_suffix_from; auto.
Qed.

Lemma strip_suffix_keeps label : ~ has_suffix label -> strip_suffix label = label.
Proof. intros H. apply sub_end_no_match, H. Qed.

(** A label the stripping leaves alone has no suffix. *)
Lemma strip_suffix_fixed label : strip_suffix label = label -> ~ has_suffix label.
Proof.
  intros E (stem & ds & nl & -> & Hne & Hd & Hnl).
  rewrite (strip_suffix_strips stem ds nl Hne Hd Hnl) in E.
  apply (f_equal length) in E. rewrite !length_append in E.
  simpl in E. lia.
Qed.



(** The two dated labels of the renaming step, and the suffix of a renamed
    column. *)
Lemma prefix_app_l p c s : prefix p c = true -> prefix p (c ++ s) = true.
Proof.
  rewrite !prefix_spec. intros [b ->]. exists (b ++ s). apply append_assoc.
Qed.

Lemma prefix_before_underscore p c s :
  Text.all (fun a => negb (a =? "_")%char) p = true ->
  prefix p (c ++ String "_" s) = true -> prefix p c = true.
Proof.
  revert c; induction p as [ | a p IH]; intros c Hp H.
  - destruct c; reflexivity.
  - simpl in Hp. apply andb_prop in Hp. destruct Hp as [Ha Hp].
    destruct c as [ | x c]; simpl in H |- *.
    + destruct (ascii_dec a "_") as [-> | ]; [discriminate Ha | discriminate H].
    + destruct (ascii_dec a x); [eauto | discriminate].
Qed.

Lemma contains_digits_false p ds :
  Text.first_is (fun a => negb (Text.is_digit a)) p = true ->
  Text.all Text.is_digit ds = true ->
  Text.contains ds p = false.
Proof.
  intros Hp. destruct p as [ | a p]; [discriminate | ]. simpl in Hp.
  induction ds as [ | x ds IH]; intros Hd; simpl in *; auto.
  apply andb_prop in Hd. destruct Hd as [Hx Hd].
  destruct (ascii_dec a x) as [-> | ].
  - rewrite Hx in Hp. discriminate.
  - simpl. auto.
Qed.

Lemma contains_before_suffix p c ds :
  Text.all (fun a => negb (a =? "_")%char) p = true ->
  Text.first_is (fun a => negb (Text.is_digit a)) p = true ->
  Text.all Text.is_digit ds = true ->
  Text.contains (c ++ "_" ++ ds) p = Text.contains c p.
Proof.
  intros Hp Hf Hd.
  induction c as [ | x c IH].
  - destruct p as [ | a p]; [discriminate | ].
    change ("" ++ "_" ++ ds) with (String "_" ds).
    cbn [Text.contains]. rewrite (contains_digits_false _ ds Hf Hd).
    simpl in Hp. apply andb_prop in Hp. destruct Hp as [Ha _].
    simpl. destruct (ascii_dec a "_") as [-> | ]; [discriminate | reflexivity].
  - change (String x c ++ "_" ++ ds) with (String x (c ++ "_" ++ ds)).
    cbn [Text.contains]. rewrite IH. f_equal.
    change (c ++ "_" ++ ds) with (c ++ String "_" ds).
    destruct (prefix p (String x c)) eqn:E.
    + exact (prefix_app_l p (String x c) (String "_" ds) E).
    + destruct (prefix p (String x (c ++ String "_" ds))) eqn:E'; auto.
      apply (prefix_before_underscore p (String x c) ds Hp) in E'. congruence.
Qed.

Lemma rename_column_suffix c k :
  (0 <= k)%Z ->
  strip_suffix (rename_column (c ++ "_" ++ Text.str_of_Z k)) = strip_suffix (rename_column c)
  \/ (rename_column c = c /\
      strip_suffix (rename_column (c ++ "_" ++ Text.str_of_Z k)) = c).
Proof.
  intros Hk. destruct (str_of_Z_digits k Hk) as [Hne Hd].
  unfold rename_column.
  rewrite !(contains_before_suffix _ c _) by (reflexivity || exact Hd).
  destruct (Text.contains c "June 30, 2025"); auto.
  destruct (Text.contains c "December 31, 2024"); auto.
  right. split; auto.
  rewrite <- (append_nil_r (Text.str_of_Z k)).
  rewrite (strip_suffix_strips c (Text.str_of_Z k) "" Hne Hd); auto.
  apply append_nil_r.
Qed.

Lemma renamed_label_no_suffix c : ~ has_suffix c -> ~ has_suffix (rename_column c).
Proof.
  intros H. unfold rename_column.
  destruct (Text.contains c "June 30, 2025");
    [apply strip_suffix_fixed; reflexivity | ].
  destruct (Text.contains c "December 31, 2024"); auto.
  apply strip_suffix_fixed; reflexivity.
Qed.

Lemma period_label_of_unique_name before c :
  ~ has_suffix c ->
  strip_suffix (rename_column (unique_name before c)) = rename_column c.
Proof.
  intros Hc. unfold unique_name.
  destruct (count_occ string_dec before c) as [ | k].
  - apply strip_suffix_keeps, renamed_label_no_suffix, Hc.
  - destruct (rename_column_suffix c (Z.of_nat (S k))) as [E | [E1 E2]]; [lia | | ].
    + rewrite E. apply strip_suffix_keeps, renamed_label_no_suffix, Hc.
    + rewrite E2, E1. reflexivity.
Qed.

(** X2: the period label of a duplicated column is the label of its first
    occurrence: when no column name ends with an underscore and digits of
    its own, renaming the columns apart ([make_unique]), merging the dated
    labels ([rename_column]) and stripping the suffix ([strip_suffix]) gives,
    column by column, what merging the dated labels of the original names
    gives, so that the suffixes [_1], [_2], ... never reach
    [parse_period]. *)
Theorem period_labels_of_duplicates (cols : list string) :
  (forall c, In c cols -> ~ has_suffix c) ->
  List.map (fun c => strip_suffix (rename_column c)) (make_unique cols)
  = List.map rename_column cols.
Proof.
  intros H. rewrite make_unique_names. generalize (@nil string).
  induction cols as [ | c cols IH]; intros before; simpl; auto.
  rewrite period_label_of_unique_name by (apply H; left; reflexivity).
  f_equal. apply IH. intros c' Hc'. apply H. right. exact Hc'.
Qed.

Lemma period_labels_of_duplicates_witness :
  List.map (fun c => strip_suffix (rename_column c))
           (make_unique ["Line Item"; "Six Months Ended June 30, 2025"; "2024";
                         "Six Months Ended June 30, 2025"; "2024"; "2024"])
  = ["Line Item"; "June 30, 2025 (unaudited)"; "2024";
     "June 30, 2025 (unaudited)"; "2024"; "2024"].
Proof.
  apply (period_labels_of_duplicates
           ["Line Item"; "Six Months Ended June 30, 2025"; "2024";
            "Six Months Ended June 30, 2025"; "2024"; "2024"]).
  intros c Hc. apply strip_suffix_fixed.
  simpl in Hc. repeat (destruct Hc as [<- | Hc]; [reflexivity | ]). contradiction.
Defined.

End PeriodSuffix.

(** ** [make_unique]: when the names are distinct *)

Section MakeUniqueDistinct.
Import Main.
Local Open Scope list_scope.

Lemma unique_names_In x cols :
  forall before,
    In x (unique_names before cols) ->
    exists pre c post,
      cols = pre ++ c :: post /\ x = unique_name (before ++ pre) c.
Proof.
  induction cols as [ | c cols IH]; intros before H; simpl in H; [contradiction | ].
  destruct H as [<- | H].
  - exists [], c, cols. rewrite app_nil_r. auto.
  - apply IH in H. destruct H as (pre & c' & post & -> & ->).
    exists (c :: pre), c', post. rewrite <- app_assoc. auto.
Qed.

Lemma unique_name_cases before c :
  (count_occ string_dec before c = 0%nat /\ unique_name before c = c) \/
  (exists k, count_occ string_dec before c = S k /\
             unique_name before c = (c ++ "_" ++ Text.str_of_Z (Z.of_nat (S k)))%string).
Proof.
  unfold unique_name. destruct (count_occ string_dec before c); eauto.
Qed.

Lemma unique_names_NoDup cols :
  forall before,
    (forall c k, In c (before ++ cols) -> (1 <= k)%Z ->
                 ~ In (c ++ "_" ++ Text.str_of_Z k)%string (before ++ cols)) ->
    NoDup (unique_names before cols).
Proof.
  induction cols as [ | c cols IH]; intros before Hfree; simpl; constructor.
  - intros Hin. apply unique_names_In in Hin.
    destruct Hin as (pre & c' & post & -> & E).
    assert (Hc : In c (before ++ c :: pre ++ c' :: post))
      by (apply in_or_app; right; left; reflexivity).
    assert (Hc' : In c' (before ++ c :: pre ++ c' :: post)).
    { apply in_or_app; right; right. apply in_or_app; right; left; reflexivity. }
    destruct (unique_name_cases before c) as [[K1 E1] | (k1 & K1 & E1)];
      destruct (unique_name_cases ((before ++ [c]) ++ pre) c')
        as [[K2 E2] | (k2 & K2 & E2)];
      rewrite E1, E2 in E.
    + subst c'. rewrite !count_occ_app in K2. simpl in K2.
      destruct (string_dec c c); [lia | congruence].
    + apply (Hfree c' (Z.of_nat (S k2)) Hc'); [lia | ]. rewrite <- E. exact Hc.
    + apply (Hfree c (Z.of_nat (S k1)) Hc); [lia | ]. rewrite E. exact Hc'.
    + apply split_at_last_underscore in E;
        try (apply str_of_Z_digits; lia).
      destruct E as [<- E]. apply str_of_Z_inj in E; try lia.
      rewrite !count_occ_app in K2. simpl in K2.
      destruct (string_dec c c); [lia | congruence].
  - apply IH. intros c' k Hc' Hk.
    rewrite <- app_assoc. simpl. apply Hfree; auto.
    rewrite <- app_assoc in Hc'. exact Hc'.
Qed.

(** X3: [make_unique] returns pairwise distinct names whenever no input
    name is another input name followed by an underscore and a positive
    number; the names of a table without such a column are therefore told
    apart. *)
Theorem make_unique_distinct (cols : list string) :
  (forall c k, In c cols -> (1 <= k)%Z ->
               ~ In (c ++ "_" ++ Text.str_of_Z k)%string cols) ->
  NoDup (make_unique cols).
Proof.
  intros H. rewrite make_unique_names. apply unique_names_NoDup. exact H.
Qed.


Lemma make_unique_distinct_witness :
  NoDup (make_unique ["Line Item"; "Total"; "Total"; "2024"; "Total"]).
Proof.
  apply (make_unique_distinct ["Line Item"; "Total"; "Total"; "2024"; "Total"]).
  intros c k _ _ Hin.
  assert (U : Text.contains (c ++ "_" ++ Text.str_of_Z k)%string "_" = true).
  { apply contains_spec. exists c, (Text.str_of_Z k). reflexivity. }
  cbn [In] in Hin.
  repeat (destruct Hin as [E | Hin];
          [rewrite <- E in U; vm_compute in U; discriminate U | ]).
  contradiction.
Defined.

End MakeUniqueDistinct.

(** ** [extract_metadata]: what the result says about the path *)

Section MetadataFacts.
Import Re Functions.

Lemma digit_not_hyphen c : Text.is_digit c = true -> ("-" =? c)%char = false.
Proof.
  destruct c as [[] [] [] [] [] [] [] []]; vm_compute; congruence.
Qed.

Lemma remove_hyphens_of_date digits :
  length digits = 8%nat ->
  Text.all Text.is_digit digits = true ->
  Text.remove "-" (hyphenate digits) = digits.
Proof.
  intros Hlen Hdig.
  destruct (string_of_length_8 _ Hlen) as (d1 & d2 & d3 & d4 & d5 & d6 & d7 & d8 & ->).
  simpl in Hdig.
  repeat (apply andb_prop in Hdig; destruct Hdig as [?H Hdig]).
  cbv beta iota zeta delta
    [hyphenate Text.slice Text.take Text.drop Nat.sub append Text.remove].
  repeat match goal with
         | E : Text.is_digit _ = true |- _ =>
             rewrite (digit_not_hyphen _ E); clear E
         end.
  reflexivity.
Qed.

Lemma basename_from_slash a b :
  forall acc, Text.basename_from acc (a ++ "/" ++ b) = Text.basename b.
Proof.
  induction a as [ | c a IH]; intros acc; simpl.
  - reflexivity.
  - destruct (c =? "/")%char; apply IH.
Qed.



(** X5: only the base name of the path counts: whatever directories come
    before the last slash, [extract_metadata] gives what it gives for the
    rest of the path, be it a result or the error. *)
Theorem extract_metadata_ignores_directory (dir name : string) :
  extract_metadata (dir ++ "/" ++ name) = extract_metadata name.
Proof.
  unfold extract_metadata.
  replace (Text.basename (dir ++ "/" ++ name)) with (Text.basename name);
    [reflexivity | ].
  symmetry. unfold Text.basename at 1. apply basename_from_slash.
Qed.

End MetadataFacts.
(** ** [parse_period]: the end date and the fiscal year *)

Section PeriodFields.
Import Re Functions.

Lemma occurs_in_trans a b c :
  Text.occurs_in a b -> Text.occurs_in b c -> Text.occurs_in a c.
Proof.
  intros (x & y & ->) (u & v & ->).
  exists (u ++ x), (y ++ v). rewrite !append_assoc. reflexivity.
Qed.

Lemma year_search_finds ds p :
  length ds = 4%nat -> Text.all Text.is_digit ds = true ->
  Text.occurs_in ds p -> re_search year_pattern p <> None.
Proof.
  intros Hl Hd (a & b & ->). apply re_search_complete.
  destruct (string_of_length_4 _ Hl) as (c1 & c2 & c3 & c4 & ->).
  simpl in Hd. repeat (apply andb_prop in Hd; destruct Hd as [? Hd]).
  apply year_match_complete; assumption.
Qed.

Lemma year_search_found s m :
  re_search year_pattern s = Some m ->
  length (group0 m) = 4%nat /\ Text.all Text.is_digit (group0 m) = true /\
  Text.occurs_in (group0 m) s.
Proof.
  intros H. apply re_search_sound in H. destruct H as [L [before E]].
  apply lang_rep_digits in L. destruct L as [Hl Hd].
  repeat split; auto. exists before, (rest m). exact E.
Qed.


End PeriodFields.

(** ** From the cleaned table to the tidy rows *)

Section Reshape.
Import Main.
Local Open Scope list_scope.

(** The [j]-th selected element is the element at the position of the
    [j]-th mark. *)
Lemma select_nth (mask : list bool) :
  forall (j : nat) {B : Type} (l0 : list B),
    List.length l0 = List.length mask ->
    (j < List.length (select mask l0))%nat ->
    exists i,
      (i < List.length mask)%nat /\ nth i mask false = true /\
      forall (A : Type) (l : list A) (d : A), nth j (select mask l) d = nth i l d.
Proof.
  induction mask as [ | b mask IH]; intros j B l0 Hlen Hj.
  - simpl in Hj. lia.
  - destruct l0 as [ | x0 l0]; [discriminate | ].
    simpl in Hlen. injection Hlen as Hlen.
    destruct b; simpl in Hj.
    + destruct j as [ | j].
      * exists 0%nat. split; [simpl; lia | ]. split; [reflexivity | ].
        intros A [ | x l] d; reflexivity.
      * destruct (IH j B l0 Hlen) as (i & Hi & Hm & Hn); [lia | ].
        exists (S i). split; [simpl; lia | ]. split; [exact Hm | ].
        intros A [ | x l] d; simpl; auto.
    + destruct (IH j B l0 Hlen Hj) as (i & Hi & Hm & Hn).
      exists (S i). split; [simpl; lia | ]. split; [exact Hm | ].
      intros A [ | x l] d; simpl; auto. destruct j; reflexivity.
Qed.

Lemma select_pos (mask : list bool) :
  forall (i : nat) {B : Type} (l0 : list B),
    List.length l0 = List.length mask ->
    nth i mask false = true ->
    exists j,
      (j < List.length (select mask l0))%nat /\
      forall (A : Type) (l : list A) (d : A), nth j (select mask l) d = nth i l d.
Proof.
  induction mask as [ | b mask IH]; intros i B l0 Hlen Hi.
  - destruct i; discriminate.
  - destruct l0 as [ | x0 l0]; [discriminate | ].
    simpl in Hlen. injection Hlen as Hlen.
    destruct i as [ | i].
    + simpl in Hi. subst b. exists 0%nat. split; [simpl; lia | ].
      intros A [ | x l] d; reflexivity.
    + simpl in Hi. destruct (IH i B l0 Hlen Hi) as (j & Hj & Hn).
      destruct b.
      * exists (S j). split; [simpl; lia | ].
        intros A [ | x l] d; simpl; auto.
      * exists j. split; [exact Hj | ].
        intros A [ | x l] d; simpl; auto. destruct j; reflexivity.
Qed.

Lemma cleaned_at_col (i : nat) (r : list cell) :
  nth i (List.map cleaned (tl r)) FNaN = cleaned (at_col (S i) r).
Proof.
  unfold at_col. change FNaN with (cleaned None). rewrite map_nth.
  destruct r; [destruct i | ]; reflexivity.
Qed.

Lemma nth_tl {A : Type} (i : nat) (l : list A) (d : A) : nth i (tl l) d = nth (S i) l d.
Proof. destruct l; [destruct i | ]; reflexivity. Qed.

Lemma num_cols_mask_length df :
  List.length (num_cols_mask (clean_frame_of df)) = List.length (tl (columns df)).
Proof.
  unfold num_cols_mask. rewrite length_map, length_seq. simpl.
  destruct (columns df); simpl; lia.
Qed.

Lemma num_cols_mask_nth df i :
  nth i (num_cols_mask (clean_frame_of df)) false = true <->
  (S i < List.length (columns df))%nat /\
  (exists r, In r (rows df) /\ Float.isna (cleaned (at_col (S i) r)) = false) /\
  nth (S i) (columns df) "" <> "Line Item".
Proof.
  unfold num_cols_mask. cbn [ccolumns crows clean_frame_of].
  destruct (Nat.lt_ge_cases i (List.length (columns df) - 1)) as [Hi | Hi].
  - rewrite (nth_map_seq _ _ _ false) by exact Hi.
    rewrite andb_true_iff, existsb_exists, negb_true_iff, String.eqb_neq.
    split.
    + intros [(r' & Hr' & Hv) Hc]. split; [lia | ]. split; [ | exact Hc].
      apply in_map_iff in Hr'. destruct Hr' as (r & <- & Hr).
      exists r. split; [exact Hr | ].
      cbn [snd] in Hv. rewrite cleaned_at_col in Hv.
      apply negb_true_iff in Hv. exact Hv.
    + intros (_ & (r & Hr & Hv) & Hc). split; [ | exact Hc].
      exists (line_item_text (at_col 0 r), List.map cleaned (tl r)).
      split; [apply in_map_iff; exists r; auto | ].
      cbn [snd]. rewrite cleaned_at_col, Hv. reflexivity.
  - rewrite nth_overflow by (rewrite length_map, length_seq; exact Hi).
    split; [discriminate | ]. intros [H _]. lia.
Qed.

Lemma melt_In df t :
  In t (melt_rows (rename_columns (keep_num_cols (clean_frame_of df)))) <->
  exists j r,
    (j < List.length (select (num_cols_mask (clean_frame_of df)) (tl (columns df))))%nat /\
    In r (rows df) /\
    t = Tidy (line_item_text (at_col 0 r))
             (rename_column
                (nth j (select (num_cols_mask (clean_frame_of df)) (tl (columns df))) ""))
             (nth j (select (num_cols_mask (clean_frame_of df))
                            (List.map cleaned (tl r))) FNaN).
Proof.
  unfold melt_rows. cbn [ccolumns crows rename_columns keep_num_cols clean_frame_of].
  set (mask := num_cols_mask (clean_frame_of df)).
  rewrite in_flat_map. cbn [List.map List.length]. rewrite length_map.
  split.
  - intros (j & Hj & Ht). apply in_seq in Hj.
    rewrite !map_map in Ht. apply in_map_iff in Ht. destruct Ht as (r & <- & Hr).
    exists j, r. split; [lia | ]. split; [exact Hr | ].
    cbn [fst snd nth]. f_equal.
    change "" with (rename_column "") at 1. apply map_nth.
  - intros (j & r & Hj & Hr & ->).
    exists j. split; [apply in_seq; lia | ].
    rewrite !map_map. apply in_map_iff. exists r. split; [ | exact Hr].
    cbn [fst snd nth]. f_equal.
    change "" with (rename_column "") at 1. apply map_nth.
Qed.

Lemma first_column_apart (cols : list string) (i : nat) :
  hd "" cols = "Line Item" -> NoDup cols ->
  (1 <= i < List.length cols)%nat -> nth i cols "" <> "Line Item".
Proof.
  intros Hhd Hnd Hi E.
  assert (E0 : nth 0 cols "" = "Line Item") by (destruct cols; [simpl in Hi; lia | exact Hhd]).
  rewrite <- E0 in E.
  apply (proj1 (NoDup_nth cols "") Hnd) in E; lia.
Qed.

Lemma rename_column_value c : rename_column c = "Value" <-> c = "Value".
Proof.
  unfold rename_column. split.
  - destruct (Text.contains c "June 30, 2025"); [discriminate | ].
    destruct (Text.contains c "December 31, 2024"); [discriminate | auto].
  - intros ->. reflexivity.
Qed.

(** The frame handed to [melt] has a column called "Value" exactly when a
    column that holds a number is called so. *)
Lemma melt_refuses df :
  hd "" (columns df) = "Line Item" -> NoDup (columns df) ->
  existsb (String.eqb "Value")
          (ccolumns (rename_columns (keep_num_cols (clean_frame_of df)))) = true
  <-> value_column df.
Proof.
  intros Hhd Hnd.
  pose proof (num_cols_mask_length df) as Hlen.
  cbn [ccolumns rename_columns keep_num_cols clean_frame_of].
  set (mask := num_cols_mask (clean_frame_of df)) in *.
  rewrite existsb_exists. split.
  - intros (c & Hc & E). apply String.eqb_eq in E. subst c.
    apply in_map_iff in Hc. destruct Hc as (c & E & Hc).
    apply (proj1 (rename_column_value c)) in E. subst c.
    destruct Hc as [Hc | Hc]; [rewrite Hhd in Hc; discriminate | ].
    destruct (In_nth _ _ "" Hc) as (j & Hj & Ej).
    destruct (select_nth mask j (tl (columns df)) (eq_sym Hlen) Hj)
      as (i & Hi & Hm & Hn).
    apply num_cols_mask_nth in Hm. destruct Hm as (Hi' & (r & Hr & Hv) & _).
    rewrite Hn, nth_tl in Ej.
    exists r, (S i). repeat split; auto; lia.
  - intros (r & i & Hr & Hi & Hv & E).
    destruct i as [ | i]; [lia | ].
    assert (Hm : nth i mask false = true).
    { apply num_cols_mask_nth. split; [lia | ]. split; [eauto | ].
      rewrite E. discriminate. }
    destruct (select_pos mask i (tl (columns df)) (eq_sym Hlen) Hm) as (j & Hj & Hn).
    exists "Value". split; [ | reflexivity].
    apply in_map_iff. exists "Value". split; [reflexivity | ].
    right. rewrite <- E, <- nth_tl, <- Hn. apply nth_In. exact Hj.
Qed.



End Reshape.

(** ** The input list: [read_unique_links] *)

Section Links.
Import Functions.
Local Open Scope list_scope.

Lemma rstrip_cons c s :
  Text.rstrip (String c s)
  = match Text.rstrip s with
    | ""%string => if Text.is_space c then ""%string else String c ""
    | r => String c r
    end.
Proof. reflexivity. Qed.

Lemma rstrip_idempotent s : Text.rstrip (Text.rstrip s) = Text.rstrip s.
Proof.
  induction s as [ | c s IH]; [reflexivity | ].
  rewrite rstrip_cons.
  destruct (Text.rstrip s) as [ | a r] eqn:E.
  - destruct (Text.is_space c) eqn:Ec; simpl; rewrite ?Ec; reflexivity.
  - rewrite rstrip_cons, IH. reflexivity.
Qed.

Lemma lstrip_first s :
  Text.lstrip s = "" \/ Text.first_is (fun c => negb (Text.is_space c)) (Text.lstrip s) = true.
Proof.
  induction s as [ | c s IH]; simpl; auto.
  destruct (Text.is_space c) eqn:E; auto.
  right. simpl. rewrite E. reflexivity.
Qed.

Lemma lstrip_rstrip s :
  Text.first_is (fun c => negb (Text.is_space c)) s = true ->
  Text.lstrip (Text.rstrip s) = Text.rstrip s.
Proof.
  destruct s as [ | c s]; [discriminate | ]. cbn [Text.first_is]. intros H.
  apply negb_true_iff in H. rewrite rstrip_cons.
  destruct (Text.rstrip s); rewrite ?H; cbn [Text.lstrip]; rewrite H; reflexivity.
Qed.

Lemma strip_idempotent s : Text.strip (Text.strip s) = Text.strip s.
Proof.
  unfold Text.strip. destruct (lstrip_first s) as [E | H].
  - rewrite E. reflexivity.
  - rewrite (lstrip_rstrip _ H). apply rstrip_idempotent.
Qed.

Lemma set_add_In x y s : In y (set_add x s) <-> y = x \/ In y s.
Proof.
  unfold set_add. destruct (existsb (String.eqb x) s) eqn:E.
  - split; auto. intros [-> | H]; auto.
    apply existsb_exists in E. destruct E as (z & Hz & Ez).
    apply String.eqb_eq in Ez. subst z. exact Hz.
  - rewrite in_app_iff. simpl. intuition.
Qed.

Lemma set_add_NoDup x s : NoDup s -> NoDup (set_add x s).
Proof.
  intros H. unfold set_add. destruct (existsb (String.eqb x) s) eqn:E; auto.
  apply NoDup_app; auto.
  - repeat constructor. simpl. tauto.
  - intros y Hy [Ey | []]. subst y.
    assert (F : existsb (String.eqb x) s = true)
      by (apply existsb_exists; exists x; split; [exact Hy | apply String.eqb_refl]).
    congruence.
Qed.

(** A line counts when, once stripped, it is not empty and does not start
    with the comment sign. *)
Lemma read_unique_links_from lines :
  forall acc,
    NoDup acc ->
    let out :=
      fold_left (fun unique_links line =>
                   let link := Text.strip line in
                   if ((link =? "")%string || Text.startswith link "#")%bool
                   then unique_links
                   else set_add link unique_links)
                lines acc in
    NoDup out /\
    forall link,
      In link out <->
      In link acc \/
      (exists line, In line lines /\ Text.strip line = link) /\
      link <> ""%string /\ Text.startswith link "#" = false.
Proof.
  induction lines as [ | line lines IH]; intros acc Hacc; cbn [fold_left].
  - split; [exact Hacc | ]. intros link. split; auto.
    intros [H | [(l & [] & _) _]]. exact H.
  - set (link0 := Text.strip line).
    destruct ((link0 =? "")%string || Text.startswith link0 "#")%bool eqn:E.
    + destruct (IH acc Hacc) as [Hnd Hin]. split; [exact Hnd | ].
      intros link. rewrite Hin. split.
      * intros [H | [(l & Hl & El) H]]; auto.
        right. split; auto. exists l. split; [right | ]; auto.
      * intros [H | [(l & [<- | Hl] & El) [Hne Hc]]]; auto.
        -- exfalso. fold link0 in El. subst link.
           apply orb_true_iff in E. destruct E as [E | E]; [ | congruence].
           apply String.eqb_eq in E. congruence.
        -- right. split; auto. exists l. auto.
    + apply orb_false_iff in E. destruct E as [E1 E2].
      apply String.eqb_neq in E1.
      destruct (IH (set_add link0 acc) (set_add_NoDup link0 acc Hacc)) as [Hnd Hin].
      split; [exact Hnd | ].
      intros link. rewrite Hin, set_add_In. split.
      * intros [[-> | H] | [(l & Hl & El) H]]; auto.
        -- right. split; auto. exists line. split; [left | ]; auto.
        -- right. split; auto. exists l. split; [right | ]; auto.
      * intros [H | [(l & [<- | Hl] & El) H]]; auto.
        right. split; auto. exists l. auto.
Qed.

(** X8: [read_unique_links] returns each link once: a text is returned
    exactly when it is some line of the file stripped of the white space
    around it, is not empty and does not start with [#]; no text is
    returned twice, and none has white space left around it. *)
Theorem read_unique_links_spec (lines : list string) :
  NoDup (read_unique_links lines) /\
  forall link,
    In link (read_unique_links lines) <->
    (exists line, In line lines /\ Text.strip line = link) /\
    link <> ""%string /\ Text.startswith link "#" = false /\
    Text.strip link = link.
Proof.
  destruct (read_unique_links_from lines [] (NoDup_nil _)) as [Hnd Hin].
  split; [exact Hnd | ].
  intros link. unfold read_unique_links. rewrite Hin. split.
  - intros [[] | [(l & Hl & El) [H1 H2]]].
    repeat split; eauto. rewrite <- El. apply strip_idempotent.
  - intros (H & H1 & H2 & _). auto.
Qed.

End Links.

(** ** The kind of a file: [detect_file_type] *)

Section FileType.
Import Functions.

Lemma basename_from_no_slash t :
  Text.all (fun c => negb (c =? "/")%char) t = true ->
  forall acc, Text.basename_from acc t = acc.
Proof.
  induction t as [ | c t IH]; simpl; intros H acc; auto.
  apply andb_prop in H. destruct H as [Hc Ht].
  apply negb_true_iff in Hc. rewrite Hc. apply IH, Ht.
Qed.

Lemma basename_from_app s t :
  Text.all (fun c => negb (c =? "/")%char) t = true ->
  forall acc,
    Text.basename_from (acc ++ t) (s ++ t) = Text.basename_from acc s ++ t.
Proof.
  intros Ht. induction s as [ | c s IH]; intros acc; simpl.
  - apply basename_from_no_slash, Ht.
  - destruct (c =? "/")%char; apply IH.
Qed.

Lemma basename_app s t :
  Text.all (fun c => negb (c =? "/")%char) t = true ->
  Text.basename (s ++ t) = Text.basename s ++ t.
Proof. intros Ht. apply basename_from_app, Ht. Qed.

Lemma from_last_dot_none e :
  Text.all (fun c => negb (c =? ".")%char) e = true -> from_last_dot e = None.
Proof.
  induction e as [ | c e IH]; simpl; auto.
  intros H. apply andb_prop in H. destruct H as [Hc He].
  rewrite (IH He). apply negb_true_iff in Hc. rewrite Hc. reflexivity.
Qed.

Lemma from_last_dot_app b e :
  Text.all (fun c => negb (c =? ".")%char) e = true ->
  from_last_dot (b ++ "." ++ e) = Some ("." ++ e).
Proof.
  intros He. induction b as [ | c b IH].
  - simpl. rewrite (from_last_dot_none e He). reflexivity.
  - change (String c b ++ "." ++ e) with (String c (b ++ "." ++ e)).
    cbn [from_last_dot]. rewrite IH. reflexivity.
Qed.

Lemma splitext_ext_app path e :
  Text.all (fun c => negb (c =? "/")%char) e = true ->
  Text.all (fun c => negb (c =? ".")%char) e = true ->
  Text.all (Ascii.eqb ".") (Text.basename path) = false ->
  splitext_ext (path ++ "." ++ e) = "." ++ e.
Proof.
  intros Hs Hd Hb. unfold splitext_ext.
  rewrite basename_app by (simpl; rewrite Hs; reflexivity).
  rewrite (from_last_dot_app _ e Hd).
  rewrite take_consumed, Hb. reflexivity.
Qed.

Variable read_bytes : string -> option string.
Variable read_text : string -> option string.

(** X9: the extension decides first, whatever the letter case and
    whatever the file holds: a path whose base name is a name (not only
    dots), a dot and an extension that reads [pdf] in lower case is a
    "pdf", and "html" when the extension reads [html] or [htm]; the file is
    not opened. *)
Theorem detect_file_type_extension (path e : string) :
  Text.all (fun c => negb (c =? "/")%char) e = true ->
  Text.all (fun c => negb (c =? ".")%char) e = true ->
  Text.all (Ascii.eqb ".") (Text.basename path) = false ->
  (Text.lower e = "pdf" ->
   detect_file_type read_bytes read_text (path ++ "." ++ e) = "pdf") /\
  (Text.lower e = "html" \/ Text.lower e = "htm" ->
   detect_file_type read_bytes read_text (path ++ "." ++ e) = "html").
Proof.
  intros Hs Hd Hb. unfold detect_file_type.
  rewrite (splitext_ext_app path e Hs Hd Hb).
  change (Text.lower ("." ++ e)) with (String "." (Text.lower e)).
  split.
  - intros ->. reflexivity.
  - intros [-> | ->]; reflexivity.
Qed.

End FileType.

Lemma detect_file_type_extension_witness :
  Functions.detect_file_type (fun _ => None) (fun _ => None)
    "in/CATX_20250813_10Q.HTML" = "html"
  /\ Functions.detect_file_type (fun _ => Some "<html>") (fun _ => Some "<html>")
       "in/report.v2.Pdf" = "pdf".
Proof.
  split.
  - apply (proj2 (detect_file_type_extension (fun _ => None) (fun _ => None)
                    "in/CATX_20250813_10Q" "HTML" eq_refl eq_refl eq_refl)).
    left. reflexivity.
  - apply (proj1 (detect_file_type_extension
                    (fun _ => Some "<html>") (fun _ => Some "<html>")
                    "in/report.v2" "Pdf" eq_refl eq_refl eq_refl)).
    reflexivity.
Defined.

(** ** Which tables are candidates: [df_type] *)

Section Candidates.
Import Main.
Local Open Scope list_scope.

Lemma map_append f a b : Text.map f (a ++ b)%string = (Text.map f a ++ Text.map f b)%string.
Proof. induction a; simpl; congruence. Qed.

Lemma join_occurs sep x l : In x l -> Text.occurs_in x (Text.join sep l).
Proof.
  unfold Text.join. induction l as [ | y l IH]; intros H; [contradiction | ].
  destruct H as [-> | H].
  - destruct l as [ | z l]; simpl.
    + exists ""%string, ""%string. rewrite append_nil_r. reflexivity.
    + exists ""%string, (sep ++ concat sep (z :: l))%string. reflexivity.
  - destruct (IH H) as (a & b & E).
    destruct l as [ | z l]; [contradiction | ].
    change (concat sep (y :: z :: l)) with (y ++ sep ++ concat sep (z :: l))%string.
    rewrite E. exists (y ++ sep ++ a)%string, b.
    rewrite !append_assoc. reflexivity.
Qed.

Lemma lower_occurs k x s :
  Text.occurs_in k (Text.lower x) -> Text.occurs_in x s ->
  Text.occurs_in k (Text.lower s).
Proof.
  intros Hk (a & b & ->). unfold Text.lower in *. rewrite !map_append.
  eapply occurs_in_trans; [exact Hk | ].
  eexists _, _. reflexivity.
Qed.

(** A cell that mentions [k], in any letter case, makes [k] occur in the
    text of the table. *)
Lemma table_text_mentions df row x k :
  In row (rows df) -> In (Some x) row ->
  Text.occurs_in k (Text.lower x) ->
  Text.contains (table_text df) k = true.
Proof.
  intros Hrow Hx Hk. apply contains_spec. unfold table_text.
  apply (lower_occurs k x); [exact Hk | ].
  apply join_occurs.
  apply in_map_iff. exists (Some x). split; [reflexivity | ].
  apply in_concat. exists row. auto.
Qed.

(** X10: a table is a candidate as soon as one of its cells mentions a
    keyword, in any letter case: a cell that mentions a balance-sheet
    keyword makes the table a "Balance Sheet", whatever else it holds; a
    cell that mentions an income-statement keyword makes it a candidate of
    one of the two kinds. *)
Theorem df_type_by_keyword (df : frame) (row : list cell) (x k : string) :
  In row (rows df) -> In (Some x) row ->
  Text.occurs_in k (Text.lower x) ->
  (In k keywords_balance -> df_type df = Some "Balance Sheet"%string) /\
  (In k keywords_income ->
   df_type df = Some "Balance Sheet"%string \/
   df_type df = Some "Income Statement"%string).
Proof.
  intros Hrow Hx Hk.
  pose proof (table_text_mentions df row x k Hrow Hx Hk) as Hc.
  unfold df_type. split; intros Hin.
  - replace (existsb (Text.contains (table_text df)) keywords_balance) with true;
      [reflexivity | ].
    symmetry. apply existsb_exists. exists k. auto.
  - destruct (existsb (Text.contains (table_text df)) keywords_balance); auto.
    replace (existsb (Text.contains (table_text df)) keywords_income) with true;
      [auto | ].
    symmetry. apply existsb_exists. exists k. auto.
Qed.

Lemma df_type_by_keyword_witness :
  df_type (Frame ["0"; "1"]
                 [[Some "Net Loss"; Some "(5)"];
                  [Some "TOTAL ASSETS"; None]])
  = Some "Balance Sheet"%string.
Proof.
  apply (proj1 (df_type_by_keyword
                  (Frame ["0"; "1"]
                         [[Some "Net Loss"; Some "(5)"]; [Some "TOTAL ASSETS"; None]])
                  [Some "TOTAL ASSETS"; None] "TOTAL ASSETS" "total assets"
                  ltac:(right; left; reflexivity) ltac:(left; reflexivity)
                  ltac:(exists ""%string, ""%string; reflexivity))).
  left. reflexivity.
Defined.

End Candidates.

(** ** What the loader keeps, whatever fails *)

Section StoreOrder.
Import OLTP.
Local Open Scope list_scope.

Lemma extends_refl d : extends d d.
Proof. repeat split; exists []; rewrite app_nil_r; reflexivity. Qed.

Lemma extends_trans d1 d2 d3 : extends d1 d2 -> extends d2 d3 -> extends d1 d3.
Proof.
  intros (H1 & H2 & H3 & H4 & H5) (K1 & K2 & K3 & K4 & K5).
  repeat split;
    [destruct H1 as [a E], K1 as [b F] | destruct H2 as [a E], K2 as [b F]
     | destruct H3 as [a E], K3 as [b F] | destruct H4 as [a E], K4 as [b F]
     | destruct H5 as [a E], K5 as [b F]];
    exists (a ++ b); rewrite F, E, app_assoc; reflexivity.
Qed.

Lemma grows_with_companies : grows_with companies.
Proof.
  split.
  - intros d d' (H & _). exact H.
  - intros d a. repeat split; simpl; try (exists []; rewrite app_nil_r; reflexivity).
    exists a. reflexivity.
Qed.

Lemma grows_with_statement_types : grows_with statement_types.
Proof.
  split.
  - intros d d' (_ & _ & H & _). exact H.
  - intros d a. repeat split; simpl; try (exists []; rewrite app_nil_r; reflexivity).
    exists a. reflexivity.
Qed.

Lemma grows_with_line_items : grows_with line_items.
Proof.
  split.
  - intros d d' (_ & _ & _ & H & _). exact H.
  - intros d a. repeat split; simpl; try (exists []; rewrite app_nil_r; reflexivity).
    exists a. reflexivity.
Qed.

Lemma extends_filings d a : extends d (with_rows filing_table (filing d ++ a) d).
Proof.
  repeat split; simpl; try (exists []; rewrite app_nil_r; reflexivity).
  exists a. reflexivity.
Qed.

Lemma extends_facts d a :
  extends d (with_rows financial_fact_table (financial_fact d ++ a) d).
Proof.
  repeat split; simpl; try (exists []; rewrite app_nil_r; reflexivity).
  exists a. reflexivity.
Qed.

Lemma grows_refl st : grows st st.
Proof. split; apply extends_refl. Qed.

Lemma grows_trans st1 st2 st3 : grows st1 st2 -> grows st2 st3 -> grows st1 st3.
Proof. intros [A B] [C D]. split; eapply extends_trans; eassumption. Qed.

Lemma In_map_app {A B : Type} (f : A -> B) l a x :
  In x (List.map f l) -> In x (List.map f (l ++ a)).
Proof. rewrite map_app, in_app_iff. auto. Qed.

Lemma filing_refs_monotone new : monotone (filing_refs new).
Proof.
  intros d d' ([a E] & _) H f Hf. rewrite E. apply In_map_app, H, Hf.
Qed.

Lemma name_ids_grow {R : Type} (T : named R) :
  grows_with T ->
  forall d d' p, extends d d' -> In p (name_ids T d) -> In p (name_ids T d').
Proof.
  intros HT d d' p Hext H. unfold name_ids in *.
  destruct (proj1 HT d d' Hext) as [a ->]. apply In_map_app, H.
Qed.

Lemma filing_key_ids_grow d d' p :
  extends d d' -> In p (filing_key_ids d) -> In p (filing_key_ids d').
Proof.
  intros (_ & [a E] & _) H. unfold filing_key_ids in *. rewrite E.
  apply In_map_app, H.
Qed.

End StoreOrder.

Section LoaderInvariant.
Import OLTP.
Local Open Scope list_scope.

Variable faulty : nat -> bool.
Variable strptime : string -> string -> option date.
Variable to_datetime : string -> pydate.

Variable I : db -> Prop.

(** The rules of the stages. *)
Lemma stage_ret {A : Type} (a : A) (Pre : db -> Prop) :
  stage I (ret a) Pre (fun a' d => a' = a /\ Pre d).
Proof.
  intros st r st' Hgood Hpre E. injection E as <- <-.
  split; [exact Hgood | ]. split; [apply grows_refl | ].
  intros a' Ea. injection Ea as <-. auto.
Qed.

Lemma stage_bind {A B : Type} (m : M A) (f : A -> M B)
      (Pre : db -> Prop) (Mid : A -> db -> Prop) (Post : B -> db -> Prop) :
  stage I m Pre Mid ->
  (forall a, stage I (f a) (Mid a) Post) ->
  stage I (bind m f) Pre Post.
Proof.
  intros Hm Hf st r st' Hgood Hpre E. unfold bind in E.
  destruct (m st) as [[a | e] st1] eqn:Em.
  - destruct (Hm st _ _ Hgood Hpre Em) as (Hg1 & Hgr1 & Hmid).
    destruct (Hf a st1 r st' Hg1 (Hmid a eq_refl) E) as (Hg2 & Hgr2 & Hpost).
    split; [exact Hg2 | ]. split; [eapply grows_trans; eassumption | exact Hpost].
  - injection E as <- <-.
    destruct (Hm st _ _ Hgood Hpre Em) as (Hg1 & Hgr1 & _).
    split; [exact Hg1 | ]. split; [exact Hgr1 | ]. intros a Ea. discriminate.
Qed.

Lemma stage_weaken {A : Type} (m : M A) (Pre Pre' : db -> Prop)
      (Post Post' : A -> db -> Prop) :
  stage I m Pre Post ->
  (forall d, Pre' d -> Pre d) ->
  (forall a d, Post a d -> Post' a d) ->
  stage I m Pre' Post'.
Proof.
  intros Hm Hpre Hpost st r st' Hgood Hp E.
  destruct (Hm st r st' Hgood (Hpre _ Hp) E) as (Hg & Hgr & Hq).
  split; [exact Hg | ]. split; [exact Hgr | ]. intros a Ea. apply Hpost, Hq, Ea.
Qed.

(** A stage keeps what holds before it, when adding rows keeps it. *)
Lemma stage_frame {A : Type} (m : M A) (Pre F : db -> Prop) (Post : A -> db -> Prop) :
  monotone F ->
  stage I m Pre Post ->
  stage I m (fun d => Pre d /\ F d) (fun a d => Post a d /\ F d).
Proof.
  intros HF Hm st r st' Hgood [Hp Hf] E.
  destruct (Hm st r st' Hgood Hp E) as (Hg & Hgr & Hq).
  split; [exact Hg | ]. split; [exact Hgr | ].
  intros a Ea. split; [apply Hq, Ea | ]. eapply HF; [apply Hgr | exact Hf].
Qed.

Lemma stage_db_call (Pre : db -> Prop) :
  stage I (db_call faulty) Pre (fun _ d => Pre d).
Proof.
  intros st r st' Hgood Hpre E. unfold db_call in E.
  destruct (faulty (calls st)); injection E as <- <-;
    (split; [exact Hgood | ]; split; [split; apply extends_refl | ]);
    intros a Ea; try discriminate; exact Hpre.
Qed.

Lemma stage_query {A : Type} (q : db -> A) (Pre : db -> Prop) :
  stage I (query faulty q) Pre (fun a d => a = q d /\ Pre d).
Proof.
  unfold query. eapply stage_bind; [apply stage_db_call | ].
  intros [] st r st' Hgood Hpre E. injection E as <- <-.
  split; [exact Hgood | ]. split; [apply grows_refl | ].
  intros a Ea. injection Ea as <-. auto.
Qed.

Lemma stage_write (f : db -> result db) (Pre Post : db -> Prop) :
  (forall d d', I d -> Pre d -> f d = Ok d' -> I d' /\ extends d d' /\ Post d') ->
  stage I (write faulty f) Pre (fun _ d => Post d).
Proof.
  intros Hf. unfold write. eapply stage_bind; [apply stage_db_call | ].
  intros [] st r st' (Hc & Hp & He) Hpre E.
  destruct (f (pending st)) as [d' | e] eqn:Ef; injection E as <- <-.
  - destruct (Hf _ _ Hp Hpre Ef) as (Hd' & Hext & Hpost).
    split; [ | split].
    + split; [exact Hc | ]. split; [exact Hd' | ].
      cbn [committed pending]. eapply extends_trans; eassumption.
    + split; cbn [committed pending]; [apply extends_refl | exact Hext].
    + intros _ _. exact Hpost.
  - split; [split; [ | split]; assumption | ]. split; [apply grows_refl | ].
    intros a Ea. discriminate.
Qed.

Lemma stage_commit (Pre : db -> Prop) :
  stage I (commit faulty) Pre (fun _ d => Pre d).
Proof.
  unfold commit. eapply stage_bind; [apply stage_db_call | ].
  intros [] st r st' (Hc & Hp & He) Hpre E. injection E as <- <-.
  split; [ | split].
  - split; [exact Hp | ]. split; [exact Hp | ]. apply extends_refl.
  - split; cbn [committed pending]; [exact He | apply extends_refl].
  - intros _ _. exact Hpre.
Qed.


Lemma entries_in_nil {K : Type} pairs : entries_in (K:=K) [] pairs.
Proof. intros k i []. Qed.

Lemma fold_set_entries {K A : Type} (eqb : K -> K -> bool) (key : A -> K) (val : A -> Z)
      (pairs : list (K * Z)) l :
  (forall a b, eqb a b = true <-> a = b) ->
  (forall x, In x l -> In (key x, val x) pairs) ->
  forall m,
    entries_in m pairs ->
    entries_in (fold_left (fun d x => Dict.set eqb (key x) (val x) d) l m) pairs.
Proof.
  intros Hspec. induction l as [ | x l IH]; intros Hl m Hm; simpl; auto.
  apply IH; [intros; apply Hl; right; assumption | ].
  assert (F : Forall (fun kv => In kv pairs) (Dict.set eqb (key x) (val x) m)).
  { apply (dict_set_entries _ _ _ _ _ Hspec).
    - apply Hl. left. reflexivity.
    - apply Forall_forall. intros [k i] Hki. eapply Hm, Hki. }
  intros k i Hki. rewrite Forall_forall in F. apply (F _ Hki).
Qed.

Lemma entry_id {R : Type} (T : named R) d k i :
  In (k, i) (name_ids T d) -> In i (List.map (id_of T) (rows_of (tbl T) d)).
Proof.
  unfold name_ids. intros H. apply in_map_iff in H. destruct H as (r & E & Hr).
  injection E as _ <-. apply in_map, Hr.
Qed.

Lemma entry_filing d k i :
  In (k, i) (filing_key_ids d) ->
  exists fl, In fl (filing d) /\ key_of_filing fl = k /\ filing_id fl = i.
Proof.
  unfold filing_key_ids. intros H. apply in_map_iff in H. destruct H as (fl & E & Hfl).
  injection E as <- <-. eauto.
Qed.

Lemma insert_names_app {R : Type} (T : named R) names :
  forall rows rows',
    insert_names T names rows = Ok rows' -> exists a, rows' = rows ++ a.
Proof.
  induction names as [ | n names IH]; intros rows rows' E; simpl in E.
  - injection E as <-. exists []. rewrite app_nil_r. reflexivity.
  - destruct (existsb _ rows); [discriminate | ].
    apply IH in E. destruct E as [a ->]. rewrite <- app_assoc. eauto.
Qed.

Lemma add_facts_app new :
  has_nat new = false ->
  forall rows, exists a,
    add_facts new rows = rows ++ a /\ List.map new_fact_of a = new.
Proof.
  unfold has_nat.
  induction new as [ | f new IH]; intros Hnat rows; cbn [add_facts].
  - exists []. rewrite app_nil_r. auto.
  - cbn [existsb] in Hnat. apply orb_false_elim in Hnat. destruct Hnat as [Hf Hnat].
    destruct (IH Hnat
                (rows ++ [mkFinancialFact (next_id (List.map fact_id rows))
                            (nfa_filing_id f) (nfa_statement_type_id f)
                            (nfa_line_item_id f) (nfa_period_type f)
                            (date_of (nfa_end_date f)) (nfa_value f)]))
      as (a & E & Ha).
    eexists. rewrite E, <- app_assoc. split; [reflexivity | ].
    simpl. rewrite Ha. destruct f as [? ? ? ? [x | | ] ?]; try reflexivity.
    discriminate Hf.
Qed.

(** The facts a successful insert adds are the facts it was given. *)
Lemma insert_facts_app new rows rows' :
  insert_facts new rows = Ok rows' ->
  exists a, rows' = rows ++ a /\ List.map new_fact_of a = new.
Proof.
  unfold insert_facts. destruct (has_nat new) eqn:Hnat; [discriminate | ].
  intros E. injection E as <-. apply add_facts_app. exact Hnat.
Qed.

(** Steps 1 to 3: the names. *)
Section NamedStage.
Context {R : Type} (T : named R).
Hypothesis T_grows : grows_with T.
Hypothesis T_kept : kept_by_names I T.

Lemma entries_monotone (m : Dict.dict (K:=string) (V:=Z)) :
  monotone (fun d => entries_in m (name_ids T d)).
Proof.
  intros d d' Hext H k i Hki. eapply (name_ids_grow T T_grows); eauto.
Qed.

Lemma name_map_entries names d :
  entries_in (name_map T (filter (fun r => existsb (String.eqb (name_of T r)) names)
                                 (rows_of (tbl T) d)))
             (name_ids T d).
Proof.
  unfold name_map, Dict.of_list.
  apply (fold_set_entries _ _ _ _ _ String.eqb_eq); [ | apply entries_in_nil].
  intros x Hx. apply filter_In in Hx. unfold name_ids.
  apply (in_map (fun r => (name_of T r, id_of T r))), Hx.
Qed.

Lemma stage_query_names names :
  stage I (query_names faulty T names) (fun _ => True)
        (fun existing d => entries_in (name_map T existing) (name_ids T d)).
Proof.
  unfold query_names.
  eapply stage_weaken; [apply (stage_query _ (fun _ => True)) | auto | ].
  intros existing d [-> _]. apply name_map_entries.
Qed.

Lemma stage_bulk_insert_names names :
  stage I (bulk_insert_names faulty T names) (fun _ => True) (fun _ _ => True).
Proof.
  unfold bulk_insert_names.
  apply (stage_write _ (fun _ => True) (fun _ => True)).
  intros d d' Hd _ E.
  destruct (insert_names T names (rows_of (tbl T) d)) as [rows' | e] eqn:En;
    [ | discriminate].
  injection E as <-. split; [eapply T_kept; eassumption | ].
  apply insert_names_app in En. destruct En as [a ->].
  split; [apply (proj2 T_grows) | exact Logic.I].
Qed.

Lemma stage_upsert_names names :
  stage I (upsert_names faulty T names) (fun _ => True)
        (fun m d => entries_in m (name_ids T d)).
Proof.
  unfold upsert_names.
  apply (stage_bind _ _ _
           (fun existing d => entries_in (name_map T existing) (name_ids T d)));
    [apply stage_query_names | ].
  intros existing. cbv zeta.
  destruct (filter _ names) as [ | x new].
  - eapply stage_weaken; [apply stage_ret | intros d H; exact H | ].
    intros m d [-> H]. exact H.
  - apply (stage_bind _ _ _ (fun _ _ => True));
      [eapply stage_weaken;
       [apply (stage_bulk_insert_names (x :: new))
       | intros; exact Logic.I | intros; exact Logic.I] | ].
    intros []. cbv beta.
    apply (stage_bind _ _ _ (fun _ _ => True));
      [apply (stage_commit (fun _ => True)) | ].
    intros []. cbv beta.
    apply (stage_bind _ _ _
             (fun existing d => entries_in (name_map T existing) (name_ids T d)));
      [apply stage_query_names | ].
    intros existing'.
    eapply stage_weaken; [apply stage_ret | intros d H; exact H | ].
    intros m d [-> H]. exact H.
Qed.

End NamedStage.

Hypothesis I_companies : kept_by_names I companies.
Hypothesis I_statement_types : kept_by_names I statement_types.
Hypothesis I_line_items : kept_by_names I line_items.
Hypothesis I_filings : kept_by_filings I.

(** Step 4: the filings.  The dictionary the step returns has the key of
    every filing to create, and its entries are filings of the store. *)
Lemma filing_entries_monotone (m : Dict.dict (K:=filing_key) (V:=Z)) :
  monotone (fun d => entries_in m (filing_key_ids d)).
Proof. intros d d' Hext H k i Hki. eapply filing_key_ids_grow; eauto. Qed.

Lemma add_filings_entries company_ids m d :
  entries_in m (filing_key_ids d) ->
  entries_in
    (add_filings (filter (fun f => existsb (Z.eqb (filing_company_id f)) company_ids)
                         (filing d)) m)
    (filing_key_ids d).
Proof.
  intros H. unfold add_filings.
  apply (fold_set_entries _ _ _ _ _ filing_key_eqb_spec); [ | exact H].
  intros x Hx. apply filter_In in Hx. unfold filing_key_ids.
  apply (in_map (fun f => (key_of_filing f, filing_id f))), Hx.
Qed.

Lemma stage_query_filings company_ids (Pre : db -> Prop) :
  stage I (query_filings faulty company_ids) Pre
        (fun existing d =>
           existing = filter (fun f => existsb (Z.eqb (filing_company_id f)) company_ids)
                             (filing d) /\ Pre d).
Proof. unfold query_filings. apply stage_query. Qed.

Lemma present_monotone new : monotone (present new).
Proof.
  intros d d' (_ & [a E] & _) H f Hf. destruct (H f Hf) as (fl & Hfl & Ek).
  exists fl. split; [rewrite E; apply in_or_app; auto | exact Ek].
Qed.

Lemma added_filings_present new :
  forall added,
    List.map key_of_filing added = List.map key_of_new new ->
    forall f, In f new -> exists fl, In fl added /\ key_of_filing fl = key_of_new f.
Proof.
  induction new as [ | f0 new IH]; intros [ | x added] E f Hf;
    try discriminate; try contradiction.
  simpl in E.
  assert (E1 : key_of_filing x = key_of_new f0) by congruence.
  assert (E2 : List.map key_of_filing added = List.map key_of_new new) by congruence.
  destruct Hf as [<- | Hf].
  - exists x. split; [left; reflexivity | exact E1].
  - destruct (IH added E2 f Hf) as (fl & Hfl & Ek). exists fl. split; [right | ]; auto.
Qed.

Lemma stage_bulk_insert_filings new (Pre : db -> Prop) :
  monotone Pre ->
  stage I (bulk_insert_filings faulty new) (fun d => filing_refs new d /\ Pre d)
        (fun _ d => present new d /\ Pre d).
Proof.
  intros Hmono. unfold bulk_insert_filings.
  apply (stage_write _ (fun d => filing_refs new d /\ Pre d)
                     (fun d => present new d /\ Pre d)).
  intros d d' Hd [Hrefs HP] E.
  destruct (insert_filings new (filing d)) as [rows' | e] eqn:En; [ | discriminate].
  injection E as <-. split; [eapply I_filings; eassumption | ].
  apply insert_filings_ok in En. destruct En as (a & -> & Hk).
  split; [apply extends_filings | ]. split.
  - intros f Hf. destruct (added_filings_present new a Hk f Hf) as (fl & Hfl & Ek).
    exists fl. split; [ | exact Ek]. cbn [with_rows filing_table filing].
    apply in_or_app. auto.
  - eapply Hmono; [apply extends_filings | exact HP].
Qed.

Lemma filing_refs_filter p new d :
  filing_refs new d -> filing_refs (filter p new) d.
Proof. intros H f Hf. apply filter_In in Hf. apply H, Hf. Qed.

Lemma filter_nil_all {A : Type} (p : A -> bool) l x :
  filter p l = [] -> In x l -> p x = false.
Proof.
  intros E Hx. destruct (p x) eqn:Ep; auto.
  assert (H : In x (filter p l)) by (apply filter_In; auto).
  rewrite E in H. destruct H.
Qed.

(** Every filing to create is in the dictionary once the missing ones are
    inserted and the filings are read again. *)
Lemma add_filings_complete to_create efm d :
  present (filter (fun f => negb (Dict.mem filing_key_eqb (key_of_new f) efm)) to_create) d ->
  forall f, In f to_create ->
    Dict.mem filing_key_eqb (key_of_new f)
      (add_filings
         (filter (fun fl => existsb (Z.eqb (filing_company_id fl))
                              (unique Z.eqb (List.map nf_company_id to_create)))
                 (filing d)) efm) = true.
Proof.
  intros Hnew f Hf. rewrite add_filings_mem.
  destruct (Dict.mem filing_key_eqb (key_of_new f) efm) eqn:Em;
    [apply orb_true_r | ].
  rewrite orb_false_r.
  destruct (Hnew f) as (fl & Hfl & Ek).
  { apply filter_In. split; [exact Hf | ]. rewrite Em. reflexivity. }
  apply existsb_exists. exists fl. split.
  - apply filter_In. split; [exact Hfl | ].
    apply (existsb_eqb_In _ Z.eqb_eq).
    apply (unique_In _ Z.eqb_eq).
    replace (filing_company_id fl) with (nf_company_id f)
      by (unfold key_of_filing, key_of_new in Ek; congruence).
    apply in_map, Hf.
  - rewrite Ek. apply (eqb_refl_of_spec _ filing_key_eqb_spec).
Qed.

Lemma stage_upsert_filings to_create :
  stage I (upsert_filings faulty to_create) (filing_refs to_create)
        (fun m d =>
           entries_in m (filing_key_ids d) /\
           forall f, In f to_create ->
                     Dict.mem filing_key_eqb (key_of_new f) m = true).
Proof.
  unfold upsert_filings. cbv zeta.
  apply (stage_bind _ _ _
           (fun m d => entries_in m (filing_key_ids d) /\ filing_refs to_create d)).
  - destruct to_create as [ | f0 rest].
    + eapply stage_weaken; [apply stage_ret | intros d H; exact H | ].
      intros m d [-> H]. split; [apply entries_in_nil | exact H].
    + apply (stage_bind _ _ _
               (fun existing d =>
                  entries_in (add_filings existing []) (filing_key_ids d)
                  /\ filing_refs (f0 :: rest) d)).
      * eapply stage_weaken;
          [apply (stage_query_filings _ (filing_refs (f0 :: rest)))
          | intros d H; exact H | ].
        intros existing d [-> H]. split; [ | exact H].
        apply add_filings_entries, entries_in_nil.
      * intros existing.
        eapply stage_weaken; [apply stage_ret | intros d H; exact H | ].
        intros m d [-> H]. exact H.
  - intros efm.
    destruct (filter _ to_create) as [ | x new] eqn:Enew.
    + eapply stage_weaken; [apply stage_ret | intros d H; exact H | ].
      intros m d [-> [H _]]. split; [exact H | ].
      intros f Hf. apply (filter_nil_all _ _ f Enew) in Hf.
      apply negb_false_iff in Hf. exact Hf.
    + set (Keep := fun d => entries_in efm (filing_key_ids d)).
      assert (HK : monotone Keep) by apply filing_entries_monotone.
      apply (stage_bind _ _ _ (fun _ d => present (x :: new) d /\ Keep d)).
      * eapply stage_weaken;
          [apply (stage_bulk_insert_filings (x :: new) Keep HK)
          | | intros a d H; exact H].
        intros d [H1 H2]. split; [ | exact H1].
        rewrite <- Enew. apply filing_refs_filter, H2.
      * intros []. cbv beta.
        apply (stage_bind _ _ _ (fun _ d => present (x :: new) d /\ Keep d));
          [apply (stage_commit (fun d => present (x :: new) d /\ Keep d)) | ].
        intros []. cbv beta.
        apply (stage_bind _ _ _
                 (fun existing d =>
                    existing
                    = filter (fun f => existsb (Z.eqb (filing_company_id f))
                                         (unique Z.eqb (List.map nf_company_id to_create)))
                             (filing d)
                    /\ (present (x :: new) d /\ Keep d)));
          [apply stage_query_filings | ].
        intros existing.
        eapply stage_weaken; [apply stage_ret | intros d H; exact H | ].
        intros m d [-> [-> [Hp Hk]]]. split.
        -- apply add_filings_entries, Hk.
        -- apply add_filings_complete. rewrite Enew. exact Hp.
Qed.

(** Step 5: the facts, chunk by chunk. *)
Variable df : list record.
Hypothesis I_facts : kept_by_facts I (parse_date strptime to_datetime) df.

Lemma staged_from_monotone r f :
  monotone (fun d => staged_from (parse_date strptime to_datetime) d r f).
Proof.
  intros d d' Hext (t & dt & sn & ln & c & H1 & H2 & H3 & H4 & H5 & H6 & H7 & H8 & H9).
  exists t, dt, sn, ln, c. repeat split; try assumption; try apply H9.
  - eapply (name_ids_grow companies grows_with_companies); eauto.
  - eapply filing_key_ids_grow; eauto.
  - eapply (name_ids_grow statement_types grows_with_statement_types); eauto.
  - eapply (name_ids_grow line_items grows_with_line_items); eauto.
Qed.

Lemma facts_from_monotone new :
  monotone (facts_from (parse_date strptime to_datetime) df new).
Proof.
  intros d d' Hext H f Hf. destruct (H f Hf) as (r & Hr & Hs).
  exists r. split; [exact Hr | ]. eapply staged_from_monotone; eassumption.
Qed.

Lemma stage_chunk chunk :
  stage I (bulk_insert_facts faulty chunk ;; commit faulty)%list
        (facts_from (parse_date strptime to_datetime) df chunk) (fun _ _ => True).
Proof.
  apply (stage_bind _ _ _ (fun _ _ => True)).
  - unfold bulk_insert_facts.
    apply (stage_write _ _ (fun _ => True)).
    intros d d' Hd Hfrom E.
    destruct (insert_facts chunk (financial_fact d)) as [rows' | ] eqn:Ei;
      [ | discriminate].
    injection E as <-.
    split; [eapply I_facts; eassumption | ].
    destruct (insert_facts_app _ _ _ Ei) as (a & -> & _).
    split; [apply extends_facts | exact Logic.I].
  - intros []. apply (stage_commit (fun _ => True)).
Qed.

Lemma stage_chunks chs :
  stage I (for_each chs (fun chunk => bulk_insert_facts faulty chunk ;; commit faulty))
        (facts_from (parse_date strptime to_datetime) df (List.concat chs))
        (fun _ _ => True).
Proof.
  induction chs as [ | c chs IH]; cbn [for_each].
  - eapply stage_weaken; [apply (stage_ret tt (fun _ => True)) | | ];
      intros; exact Logic.I.
  - apply (stage_bind _ _ _
             (fun _ d => facts_from (parse_date strptime to_datetime) df
                                    (List.concat chs) d)).
    + eapply stage_weaken;
        [apply (stage_frame _ _
                  (facts_from (parse_date strptime to_datetime) df (List.concat chs)) _
                  (facts_from_monotone _) (stage_chunk c)) | | ].
      * intros d H. split; intros f Hf; apply H; simpl; apply in_or_app; auto.
      * intros a d [_ H]. exact H.
    + intros []. exact IH.
Qed.

(** The whole body. *)
Lemma filings_to_create_refs (m1 : Dict.dict (K:=string) (V:=Z)) d :
  entries_in m1 (name_ids companies d) ->
  filing_refs (filings_to_create strptime to_datetime df m1) d.
Proof.
  intros H f Hf. unfold filings_to_create in Hf.
  apply in_flat_map in Hf. destruct Hf as ([[[t dt] y] a] & _ & Hf).
  destruct (Dict.get String.eqb (Text.upper (astype_str t)) m1) as [c | ] eqn:E;
    [ | contradiction].
  destruct dt as [dt | | ]; [ | contradiction | contradiction].
  destruct Hf as [<- | []]. cbn [nf_company_id].
  apply (dict_get_entry _ _ _ _ String.eqb_eq) in E.
  apply (entry_id companies d _ _ (H _ _ E)).
Qed.

Lemma filter_none {A : Type} (p : A -> bool) l :
  (forall x, In x l -> p x = false) -> filter p l = [].
Proof.
  induction l as [ | x l IH]; intros H; simpl; auto.
  rewrite (H x) by (left; reflexivity). apply IH. intros y Hy. apply H. right. exact Hy.
Qed.

Lemma key_in_dict (fm : Dict.dict (K:=filing_key) (V:=Z)) k :
  In k (Dict.keys fm) -> exists i, In (k, i) fm.
Proof.
  unfold Dict.keys. intros H. apply in_map_iff in H. destruct H as ([k' i] & <- & H).
  exists i. exact H.
Qed.

(** A key without a company or without a date is the key of no filing. *)
Lemma no_filing_without (fm : Dict.dict (K:=filing_key) (V:=Z)) d c dt y a :
  entries_in fm (filing_key_ids d) ->
  c = None \/ dt = None ->
  Dict.get filing_key_eqb (c, dt, y, a) fm = None /\
  filter (fun k : filing_key =>
            let '(c', d', _, _) := k in
            (option_eqb Z.eqb c' c && option_eqb date_eqb d' dt)%bool)
         (Dict.keys fm) = [].
Proof.
  intros Hfm Hnone. split.
  - destruct (Dict.get filing_key_eqb (c, dt, y, a) fm) as [i | ] eqn:E; auto.
    apply (dict_get_entry _ _ _ _ filing_key_eqb_spec) in E.
    destruct (entry_filing d _ _ (Hfm _ _ E)) as (fl & _ & Ek & _).
    unfold key_of_filing in Ek. destruct Hnone; subst; discriminate.
  - apply filter_none. intros k Hk.
    destruct (key_in_dict fm k Hk) as [i Hi].
    destruct (entry_filing d _ _ (Hfm _ _ Hi)) as (fl & _ & Ek & _).
    subst k. unfold key_of_filing.
    destruct Hnone; subst; simpl; rewrite ?andb_false_r; reflexivity.
Qed.

Lemma fact_of_row_staged (m1 m2 m3 : Dict.dict (K:=string) (V:=Z)) fm d r f :
  entries_in m1 (name_ids companies d) ->
  entries_in m2 (name_ids statement_types d) ->
  entries_in m3 (name_ids line_items d) ->
  entries_in fm (filing_key_ids d) ->
  (forall nf, In nf (filings_to_create strptime to_datetime df m1) ->
              Dict.mem filing_key_eqb (key_of_new nf) fm = true) ->
  In r df ->
  fact_of_row strptime to_datetime m1 m2 m3 fm r = Some f ->
  staged_from (parse_date strptime to_datetime) d r f.
Proof.
  intros H1 H2 H3 Hfm Hall Hr E. unfold fact_of_row in E.
  destruct (Ticker r) as [t | ] eqn:Et; [ | discriminate]. cbv zeta in E.
  destruct (Dict.get String.eqb (Text.upper t) m1) as [c | ] eqn:Ec.
  - destruct (parse_date strptime to_datetime (Filing_Date r)) as [dt | | ] eqn:Ed;
      cbn [date_of] in E.
    + assert (Hk : Dict.mem filing_key_eqb
                     (Some c, Some dt, Fiscal_Year r, to_bool (Unaudited r)) fm = true).
      { apply (Hall (mkNewFiling c dt (Fiscal_Year r) (to_bool (Unaudited r)))).
        unfold filings_to_create. apply in_flat_map.
        exists (Ticker r, parse_date strptime to_datetime (Filing_Date r),
                Fiscal_Year r, to_bool (Unaudited r)).
        split.
        - apply (unique_In _ filing_cols_eqb_spec).
          change (In (filing_cols_of strptime to_datetime r)
                     (List.map (filing_cols_of strptime to_datetime) df)).
          apply in_map. exact Hr.
        - rewrite Et, Ed. simpl. rewrite Ec. left. reflexivity. }
      apply (dict_get_mem filing_key_eqb) in Hk. destruct Hk as [i Ei].
      rewrite Ei in E.
      destruct (Statement_Type r) as [sn | ] eqn:Es; [ | discriminate].
      destruct (Line_Item r) as [ln | ] eqn:El; [ | discriminate].
      destruct (Dict.get String.eqb sn m2) as [si | ] eqn:Esi; [ | discriminate].
      destruct (Dict.get String.eqb ln m3) as [li | ] eqn:Eli; [ | discriminate].
      injection E as <-.
      apply (dict_get_entry _ _ _ _ String.eqb_eq) in Ec, Esi, Eli.
      apply (dict_get_entry _ _ _ _ filing_key_eqb_spec) in Ei.
      exists t, dt, sn, ln, c.
      cbn [nfa_filing_id nfa_statement_type_id nfa_line_item_id nfa_period_type
           nfa_end_date nfa_value].
      repeat split; auto.
    + destruct (no_filing_without fm d (Some c) None (Fiscal_Year r)
                  (to_bool (Unaudited r)) Hfm (or_intror eq_refl)) as [G1 G2].
      rewrite G1, G2 in E. discriminate.
    + destruct (no_filing_without fm d (Some c) None (Fiscal_Year r)
                  (to_bool (Unaudited r)) Hfm (or_intror eq_refl)) as [G1 G2].
      rewrite G1, G2 in E. discriminate.
  - destruct (no_filing_without fm d None
                (date_of (parse_date strptime to_datetime (Filing_Date r)))
                (Fiscal_Year r)
                (to_bool (Unaudited r)) Hfm (or_introl eq_refl)) as [G1 G2].
    rewrite G1, G2 in E. discriminate.
Qed.

Lemma fact_rows_from (m1 m2 m3 : Dict.dict (K:=string) (V:=Z)) fm d :
  entries_in m1 (name_ids companies d) ->
  entries_in m2 (name_ids statement_types d) ->
  entries_in m3 (name_ids line_items d) ->
  entries_in fm (filing_key_ids d) ->
  (forall nf, In nf (filings_to_create strptime to_datetime df m1) ->
              Dict.mem filing_key_eqb (key_of_new nf) fm = true) ->
  facts_from (parse_date strptime to_datetime) df
    (List.concat
       (chunks BATCH_SIZE
          (flat_map (fun r => match fact_of_row strptime to_datetime m1 m2 m3 fm r with
                              | Some f => [f]
                              | None => []
                              end) df))) d.
Proof.
  intros H1 H2 H3 Hfm Hall f Hf.
  unfold chunks in Hf. rewrite concat_chunks_from in Hf; [ | unfold BATCH_SIZE; lia | lia].
  apply in_flat_map in Hf. destruct Hf as (r & Hr & Hf).
  destruct (fact_of_row strptime to_datetime m1 m2 m3 fm r) as [f' | ] eqn:E;
    [ | contradiction].
  destruct Hf as [<- | []]. exists r. split; [exact Hr | ].
  eapply fact_of_row_staged; eassumption.
Qed.

Lemma monotone_and (P Q : db -> Prop) :
  monotone P -> monotone Q -> monotone (fun d => P d /\ Q d).
Proof. intros HP HQ d d' Hext [H1 H2]. split; [eapply HP | eapply HQ]; eassumption. Qed.

Lemma load_body_stage :
  stage I (load_body faulty strptime to_datetime df) (fun _ => True) (fun _ _ => True).
Proof.
  unfold load_body. cbv zeta.
  set (V1 := fun (m : Dict.dict (K:=string) (V:=Z)) d =>
               entries_in m (name_ids companies d)).
  set (V2 := fun (m : Dict.dict (K:=string) (V:=Z)) d =>
               entries_in m (name_ids statement_types d)).
  set (V3 := fun (m : Dict.dict (K:=string) (V:=Z)) d =>
               entries_in m (name_ids line_items d)).
  assert (M1 : forall m, monotone (V1 m))
    by (intros m; apply (entries_monotone companies grows_with_companies)).
  assert (M2 : forall m, monotone (V2 m))
    by (intros m; apply (entries_monotone statement_types grows_with_statement_types)).
  assert (M3 : forall m, monotone (V3 m))
    by (intros m; apply (entries_monotone line_items grows_with_line_items)).
  apply (stage_bind _ _ _ V1);
    [apply (stage_upsert_names companies grows_with_companies I_companies) | ].
  intros m1.
  apply (stage_bind _ _ _ (fun m2 d => V2 m2 d /\ V1 m1 d)).
  { eapply stage_weaken;
      [apply (stage_frame _ _ (V1 m1) _ (M1 m1)
                (stage_upsert_names statement_types grows_with_statement_types
                   I_statement_types _)) | | intros a d H; exact H].
    intros d H. split; [exact Logic.I | exact H]. }
  intros m2.
  apply (stage_bind _ _ _ (fun m3 d => V3 m3 d /\ (V2 m2 d /\ V1 m1 d))).
  { eapply stage_weaken;
      [apply (stage_frame _ _ (fun d => V2 m2 d /\ V1 m1 d) _
                (monotone_and _ _ (M2 m2) (M1 m1))
                (stage_upsert_names line_items grows_with_line_items
                   I_line_items _)) | | intros a d H; exact H].
    intros d H. split; [exact Logic.I | exact H]. }
  intros m3.
  apply (stage_bind _ _ _
           (fun fm d =>
              (entries_in fm (filing_key_ids d) /\
               forall nf, In nf (filings_to_create strptime to_datetime df m1) ->
                          Dict.mem filing_key_eqb (key_of_new nf) fm = true)
              /\ (V3 m3 d /\ (V2 m2 d /\ V1 m1 d)))).
  { eapply stage_weaken;
      [apply (stage_frame _ _ (fun d => V3 m3 d /\ (V2 m2 d /\ V1 m1 d)) _
                (monotone_and _ _ (M3 m3) (monotone_and _ _ (M2 m2) (M1 m1)))
                (stage_upsert_filings _)) | | intros a d H; exact H].
    intros d (H3 & H2 & H1). split; [ | auto].
    apply filings_to_create_refs, H1. }
  intros fm.
  apply (stage_bind _ _ _ (fun _ _ => True)).
  { eapply stage_weaken; [apply stage_chunks | | intros; exact Logic.I].
    intros d ((Hfm & Hall) & H3 & H2 & H1). apply fact_rows_from; assumption. }
  intros [].
  eapply stage_weaken;
    [apply (stage_ret _ (fun _ => True)) | intros; exact Logic.I | intros; exact Logic.I].
Qed.

(** Whatever the invariant, a call of the loader keeps it and only adds
    rows, whether it returns or raises. *)
Lemma load_invariant d r st' :
  I d ->
  load_dataframe_to_db faulty strptime to_datetime df (open_session d) = (r, st') ->
  I (committed st') /\ extends d (committed st') /\ pending st' = committed st'.
Proof.
  intros Hd E. unfold load_dataframe_to_db, try_rollback_finally_close in E.
  destruct (load_body faulty strptime to_datetime df (open_session d))
    as [res st1] eqn:Eb.
  assert (Hgood : good I (open_session d))
    by (split; [exact Hd | split; [exact Hd | apply extends_refl]]).
  destruct (load_body_stage _ _ _ Hgood Logic.I Eb) as ((Hc & _) & (Hext & _) & _).
  destruct res; injection E as <- <-; cbn [committed pending close rollback]; auto.
Qed.

End LoaderInvariant.

(** ** The constraints of the schema *)

Section Constraints.
Import OLTP.
Local Open Scope list_scope.

Lemma NoDup_snoc {A : Type} (l : list A) (x : A) :
  NoDup l -> ~ In x l -> NoDup (l ++ [x]).
Proof.
  intros Hl Hx. apply NoDup_app; auto.
  - repeat constructor. intros [].
  - intros y Hy [<- | []]. contradiction.
Qed.

Lemma fresh_id_snoc ids : NoDup ids -> NoDup (ids ++ [next_id ids]).
Proof.
  intros H. apply NoDup_snoc; auto.
  intros Hin. apply next_id_fresh in Hin. lia.
Qed.

Lemma insert_names_names {R : Type} (T : named R) :
  lawful T ->
  forall names rows rows',
    NoDup (List.map (name_of T) rows) ->
    insert_names T names rows = Ok rows' ->
    NoDup (List.map (name_of T) rows').
Proof.
  intros (_ & _ & _ & Hmake).
  induction names as [ | n names IH]; intros rows rows' Hnd E; simpl in E.
  - injection E as <-. exact Hnd.
  - destruct (existsb (fun r => name_of T r =? n)%string rows) eqn:Ex; [discriminate | ].
    apply IH in E; auto.
    rewrite map_app. simpl. rewrite (proj1 (Hmake _ _)).
    apply NoDup_snoc; auto.
    intros Hin. apply in_map_iff in Hin. destruct Hin as (r & Hr & Hin).
    assert (F : existsb (fun r => name_of T r =? n)%string rows = true).
    { apply existsb_exists. exists r. split; auto. apply String.eqb_eq. exact Hr. }
    congruence.
Qed.

Lemma insert_filings_ids new :
  forall rows rows',
    NoDup (List.map filing_id rows) ->
    insert_filings new rows = Ok rows' ->
    NoDup (List.map filing_id rows').
Proof.
  induction new as [ | f new IH]; intros rows rows' Hnd E; simpl in E.
  - injection E as <-. exact Hnd.
  - destruct (fits_int64 (nf_fiscal_year f)); [ | discriminate].
    destruct (existsb (filing_clash f) rows); [discriminate | ].
    apply IH in E; auto.
    rewrite map_app. simpl. apply fresh_id_snoc, Hnd.
Qed.

Lemma add_facts_ids new :
  forall rows,
    NoDup (List.map fact_id rows) ->
    NoDup (List.map fact_id (add_facts new rows)).
Proof.
  induction new as [ | f new IH]; intros rows Hnd; simpl; auto.
  apply IH. rewrite map_app. simpl. apply fresh_id_snoc, Hnd.
Qed.

Lemma insert_facts_ids new rows rows' :
  insert_facts new rows = Ok rows' ->
  NoDup (List.map fact_id rows) ->
  NoDup (List.map fact_id rows').
Proof.
  unfold insert_facts. destruct (has_nat new); [discriminate | ].
  intros E. injection E as <-. apply add_facts_ids.
Qed.

(** The filings added for [new] belong to the companies of [new]. *)
Lemma added_filings_company new added fl :
  List.map key_of_filing added = List.map key_of_new new ->
  In fl added ->
  exists f, In f new /\ nf_company_id f = filing_company_id fl.
Proof.
  revert added. induction new as [ | f new IH]; intros [ | x added] E H;
    try discriminate; try contradiction.
  simpl in E.
  assert (E1 : key_of_filing x = key_of_new f) by congruence.
  assert (E2 : List.map key_of_filing added = List.map key_of_new new) by congruence.
  destruct H as [-> | H].
  - exists f. split; [left; reflexivity | ].
    unfold key_of_filing, key_of_new in E1. congruence.
  - destruct (IH added E2 H) as (f' & Hf' & E'). exists f'. split; [right | ]; auto.
Qed.

Lemma staged_refs parse d r f :
  staged_from parse d r f ->
  In (nfa_filing_id f) (List.map filing_id (filing d)) /\
  In (nfa_statement_type_id f) (List.map statement_type_id (statement_type d)) /\
  In (nfa_line_item_id f) (List.map line_item_id (line_item d)).
Proof.
  intros (t & dt & sn & ln & c & _ & _ & _ & _ & _ & Hf & Hs & Hl & _).
  split; [ | split].
  - destruct (entry_filing d _ _ Hf) as (fl & Hfl & _ & <-). apply in_map, Hfl.
  - apply (entry_id statement_types d _ _ Hs).
  - apply (entry_id line_items d _ _ Hl).
Qed.

Lemma sound_companies : kept_by_names sound companies.
Proof.
  intros names d rows' Hd E. cbn [tbl companies rows_of with_rows company_table] in *.
  destruct (insert_names_app companies names _ _ E) as [a Ea].
  destruct Hd. constructor; cbn [company filing statement_type line_item financial_fact];
    auto.
  - apply (insert_names_ids companies lawful_companies names _ _ company_ids0 E).
  - apply (insert_names_names companies lawful_companies names _ _ company_tickers0 E).
  - intros fl Hfl. rewrite Ea. apply In_map_app. auto.
Qed.

Lemma sound_statement_types : kept_by_names sound statement_types.
Proof.
  intros names d rows' Hd E.
  cbn [tbl statement_types rows_of with_rows statement_type_table] in *.
  destruct (insert_names_app statement_types names _ _ E) as [a Ea].
  destruct Hd. constructor; cbn [company filing statement_type line_item financial_fact];
    auto.
  - apply (insert_names_ids statement_types lawful_statement_types names _ _
             statement_type_ids0 E).
  - apply (insert_names_names statement_types lawful_statement_types names _ _
             statement_type_names0 E).
  - intros ff Hff. rewrite Ea. apply In_map_app. auto.
Qed.

Lemma sound_line_items : kept_by_names sound line_items.
Proof.
  intros names d rows' Hd E.
  cbn [tbl line_items rows_of with_rows line_item_table] in *.
  destruct (insert_names_app line_items names _ _ E) as [a Ea].
  destruct Hd. constructor; cbn [company filing statement_type line_item financial_fact];
    auto.
  - apply (insert_names_ids line_items lawful_line_items names _ _ line_item_ids0 E).
  - apply (insert_names_names line_items lawful_line_items names _ _
             line_item_names0 E).
  - intros ff Hff. rewrite Ea. apply In_map_app. auto.
Qed.

Lemma sound_filings : kept_by_filings sound.
Proof.
  intros new d rows' Hd Hrefs E. cbn [with_rows filing_table].
  pose proof (insert_filings_ids new _ _ (filing_ids d Hd) E) as Hids.
  apply insert_filings_ok in E. destruct E as (a & -> & Hk).
  destruct Hd. constructor; cbn [company filing statement_type line_item financial_fact];
    auto.
  - intros fl Hfl. apply in_app_or in Hfl. destruct Hfl as [Hfl | Hfl]; auto.
    destruct (added_filings_company new a fl Hk Hfl) as (f & Hf & <-).
    apply Hrefs, Hf.
  - intros ff Hff. apply In_map_app. auto.
Qed.

Lemma sound_facts parse df : kept_by_facts sound parse df.
Proof.
  intros new d rows' Hd Hfrom Eins. cbn [with_rows financial_fact_table].
  pose proof (insert_facts_ids new _ _ Eins (fact_ids d Hd)) as Hids.
  destruct (insert_facts_app new (financial_fact d) _ Eins) as (a & E & Ha).
  rewrite E in *.
  assert (Hrefs : forall ff, In ff a ->
             In (fact_filing_id ff) (List.map filing_id (filing d)) /\
             In (fact_statement_type_id ff)
                (List.map statement_type_id (statement_type d)) /\
             In (fact_line_item_id ff) (List.map line_item_id (line_item d))).
  { intros ff Hff.
    destruct (Hfrom (new_fact_of ff)) as (r & _ & Hs);
      [rewrite <- Ha; apply in_map, Hff | ].
    apply (staged_refs parse d r _ Hs). }
  destruct Hd. constructor; cbn [company filing statement_type line_item financial_fact];
    auto.
  - intros ff Hff. apply in_app_or in Hff. destruct Hff as [Hff | Hff]; auto.
    apply (Hrefs ff Hff).
  - intros ff Hff. apply in_app_or in Hff. destruct Hff as [Hff | Hff]; auto.
    apply (Hrefs ff Hff).
  - intros ff Hff. apply in_app_or in Hff. destruct Hff as [Hff | Hff]; auto.
    apply (Hrefs ff Hff).
Qed.

Lemma sound_empty : sound empty_db.
Proof.
  constructor; simpl; try constructor; intros ? [].
Qed.

Variable faulty : nat -> bool.
Variable strptime : string -> string -> option date.
Variable to_datetime : string -> pydate.

(** The facts added since [d0] come from rows of the batch: what keeps
    this. *)
Lemma added_from_extends df d0 d d' :
  extends d d' -> financial_fact d' = financial_fact d ->
  added_from (parse_date strptime to_datetime) df d0 d ->
  added_from (parse_date strptime to_datetime) df d0 d'.
Proof.
  intros Hext Ef (added & E & H). exists added. split; [congruence | ].
  intros ff Hff. destruct (H ff Hff) as (r & Hr & Hs).
  exists r. split; [exact Hr | ]. eapply staged_from_monotone; eassumption.
Qed.

Lemma added_from_names {R : Type} (T : named R) df d0 :
  grows_with T ->
  (forall rows d, financial_fact (with_rows (tbl T) rows d) = financial_fact d) ->
  kept_by_names (added_from (parse_date strptime to_datetime) df d0) T.
Proof.
  intros HT Hff names d rows' Hd E.
  apply insert_names_app in E. destruct E as [a ->].
  eapply added_from_extends; [apply (proj2 HT) | apply Hff | exact Hd].
Qed.

Lemma added_from_filings df d0 :
  kept_by_filings (added_from (parse_date strptime to_datetime) df d0).
Proof.
  intros new d rows' Hd _ E.
  apply insert_filings_ok in E. destruct E as (a & -> & _).
  eapply added_from_extends; [apply extends_filings | reflexivity | exact Hd].
Qed.

Lemma added_from_facts df d0 :
  kept_by_facts (added_from (parse_date strptime to_datetime) df d0)
                (parse_date strptime to_datetime) df.
Proof.
  intros new d rows' (added & E & H) Hfrom Eins.
  destruct (insert_facts_app new (financial_fact d) _ Eins) as (a & Ea & Ha).
  rewrite Ea.
  exists (added ++ a). cbn [with_rows financial_fact_table financial_fact].
  split; [rewrite E, app_assoc; reflexivity | ].
  intros ff Hff.
  assert (Hs : exists r, In r df /\
                         staged_from (parse_date strptime to_datetime) d r (new_fact_of ff)).
  { apply in_app_or in Hff. destruct Hff as [Hff | Hff]; [apply H, Hff | ].
    apply Hfrom. rewrite <- Ha. apply in_map, Hff. }
  destruct Hs as (r & Hr & Hs). exists r. split; [exact Hr | ].
  eapply staged_from_monotone; [apply (extends_facts d a) | exact Hs].
Qed.

(** X11: a call of the loader only adds rows: whether it returns or
    raises, and whichever database call fails, every table of the committed
    store starts with the rows it had before the call, unchanged and in
    their order; no row is deleted or rewritten, and nothing is left
    pending. *)
Theorem load_only_appends (df : list record) (d : db) r st' :
  load_dataframe_to_db faulty strptime to_datetime df (open_session d) = (r, st') ->
  extends d (committed st') /\ pending st' = committed st'.
Proof.
  intros E.
  refine (proj2 (load_invariant faulty strptime to_datetime (fun _ => True)
                   _ _ _ _ df _ d r st' Logic.I E));
    repeat intro; exact Logic.I.
Qed.

(** X12: a call of the loader keeps the constraints of the schema: if,
    before the call, the primary keys of each table are distinct, the
    tickers, statement-type names and line-item names are distinct, every
    filing points to a company and every fact to a filing, a statement type
    and a line item, then the same holds of the committed store after the
    call, whether it returns or raises, and whichever database call
    fails. *)
Theorem load_keeps_constraints (df : list record) (d : db) r st' :
  sound d ->
  load_dataframe_to_db faulty strptime to_datetime df (open_session d) = (r, st') ->
  sound (committed st').
Proof.
  intros Hd E.
  exact (proj1 (load_invariant faulty strptime to_datetime sound
                  sound_companies sound_statement_types sound_line_items
                  sound_filings df (sound_facts _ df) d r st' Hd E)).
Qed.

(** X13: every fact a call of the loader adds is what a row of the batch
    asks for, whether the call returns or raises: the committed facts are
    those of before followed by added ones, and each added fact comes from
    a row that has a ticker, a filing date that parses, a statement type
    and a line item; it points to the filing whose key is exactly the
    company of the upper-cased ticker, the parsed filing date, the fiscal
    year and the flag of that row, to the statement type and the line item
    the row names, and carries the row's period type, parsed end date and
    value.  So the fallback lookup by company and date alone never
    decides where a fact goes. *)
Theorem load_facts_from_rows (df : list record) (d : db) r st' :
  load_dataframe_to_db faulty strptime to_datetime df (open_session d) = (r, st') ->
  added_from (parse_date strptime to_datetime) df d (committed st').
Proof.
  intros E.
  refine (proj1 (load_invariant faulty strptime to_datetime
                   (added_from (parse_date strptime to_datetime) df d)
                   (added_from_names companies df d grows_with_companies _)
                   (added_from_names statement_types df d grows_with_statement_types _)
                   (added_from_names line_items df d grows_with_line_items _)
                   (added_from_filings df d) df (added_from_facts df d)
                   d r st' _ E)).
  - reflexivity.
  - reflexivity.
  - reflexivity.
  - exists []. split; [rewrite app_nil_r; reflexivity | intros ff []].
Qed.

End Constraints.

Section ConstraintExamples.
Import OLTP.

Lemma load_only_appends_witness :
  let run := load_dataframe_to_db (fails_at 11) example_strptime example_to_datetime
               example_batch (open_session QualityCheck.example_store) in
  extends QualityCheck.example_store (committed (snd run))
  /\ pending (snd run) = committed (snd run).
Proof.
  cbv zeta.
  apply (load_only_appends (fails_at 11) example_strptime example_to_datetime
           example_batch QualityCheck.example_store
           (fst (load_dataframe_to_db (fails_at 11) example_strptime example_to_datetime
                   example_batch (open_session QualityCheck.example_store)))).
  apply surjective_pairing.
Defined.

Lemma load_keeps_constraints_witness :
  sound (committed
           (snd (load_dataframe_to_db (fails_at 13) example_strptime example_to_datetime
                   example_batch (open_session empty_db)))).
Proof.
  apply (load_keeps_constraints (fails_at 13) example_strptime example_to_datetime
           example_batch empty_db
           (fst (load_dataframe_to_db (fails_at 13) example_strptime example_to_datetime
                   example_batch (open_session empty_db)))).
  - exact sound_empty.
  - apply surjective_pairing.
Defined.

Lemma load_facts_from_rows_witness :
  added_from (parse_date example_strptime example_to_datetime) example_batch
    QualityCheck.example_store
    (committed
       (snd (load_dataframe_to_db reliable example_strptime example_to_datetime
               example_batch (open_session QualityCheck.example_store)))).
Proof.
  apply (load_facts_from_rows reliable example_strptime example_to_datetime
           example_batch QualityCheck.example_store
           (fst (load_dataframe_to_db reliable example_strptime example_to_datetime
                   example_batch (open_session QualityCheck.example_store)))).
  apply surjective_pairing.
Defined.

Example load_failure_example :
  let run := load_dataframe_to_db (fails_at 11) example_strptime example_to_datetime
               example_batch (open_session QualityCheck.example_store) in
  (exists e, fst run = Raise e) /\
  List.map line_item_name (line_item (committed (snd run)))
  = ["Total Assets"; "Revenue"; "Cash"; "Debt"] /\
  filing (committed (snd run)) = [] /\
  financial_fact (committed (snd run)) = [].
Proof. vm_compute. repeat split. eexists. reflexivity. Qed.

End ConstraintExamples.

(** ** The star schema of a sound store *)

Section StarContents.
Import OLAP.
Local Open Scope list_scope.

Lemma filter_all {A : Type} (p : A -> bool) l :
  (forall x, In x l -> p x = true) -> filter p l = l.
Proof.
  induction l as [ | x l IH]; intros H; simpl; auto.
  rewrite (H x) by (left; reflexivity). f_equal. apply IH.
  intros y Hy. apply H. right. exact Hy.
Qed.

(** With distinct keys nothing is replaced. *)
Lemma insert_or_replace_distinct {R : Type} (key : R -> Z) selected :
  forall rows,
    NoDup (List.map key (rows ++ selected)) ->
    fold_left (insert_or_replace key) selected rows = rows ++ selected.
Proof.
  induction selected as [ | r selected IH]; intros rows Hnd; simpl.
  - rewrite app_nil_r. reflexivity.
  - replace (rows ++ r :: selected) with ((rows ++ [r]) ++ selected) in *
      by (rewrite <- app_assoc; reflexivity).
    unfold insert_or_replace at 2.
    rewrite filter_all; [apply IH, Hnd | ].
    intros x Hx. apply negb_true_iff, Z.eqb_neq. intros E.
    rewrite !map_app in Hnd. apply NoDup_app_remove_r in Hnd.
    simpl in Hnd. apply NoDup_remove_2 in Hnd. rewrite app_nil_r in Hnd.
    apply Hnd. rewrite <- E. apply in_map, Hx.
Qed.

(** Every key inserted is the key of a row afterwards. *)
Lemma insert_or_replace_keys {R : Type} (key : R -> Z) selected :
  forall rows k,
    In k (List.map key (rows ++ selected)) ->
    In k (List.map key (fold_left (insert_or_replace key) selected rows)).
Proof.
  induction selected as [ | r selected IH]; intros rows k Hk; simpl.
  - rewrite app_nil_r in Hk. exact Hk.
  - apply IH. rewrite map_app, in_app_iff in Hk. rewrite map_app, in_app_iff.
    destruct Hk as [Hk | Hk].
    + left. unfold insert_or_replace. rewrite map_app, in_app_iff.
      destruct (Z.eq_dec k (key r)) as [-> | Hne].
      * right. left. reflexivity.
      * left. apply in_map_iff in Hk. destruct Hk as (x & <- & Hx).
        apply in_map, filter_In. split; [exact Hx | ].
        apply negb_true_iff, Z.eqb_neq. exact Hne.
    + simpl in Hk. destruct Hk as [<- | Hk]; [ | right; exact Hk].
      left. unfold insert_or_replace. rewrite map_app, in_app_iff.
      right. left. reflexivity.
Qed.

(** The rows an AUTOINCREMENT insert adds are numbered from the sequence
    on, in the order of the select. *)
Lemma insert_fact_numbers selected :
  forall rows s,
    (fold_right Z.max 0 (List.map fact_id rows) <= s)%Z ->
    exists added,
      fold_left insert_fact selected (rows, s)
      = (rows ++ added, (s + Z.of_nat (List.length selected))%Z) /\
      List.map fact_id added
      = List.map (fun i => (s + Z.of_nat i)%Z) (seq 1 (List.length selected)) /\
      List.map (fun r => (fact_company_key r, fact_date_key r,
                          fact_statement_type_key r, line_item_id r, value r)) added
      = selected.
Proof.
  induction selected as [ | x selected IH]; intros rows s Hs.
  - exists []. simpl. rewrite app_nil_r, Z.add_0_r. auto.
  - destruct x as [[[[ck dk] sk] li] v]. cbn [fold_left insert_fact].
    replace (Z.max s (fold_right Z.max 0 (List.map fact_id rows)) + 1)%Z
      with (s + 1)%Z by lia.
    destruct (IH (rows ++ [mkFactFinancials (s + 1) ck dk sk li v]) (s + 1)%Z)
      as (added & E & Hid & Hc).
    { rewrite map_app. simpl.
      assert (G : forall l m, (fold_right Z.max 0 l <= m ->
                               fold_right Z.max 0 (l ++ [m + 1]) <= m + 1)%Z).
      { induction l as [ | y l IHl]; simpl; intros m Hm; lia || (specialize (IHl m); lia). }
      apply G, Hs. }
    exists (mkFactFinancials (s + 1) ck dk sk li v :: added).
    rewrite E, <- app_assoc. split; [ | split].
    + f_equal. cbn [List.length]. lia.
    + cbn [List.length seq List.map fact_id]. f_equal; try lia.
      rewrite Hid, <- (seq_shift (List.length selected) 1), map_map. apply map_ext. intros i. lia.
    + simpl. rewrite Hc. reflexivity.
Qed.

Lemma date_dim_row_eqb_spec a b : date_dim_row_eqb a b = true <-> a = b.
Proof.
  destruct a as [k1 d1 y1 q1 m1 x1], b as [k2 d2 y2 q2 m2 x2].
  unfold date_dim_row_eqb, option_eqb_Z. cbn [date_key date year quarter month day].
  rewrite !andb_true_iff, !(option_eqb_spec _ Z.eqb_eq),
    (option_eqb_spec _ date_eqb_spec).
  split.
  - intros [[[[[-> ->] ->] ->] ->] ->]. reflexivity.
  - intros E. injection E as -> -> -> -> -> ->. repeat split.
Qed.

Lemma date_key_of_inj a b :
  OLTP.valid_date a -> OLTP.valid_date b -> date_key_of a = date_key_of b -> a = b.
Proof.
  destruct a as [y1 m1 d1], b as [y2 m2 d2].
  unfold OLTP.valid_date, date_key_of. simpl. intros Ha Hb E.
  assert (y1 = y2 /\ m1 = m2 /\ d1 = d2) as (-> & -> & ->) by lia. reflexivity.
Qed.

Lemma quarter_of_range d : OLTP.valid_date d -> (1 <= quarter_of d <= 4)%Z.
Proof.
  unfold OLTP.valid_date, quarter_of. intros (_ & Hm & _).
  assert (H : (0 <= Z.quot (OLTP.month d - 1) 3 < 4)%Z).
  { rewrite Z.quot_div_nonneg by lia. split.
    - apply Z.div_pos; lia.
    - apply Z.div_lt_upper_bound; lia. }
  lia.
Qed.

(** With keys that are present and distinct, no date is replaced. *)
Lemma date_dim_insert_distinct selected :
  forall rows,
    (forall r, In r selected -> date_key r <> None) ->
    NoDup (List.map date_key (rows ++ selected)) ->
    fold_left date_dim_insert selected rows = rows ++ selected.
Proof.
  induction selected as [ | r selected IH]; intros rows Hk Hnd; simpl.
  - rewrite app_nil_r. reflexivity.
  - replace (rows ++ r :: selected) with ((rows ++ [r]) ++ selected) in *
      by (rewrite <- app_assoc; reflexivity).
    assert (E : date_dim_insert rows r = rows ++ [r]).
    { unfold date_dim_insert.
      destruct (date_key r) as [k | ] eqn:Ek;
        [ | exfalso; apply (Hk r); [left; reflexivity | exact Ek]].
      rewrite filter_all; [reflexivity | ].
      intros x Hx. apply negb_true_iff.
      destruct (option_eqb_Z (date_key x) (Some k)) eqn:Ex; auto.
      apply (option_eqb_spec _ Z.eqb_eq) in Ex.
      rewrite !map_app in Hnd. apply NoDup_app_remove_r in Hnd.
      simpl in Hnd. apply NoDup_remove_2 in Hnd. rewrite app_nil_r in Hnd.
      exfalso. apply Hnd. rewrite Ek, <- Ex. apply in_map, Hx. }
    rewrite E. apply IH; [ | exact Hnd].
    intros r' Hr'. apply Hk. right. exact Hr'.
Qed.

Lemma NoDup_map_on {A B : Type} (f : A -> B) l :
  NoDup l ->
  (forall x y, In x l -> In y l -> f x = f y -> x = y) ->
  NoDup (List.map f l).
Proof.
  induction 1 as [ | x l Hx Hnd IH]; intros Hinj; simpl; constructor.
  - intros Hin. apply in_map_iff in Hin. destruct Hin as (y & E & Hy).
    apply Hx. rewrite (Hinj x y); auto; [left; reflexivity | right; exact Hy].
  - apply IH. intros a b Ha Hb. apply Hinj; right; assumption.
Qed.

(** The rows of the date dimension: one per distinct filing date. *)
Lemma date_dim_of_inj a b : date_dim_of a = date_dim_of b -> a = b.
Proof. unfold date_dim_of. intros E. injection E as _ E _. congruence. Qed.

Lemma rebuilt_date_dim oltp :
  (forall fl, In fl (OLTP.filing oltp) -> OLTP.valid_date (OLTP.filing_date fl)) ->
  let dates := OLTP.unique date_dim_row_eqb
                 (List.map (fun f => date_dim_of (OLTP.filing_date f))
                           (OLTP.filing oltp)) in
  fold_left date_dim_insert dates [] = dates /\
  NoDup (List.map date_key dates) /\
  (forall row, In row dates <->
               exists fl, In fl (OLTP.filing oltp) /\
                          row = date_dim_of (OLTP.filing_date fl)).
Proof.
  intros Hv dates.
  assert (Hin : forall row, In row dates <->
                            exists fl, In fl (OLTP.filing oltp) /\
                                       row = date_dim_of (OLTP.filing_date fl)).
  { intros row. unfold dates. rewrite (unique_In _ date_dim_row_eqb_spec), in_map_iff.
    split; intros (fl & H1 & H2); exists fl; auto. }
  assert (Hkeys : NoDup (List.map date_key dates)).
  { apply NoDup_map_on; [apply (unique_NoDup _ date_dim_row_eqb_spec) | ].
    intros x y Hx Hy Ek. apply Hin in Hx, Hy.
    destruct Hx as (f1 & Hf1 & ->), Hy as (f2 & Hf2 & ->).
    cbn [date_key date_dim_of] in Ek. injection Ek as Ek.
    rewrite (date_key_of_inj _ _ (Hv _ Hf1) (Hv _ Hf2) Ek). reflexivity. }
  split; [ | split; [exact Hkeys | exact Hin]].
  apply (date_dim_insert_distinct dates []); [ | exact Hkeys].
  intros r Hr. apply Hin in Hr. destruct Hr as (fl & _ & ->). discriminate.
Qed.

(** X14: for a store that keeps its constraints and whose filing dates are
    dates of the calendar, the dimensions of the rebuilt star schema mirror
    the store: [company_dim] has one row per company, in order, with the
    identifier as key and as [cik] and the ticker as ticker and as name;
    [statement_type_dim] has one row per statement type; [date_dim] has
    one row per distinct filing date, under the key YYYYMMDD, with a
    quarter from 1 to 4, and no two rows share a key. *)
Theorem star_dimensions (oltp : OLTP.db) (olap : olap_db) :
  OLTP.sound oltp ->
  (forall fl, In fl (OLTP.filing oltp) -> OLTP.valid_date (OLTP.filing_date fl)) ->
  exists star,
    create_and_populate_olap_schema_from_oltp oltp olap = Ok star /\
    company_dim star
    = Some (List.map (fun c => mkCompanyDim (OLTP.company_id c)
                                 (Text.str_of_Z (OLTP.company_id c))
                                 (OLTP.ticker c) (OLTP.ticker c))
                     (OLTP.company oltp)) /\
    statement_type_dim star
    = Some (List.map (fun s => mkStatementTypeDim (OLTP.statement_type_id s)
                                 (OLTP.statement_type_name s))
                     (OLTP.statement_type oltp)) /\
    NoDup (List.map date_key (rows_in (date_dim star))) /\
    (forall row,
        In row (rows_in (date_dim star)) <->
        exists fl, In fl (OLTP.filing oltp) /\ row = date_dim_of (OLTP.filing_date fl)) /\
    (forall row q,
        In row (rows_in (date_dim star)) -> quarter row = Some q -> (1 <= q <= 4)%Z).
Proof.
  intros Hs Hv.
  destruct (rebuild_returns oltp) as (facts & seq & E & _).
  eexists. split; [rewrite rebuild_from_scratch; exact E | ].
  cbn [company_dim statement_type_dim date_dim rows_in].
  destruct (rebuilt_date_dim oltp Hv) as (Ed & Hkeys & Hin).
  cbv zeta in Ed, Hkeys, Hin. rewrite Ed.
  split; [ | split; [ | split; [exact Hkeys | split; [exact Hin | ]]]].
  - f_equal. apply (insert_or_replace_distinct company_key _ []).
    cbn [app]. rewrite map_map. cbn [company_key]. apply (OLTP.company_ids _ Hs).
  - f_equal. apply (insert_or_replace_distinct statement_type_key _ []).
    cbn [app]. rewrite map_map. cbn [statement_type_key].
    apply (OLTP.statement_type_ids _ Hs).
  - intros row q Hrow Eq. apply Hin in Hrow. destruct Hrow as (fl & Hfl & ->).
    cbn [quarter date_dim_of] in Eq. injection Eq as <-.
    apply quarter_of_range, Hv, Hfl.
Qed.

(** The rows of the select come from a fact, its filing and the company of
    the filing. *)
Lemma select_facts_In oltp x :
  In x (select_facts oltp) <->
  exists ff fl c,
    In ff (OLTP.financial_fact oltp) /\ In fl (OLTP.filing oltp) /\
    In c (OLTP.company oltp) /\
    OLTP.fact_filing_id ff = OLTP.filing_id fl /\
    OLTP.filing_company_id fl = OLTP.company_id c /\
    x = (Some (OLTP.company_id c), Some (date_key_of (OLTP.filing_date fl)),
         Some (OLTP.filing_id fl), Some (OLTP.fact_line_item_id ff), OLTP.value ff).
Proof.
  unfold select_facts. rewrite in_flat_map. split.
  - intros (ff & Hff & H). apply in_flat_map in H. destruct H as (fl & Hfl & H).
    apply in_map_iff in H. destruct H as (c & <- & Hc).
    apply filter_In in Hfl, Hc. destruct Hfl as [Hfl Efl], Hc as [Hc Ec].
    apply Z.eqb_eq in Efl, Ec. exists ff, fl, c. repeat split; auto.
  - intros (ff & fl & c & Hff & Hfl & Hc & Efl & Ec & ->).
    exists ff. split; [exact Hff | ]. apply in_flat_map. exists fl. split.
    + apply filter_In. split; [exact Hfl | ]. apply Z.eqb_eq. exact Efl.
    + apply in_map_iff. exists c. split; [reflexivity | ].
      apply filter_In. split; [exact Hc | ]. apply Z.eqb_eq. exact Ec.
Qed.

(** A key that occurs once selects one row. *)
Lemma filter_key_length {A : Type} (key : A -> Z) (k : Z) l :
  NoDup (List.map key l) ->
  In k (List.map key l) ->
  List.length (filter (fun y => (k =? key y)%Z) l) = 1%nat.
Proof.
  induction l as [ | x l IH]; intros Hnd Hin; [contradiction | ].
  simpl in Hnd. inversion Hnd as [ | ? ? Hx Hl]; subst. cbn [filter].
  destruct (k =? key x)%Z eqn:E.
  - apply Z.eqb_eq in E. subst k. cbn [List.length]. f_equal.
    rewrite filter_none; [reflexivity | ].
    intros y Hy. apply Z.eqb_neq. intros E. apply Hx. rewrite E. apply in_map, Hy.
  - apply IH; auto. destruct Hin as [Hin | Hin]; auto.
    apply Z.eqb_neq in E. congruence.
Qed.

Lemma flat_map_length_one {A B : Type} (g : A -> list B) l :
  (forall x, In x l -> List.length (g x) = 1%nat) ->
  List.length (flat_map g l) = List.length l.
Proof.
  induction l as [ | x l IH]; intros H; simpl; auto.
  rewrite length_app, (H x) by (left; reflexivity).
  rewrite IH; auto. intros y Hy. apply H. right. exact Hy.
Qed.

(** In a sound store a fact is joined once. *)
Lemma joined_once oltp ff :
  OLTP.sound oltp -> In ff (OLTP.financial_fact oltp) ->
  List.length
    (flat_map
       (fun fl =>
          List.map
            (fun f =>
               (Some (OLTP.company_id f), Some (date_key_of (OLTP.filing_date fl)),
                Some (OLTP.filing_id fl), Some (OLTP.fact_line_item_id ff),
                OLTP.value ff))
            (filter (fun f => (OLTP.filing_company_id fl =? OLTP.company_id f)%Z)
                    (OLTP.company oltp)))
       (filter (fun fl => (OLTP.fact_filing_id ff =? OLTP.filing_id fl)%Z)
               (OLTP.filing oltp))) = 1%nat.
Proof.
  intros Hs Hff. rewrite flat_map_length_one.
  - apply filter_key_length; [apply (OLTP.filing_ids _ Hs) | ].
    apply (OLTP.fact_filing _ Hs), Hff.
  - intros fl Hfl. apply filter_In in Hfl. destruct Hfl as [Hfl _].
    rewrite length_map.
    apply filter_key_length; [apply (OLTP.company_ids _ Hs) | ].
    apply (OLTP.filing_company _ Hs), Hfl.
Qed.

Lemma select_facts_length oltp :
  OLTP.sound oltp ->
  List.length (select_facts oltp) = List.length (OLTP.financial_fact oltp).
Proof.
  intros Hs. unfold select_facts. apply flat_map_length_one.
  intros ff Hff. apply joined_once; assumption.
Qed.

Lemma rebuilt_facts oltp :
  exists star facts,
    (forall olap, create_and_populate_olap_schema_from_oltp oltp olap = Ok star) /\
    fact_financials star = Some facts /\
    company_dim star
    = Some (fold_left (insert_or_replace company_key)
              (List.map (fun c => mkCompanyDim (OLTP.company_id c)
                                    (Text.str_of_Z (OLTP.company_id c))
                                    (OLTP.ticker c) (OLTP.ticker c))
                        (OLTP.company oltp)) []) /\
    date_dim star <> None /\
    List.map fact_id facts
    = List.map Z.of_nat (seq 1 (List.length (select_facts oltp))) /\
    List.map (fun r => (fact_company_key r, fact_date_key r,
                        fact_statement_type_key r, line_item_id r, value r)) facts
    = select_facts oltp.
Proof.
  destruct (rebuild_returns oltp) as (facts & seq & E & Hfacts).
  destruct (insert_fact_numbers (select_facts oltp) [] 0%Z) as (added & Ef & Hid & Hc);
    [simpl; lia | ].
  rewrite Ef in Hfacts. cbn [fst app] in Hfacts. subst facts.
  eexists _, added. split; [intros olap; rewrite rebuild_from_scratch; exact E | ].
  cbn [fact_financials company_dim date_dim].
  repeat split; auto; discriminate.
Qed.

(** X15: the fact table of the rebuilt star schema: its rows are numbered
    1, 2, ... in order; each row is a fact of the store joined to its
    filing and to the company of the filing, with the company as company
    key, the filing date as date key YYYYMMDD, the line item and the value
    of the fact, and the identifier of the filing (not of the statement
    type) in the column [statement_type_key]; and for a store that keeps
    its constraints there are as many rows as facts in the store. *)
Theorem star_facts (oltp : OLTP.db) (olap : olap_db) :
  exists star facts,
    create_and_populate_olap_schema_from_oltp oltp olap = Ok star /\
    fact_financials star = Some facts /\
    List.map fact_id facts = List.map Z.of_nat (seq 1 (List.length facts)) /\
    (forall row,
        In row facts ->
        exists ff fl c,
          In ff (OLTP.financial_fact oltp) /\ In fl (OLTP.filing oltp) /\
          In c (OLTP.company oltp) /\
          OLTP.fact_filing_id ff = OLTP.filing_id fl /\
          OLTP.filing_company_id fl = OLTP.company_id c /\
          fact_company_key row = Some (OLTP.company_id c) /\
          fact_date_key row = Some (date_key_of (OLTP.filing_date fl)) /\
          fact_statement_type_key row = Some (OLTP.filing_id fl) /\
          line_item_id row = Some (OLTP.fact_line_item_id ff) /\
          value row = OLTP.value ff) /\
    (OLTP.sound oltp ->
     List.length facts = List.length (OLTP.financial_fact oltp)).
Proof.
  destruct (rebuilt_facts oltp) as (star & facts & E & Ef & _ & _ & Hid & Hc).
  assert (Hlen : List.length facts = List.length (select_facts oltp)).
  { rewrite <- Hc, length_map. reflexivity. }
  exists star, facts. split; [apply E | ]. split; [exact Ef | ].
  split; [rewrite Hlen; exact Hid | ]. split.
  - intros row Hrow.
    assert (Hx : In (fact_company_key row, fact_date_key row,
                     fact_statement_type_key row, line_item_id row, value row)
                    (select_facts oltp)).
    { rewrite <- Hc.
      apply (in_map (fun r => (fact_company_key r, fact_date_key r,
                               fact_statement_type_key r, line_item_id r, value r))),
        Hrow. }
    apply select_facts_In in Hx.
    destruct Hx as (ff & fl & c & Hff & Hfl & Hcc & E1 & E2 & Ex).
    injection Ex as -> -> -> -> ->.
    exists ff, fl, c. repeat split; auto.
  - intros Hs. rewrite Hlen. apply select_facts_length, Hs.
Qed.

Lemma sound_example_loaded : OLTP.sound OLTP.example_loaded.
Proof.
  constructor; simpl;
    try (repeat constructor; simpl; intuition discriminate);
    intros x [<- | []]; simpl; auto.
Qed.

Lemma star_dimensions_witness :
  exists star,
    create_and_populate_olap_schema_from_oltp OLTP.example_loaded no_tables = Ok star /\
    company_dim star = Some [mkCompanyDim 1 "1" "CATX" "CATX"] /\
    statement_type_dim star = Some [mkStatementTypeDim 1 "Balance Sheet"] /\
    rows_in (date_dim star)
    = [mkDateDim (Some 20250813%Z) (Some (OLTP.Date 2025 8 13)) (Some 2025%Z)
                 (Some 3%Z) (Some 8%Z) (Some 13%Z)].
Proof.
  destruct (star_dimensions OLTP.example_loaded no_tables sound_example_loaded)
    as (star & E & Hc & Hs & _).
  - intros fl [<- | []]. unfold OLTP.valid_date. simpl. lia.
  - exists star. split; [exact E | ]. split; [exact Hc | ]. split; [exact Hs | ].
    vm_compute in E. injection E as <-. reflexivity.
Defined.

End StarContents.

(** ** The checks on a schema that was just rebuilt *)

Section RebuiltChecks.
Import OLAP QualityCheck.
Local Open Scope list_scope.

Lemma count_filter_none {A : Type} (p : A -> bool) l :
  (forall x, In x l -> p x = false) -> count (filter p l) = 0%Z.
Proof. intros H. rewrite filter_none by exact H. reflexivity. Qed.

Lemma filter_eqb_length (i : Z) ids :
  NoDup ids -> (List.length (filter (Z.eqb i) ids) <= 1)%nat.
Proof.
  induction 1 as [ | x l Hx Hnd IH]; simpl; [lia | ].
  destruct (Z.eqb i x) eqn:E; [ | exact IH].
  apply Z.eqb_eq in E. subst x. cbn [List.length].
  rewrite filter_none; [simpl; lia | ].
  intros y Hy. apply Z.eqb_neq. intros ->. contradiction.
Qed.

Lemma duplicate_fact_ids_distinct facts :
  NoDup (List.map fact_id facts) -> duplicate_fact_ids facts = 0%Z.
Proof.
  intros Hnd. unfold duplicate_fact_ids. apply count_filter_none.
  intros i _. apply Nat.ltb_ge. apply filter_eqb_length, Hnd.
Qed.

Lemma missing_required_metrics_none facts :
  (forall ff, In ff facts -> line_item_id ff <> None) ->
  missing_required_metrics facts = 0%Z.
Proof.
  intros H. unfold missing_required_metrics. apply count_filter_none.
  intros g _. destruct (existsb _ facts) eqn:E; auto.
  apply existsb_exists in E. destruct E as (ff & Hff & E).
  apply andb_prop in E. destruct E as [_ E].
  specialize (H ff Hff). destruct (line_item_id ff); [discriminate | congruence].
Qed.

Lemma orphaned_company_refs_none companies facts :
  (forall ff, In ff facts ->
              exists k, fact_company_key ff = Some k /\
                        In k (List.map company_key companies)) ->
  orphaned_company_refs companies facts = 0%Z.
Proof.
  intros H. unfold orphaned_company_refs. apply count_filter_none.
  intros ff Hff. apply negb_false_iff, existsb_exists.
  destruct (H ff Hff) as (k & Ek & Hk).
  apply in_map_iff in Hk. destruct Hk as (cd & <- & Hcd).
  exists cd. split; [exact Hcd | ]. rewrite Ek.
  apply (option_eqb_spec _ Z.eqb_eq). reflexivity.
Qed.

Lemma seq_ids_NoDup n : NoDup (List.map Z.of_nat (seq 1 n)).
Proof.
  apply NoDup_map_on; [apply seq_NoDup | ].
  intros x y _ _ E. lia.
Qed.

(** X16: on a star schema that was just rebuilt, whatever the store
    holds, the validator returns its five counts, and three of them are
    always zero: no fact identifier occurs twice, no fact lacks its line
    item, and no fact has a company key without its row in
    [company_dim]. *)
Theorem rebuilt_checks (today : OLTP.date) (oltp : OLTP.db) (olap : olap_db) :
  exists star results,
    create_and_populate_olap_schema_from_oltp oltp olap = Ok star /\
    run_quality_checks today star oltp = Ok results /\
    List.map fst results
    = ["future_dates"; "duplicate_fact_ids"; "revenue_non_positive";
       "missing_required_metrics"; "orphaned_company_refs"]%string /\
    lookup "duplicate_fact_ids" results = Some 0%Z /\
    lookup "missing_required_metrics" results = Some 0%Z /\
    lookup "orphaned_company_refs" results = Some 0%Z.
Proof.
  destruct (rebuilt_facts oltp) as (star & facts & E & Ef & Ec & Ed & Hid & Hc).
  exists star.
  assert (Hrow : forall row, In row facts ->
             exists ff c,
               In c (OLTP.company oltp) /\
               fact_company_key row = Some (OLTP.company_id c) /\
               line_item_id row = Some (OLTP.fact_line_item_id ff)).
  { intros row Hrow.
    assert (Hx : In (fact_company_key row, fact_date_key row,
                     fact_statement_type_key row, line_item_id row, value row)
                    (select_facts oltp)).
    { rewrite <- Hc.
      apply (in_map (fun r => (fact_company_key r, fact_date_key r,
                               fact_statement_type_key r, line_item_id r, value r))),
        Hrow. }
    apply select_facts_In in Hx.
    destruct Hx as (ff & fl & c & _ & _ & Hcc & _ & _ & Ex).
    injection Ex as -> _ _ -> _. exists ff, c. auto. }
  unfold run_quality_checks.
  destruct (date_dim star) as [dates | ] eqn:Edates; [ | congruence].
  rewrite Ef, Ec. cbn [table_or_fail].
  rewrite duplicate_fact_ids_distinct
    by (rewrite Hid; apply seq_ids_NoDup).
  rewrite missing_required_metrics_none
    by (intros ff Hff; destruct (Hrow ff Hff) as (? & ? & _ & _ & ->); discriminate).
  rewrite orphaned_company_refs_none.
  - eexists. split; [apply E | ]. split; [reflexivity | ].
    repeat split; reflexivity.
  - intros ff Hff. destruct (Hrow ff Hff) as (f0 & c & Hcc & Ek & _).
    exists (OLTP.company_id c). split; [exact Ek | ].
    apply (insert_or_replace_keys company_key _ []). cbn [app].
    rewrite map_map. cbn [company_key]. apply in_map, Hcc.
Qed.

End RebuiltChecks.

(** ** From a tidy row to a fact *)

Section PipelineFacts.
Import Main OLTP Pipeline.
Local Open Scope list_scope.

Variable strptime : string -> string -> option date.
Variable to_datetime : string -> pydate.

(** With the file well named, every tidy row gives a record; its flag is
    the flag of the period label. *)
Lemma tidy_record_returns file_path ticker filing_date df_type t :
  Functions.extract_metadata file_path = Ok (ticker, filing_date) ->
  exists period_type end_date fiscal_year,
    tidy_record file_path df_type t
    = Ok (mkRecord (Some ticker) (Some filing_date) (Some df_type)
            (Some (Main.line_item t)) (Some period_type) end_date fiscal_year
            (PyBool (Text.contains (Text.lower (strip_suffix (Main.period t))) "unaudited"))
            (Main.value t)).
Proof.
  intros E. unfold tidy_record.
  destruct (parse_period_returns (strip_suffix (Main.period t))) as (ed & ua & y & Ep).
  pose proof Ep as Ep'. unfold Functions.parse_period in Ep'.
  assert (Eu : ua = Text.contains (Text.lower (strip_suffix (Main.period t))) "unaudited").
  { destruct (Re.re_search Functions.date_pattern _);
      [destruct (Functions.search_group0 _ _); [ | discriminate];
       destruct (Text.py_int _); [ | discriminate]
      | destruct (Re.re_search Functions.year_pattern _);
        [destruct (Text.py_int _); [ | discriminate] | ]];
      congruence. }
  rewrite Ep, E, Eu. eauto.
Qed.

Lemma digit_value_range c :
  Text.is_digit c = true -> (0 <= Text.digit_value c <= 9)%Z.
Proof.
  destruct c as [[] [] [] [] [] [] [] []]; vm_compute; intros H;
    solve [discriminate H | split; discriminate].
Qed.

(** The fiscal year [parse_period] reads is written with four digits. *)
Lemma parse_period_year_fits p pt ed ua y :
  Functions.parse_period p = Ok (pt, ed, ua, y) -> fits_int64 y = true.
Proof.
  assert (G : forall s m,
             Re.re_search Functions.year_pattern s = Some m ->
             fits_int64 (Some (Text.digits_value 0 (Re.group0 m))) = true).
  { intros s m H. destruct (year_search_found _ _ H) as (Hl & Hd & _).
    destruct (string_of_length_4 _ Hl) as (a & b & c & e & E). rewrite E in *.
    cbn [Text.all] in Hd. rewrite !andb_true_iff in Hd.
    destruct Hd as (Ha & Hb & Hc & He & _).
    apply digit_value_range in Ha, Hb, Hc, He.
    cbn [Text.digits_value fits_int64]. apply andb_true_iff.
    split; [apply Z.leb_le | apply Z.ltb_lt]; lia. }
  unfold Functions.parse_period.
  destruct (Re.re_search Functions.date_pattern p) as [m | ].
  - unfold Functions.search_group0.
    destruct (Re.re_search Functions.year_pattern (Re.group0 m)) as [m' | ] eqn:E';
      [ | discriminate].
    rewrite (year_found_is_int _ _ E'). intros H. injection H as _ _ _ <-.
    exact (G _ _ E').
  - destruct (Re.re_search Functions.year_pattern p) as [m' | ] eqn:E'.
    + rewrite (year_found_is_int _ _ E'). intros H. injection H as _ _ _ <-.
      exact (G _ _ E').
    + intros H. injection H as _ _ _ <-. reflexivity.
Qed.

(** With the file well named, the rows of a frame that has rows give the
    records of the frame handed to the loader. *)
Lemma tidy_records_returns file_path ticker filing_date df_type rows :
  rows <> [] ->
  Functions.extract_metadata file_path = Ok (ticker, filing_date) ->
  exists records,
    tidy_records file_path df_type rows = Ok records /\
    Forall2 (fun t r =>
               tidy_record file_path df_type t = Ok r /\
               Ticker r = Some ticker /\ Filing_Date r = Some filing_date /\
               Statement_Type r = Some df_type /\
               Line_Item r = Some (Main.line_item t) /\
               End_Date r = end_date_of t /\
               fits_int64 (Fiscal_Year r) = true /\
               to_bool (Unaudited r)
               = Some (Text.contains (Text.lower (strip_suffix (Main.period t)))
                                     "unaudited"))
            rows records.
Proof.
  intros Hne E.
  assert (G : exists records,
             map_result (tidy_record file_path df_type) rows = Ok records /\
             Forall2 (fun t r =>
                        tidy_record file_path df_type t = Ok r /\
                        Ticker r = Some ticker /\ Filing_Date r = Some filing_date /\
                        Statement_Type r = Some df_type /\
                        Line_Item r = Some (Main.line_item t) /\
                        End_Date r = end_date_of t /\
                        fits_int64 (Fiscal_Year r) = true /\
                        to_bool (Unaudited r)
                        = Some (Text.contains
                                  (Text.lower (strip_suffix (Main.period t)))
                                  "unaudited"))
                     rows records).
  { clear Hne. induction rows as [ | t rows IH].
    - exists []. split; [reflexivity | constructor].
    - destruct IH as (records & Em & Hall).
      destruct (tidy_record_returns file_path ticker filing_date df_type t E)
        as (pt & ed & fy & Et).
      eexists (_ :: records). cbn [map_result]. rewrite Et, Em.
      split; [reflexivity | ]. constructor; [ | exact Hall].
      split; [exact Et | ]. cbn [Ticker Filing_Date Statement_Type Line_Item End_Date
                                 Fiscal_Year Unaudited to_bool].
      unfold tidy_record in Et. unfold end_date_of.
      destruct (Functions.parse_period (strip_suffix (Main.period t)))
        as [[[[pt' ed'] ua'] fy'] | ] eqn:Ep; [ | discriminate].
      rewrite E in Et. injection Et as _ <- <- _.
      repeat split; auto. eapply parse_period_year_fits; eassumption. }
  destruct G as (records & Em & Hall). exists records. split; [ | exact Hall].
  unfold tidy_records. destruct rows; [congruence | exact Em].
Qed.


End PipelineFacts.

Section PipelineExamples.
Import Main OLTP Pipeline.


End PipelineExamples.

(** ** The chunks of the fact rows *)

Section Chunks.
Import OLTP.
Local Open Scope list_scope.

Lemma chunks_from_bounds {A : Type} (n : nat) :
  (0 < n)%nat ->
  forall fuel (l : list A),
    Forall (fun c => (1 <= List.length c <= n)%nat) (chunks_from fuel n l).
Proof.
  intros Hn. induction fuel as [ | fuel IH]; intros l; simpl; [constructor | ].
  destruct l as [ | x l]; constructor.
  - rewrite length_firstn. cbn [List.length]. lia.
  - apply IH.
Qed.

(** X18: the facts are inserted in chunks that lose nothing: the chunks
    of a list of fact rows, put end to end, are the list again, in order;
    each chunk holds at least one row and at most 1000, and each but the
    last holds exactly 1000. *)
Theorem chunks_partition {A : Type} (l : list A) :
  List.concat (chunks BATCH_SIZE l) = l /\
  Forall (fun c => (1 <= List.length c <= 1000)%nat) (chunks BATCH_SIZE l) /\
  full_but_last 1000 (chunks BATCH_SIZE l).
Proof.
  assert (Hn : (0 < BATCH_SIZE)%nat) by (unfold BATCH_SIZE; lia).
  split; [ | split].
  - unfold chunks. apply concat_chunks_from; [exact Hn | lia].
  - apply (chunks_from_bounds BATCH_SIZE Hn).
  - unfold chunks. apply (chunks_from_full BATCH_SIZE); auto.
Qed.

End Chunks.

(** ** What the checks count, in terms of the store *)

Section ChecksOnStore.
Import OLAP QualityCheck.
Local Open Scope list_scope.

Lemma unique_from_map {A B : Type} (f : A -> B)
      (eqbA : A -> A -> bool) (eqbB : B -> B -> bool) :
  (forall x y, eqbB (f x) (f y) = eqbA x y) ->
  forall l seen,
    OLTP.unique_from eqbB (List.map f seen) (List.map f l)
    = List.map f (OLTP.unique_from eqbA seen l).
Proof.
  intros H. induction l as [ | x l IH]; intros seen; simpl; auto.
  assert (E : existsb (eqbB (f x)) (List.map f seen) = existsb (eqbA x) seen).
  { induction seen as [ | y seen IHs]; simpl; auto. rewrite H, IHs. reflexivity. }
  rewrite E. destruct (existsb (eqbA x) seen).
  - apply IH.
  - simpl. f_equal. apply (IH (x :: seen)).
Qed.

Lemma date_dim_row_eqb_of a b :
  date_dim_row_eqb (date_dim_of a) (date_dim_of b) = OLTP.date_eqb a b.
Proof.
  destruct (OLTP.date_eqb a b) eqn:E.
  - apply date_eqb_spec in E. subst b. apply date_dim_row_eqb_spec. reflexivity.
  - destruct (date_dim_row_eqb (date_dim_of a) (date_dim_of b)) eqn:F; auto.
    apply date_dim_row_eqb_spec, date_dim_of_inj in F. subst b.
    rewrite (proj2 (date_eqb_spec a a) eq_refl) in E. discriminate.
Qed.

Lemma future_dates_of today dates :
  future_dates today (List.map date_dim_of dates)
  = count (filter (fun d => date_gtb d today) dates).
Proof.
  unfold future_dates, count. f_equal.
  induction dates as [ | d dates IH]; simpl; auto.
  destruct (date_gtb d today); simpl; rewrite IH; reflexivity.
Qed.

Lemma map_singleton {A B : Type} (h : A -> B) (v : B) l :
  List.length l = 1%nat -> (forall y, In y l -> h y = v) -> List.map h l = [v].
Proof.
  destruct l as [ | y [ | z l]]; try discriminate. intros _ H.
  simpl. rewrite (H y) by (left; reflexivity). reflexivity.
Qed.

Lemma map_flat_map_singletons {A B C : Type} (g : A -> list B) (h : B -> C)
      (k : A -> C) l :
  (forall x, In x l -> List.map h (g x) = [k x]) ->
  List.map h (flat_map g l) = List.map k l.
Proof.
  induction l as [ | x l IH]; intros H; simpl; auto.
  rewrite map_app, (H x) by (left; reflexivity).
  rewrite IH; auto. intros y Hy. apply H. right. exact Hy.
Qed.

(** In a sound store the select of the fact table has, fact after fact,
    the line item and the value of the fact. *)
Lemma select_facts_columns oltp :
  OLTP.sound oltp ->
  List.map (fun x : option Z * option Z * option Z * option Z * option pyfloat =>
              (snd (fst x), snd x)) (select_facts oltp)
  = List.map (fun ff => (Some (OLTP.fact_line_item_id ff), OLTP.value ff))
             (OLTP.financial_fact oltp).
Proof.
  intros Hs. unfold select_facts. apply map_flat_map_singletons.
  intros ff Hff. apply map_singleton.
  - apply joined_once; assumption.
  - intros y Hy. apply in_flat_map in Hy. destruct Hy as (fl & _ & Hy).
    apply in_map_iff in Hy. destruct Hy as (c & <- & _). reflexivity.
Qed.

Lemma filter_length_map {A B : Type} (h : A -> B) (p : B -> bool) l :
  List.length (filter (fun x => p (h x)) l) = List.length (filter p (List.map h l)).
Proof.
  induction l as [ | x l IH]; simpl; auto.
  destruct (p (h x)); simpl; rewrite IH; reflexivity.
Qed.

(** X19: what the two remaining checks count after a rebuild, for a store
    that keeps its constraints and whose filing dates are dates of the
    calendar: [future_dates] is the number of distinct filing dates of the
    store that are after today, and [revenue_non_positive] is the number of
    facts of the store whose line item is called "Revenue" and whose value
    is at most zero. *)
Theorem checks_on_store (today : OLTP.date) (oltp : OLTP.db) (olap : olap_db) :
  OLTP.sound oltp ->
  (forall fl, In fl (OLTP.filing oltp) -> OLTP.valid_date (OLTP.filing_date fl)) ->
  exists star results,
    create_and_populate_olap_schema_from_oltp oltp olap = Ok star /\
    run_quality_checks today star oltp = Ok results /\
    lookup "future_dates" results = Some (count (later_filing_dates today oltp)) /\
    lookup "revenue_non_positive" results = Some (count (revenue_losses oltp)).
Proof.
  intros Hs Hv.
  destruct (rebuild_returns oltp) as (facts & seq & E & Hfacts).
  destruct (insert_fact_numbers (select_facts oltp) [] 0%Z) as (added & Ef & _ & Hc);
    [simpl; lia | ].
  rewrite Ef in Hfacts. cbn [fst app] in Hfacts. subst facts.
  destruct (rebuilt_date_dim oltp Hv) as (Ed & _ & _). cbv zeta in Ed.
  rewrite Ed in E.
  eexists. eexists. split; [rewrite rebuild_from_scratch; exact E | ].
  unfold run_quality_checks.
  cbn [date_dim fact_financials company_dim table_or_fail].
  split; [reflexivity | ].
  cbn [lookup Dict.get app String.eqb Ascii.eqb Bool.eqb].
  split.
  - f_equal. unfold later_filing_dates.
    change (List.map (fun f => date_dim_of (OLTP.filing_date f)) (OLTP.filing oltp))
      with (List.map (fun f => date_dim_of (OLTP.filing_date f)) (OLTP.filing oltp)).
    rewrite <- (map_map OLTP.filing_date date_dim_of).
    unfold OLTP.unique.
    rewrite (unique_from_map date_dim_of OLTP.date_eqb date_dim_row_eqb
               date_dim_row_eqb_of _ []).
    apply future_dates_of.
  - f_equal.
    rewrite (revenue_non_positive_counts_facts oltp added (OLTP.line_item_ids _ Hs)).
    unfold count, revenue_losses. f_equal.
    set (g := fun p : option Z * option pyfloat =>
                (existsb (fun li => (option_eqb_Z (fst p) (Some (OLTP.line_item_id li))
                                     && (OLTP.line_item_name li =? "Revenue")%string)%bool)
                         (OLTP.line_item oltp)
                 && non_positive (snd p))%bool).
    change (filter (is_revenue_loss oltp) added)
      with (filter (fun r => g (line_item_id r, value r)) added).
    rewrite (filter_length_map (fun r => (line_item_id r, value r)) g).
    replace (List.map (fun r => (line_item_id r, value r)) added)
      with (List.map (fun ff => (Some (OLTP.fact_line_item_id ff), OLTP.value ff))
                     (OLTP.financial_fact oltp)).
    + rewrite <- (filter_length_map
                    (fun ff => (Some (OLTP.fact_line_item_id ff), OLTP.value ff)) g).
      reflexivity.
    + rewrite <- (select_facts_columns oltp Hs), <- Hc, map_map. reflexivity.
Qed.

Lemma checks_on_store_witness :
  exists star results,
    create_and_populate_olap_schema_from_oltp OLTP.example_loaded no_tables = Ok star /\
    run_quality_checks (OLTP.Date 2025 1 1) star OLTP.example_loaded = Ok results /\
    lookup "future_dates" results = Some 1%Z /\
    lookup "revenue_non_positive" results = Some 0%Z.
Proof.
  apply (checks_on_store (OLTP.Date 2025 1 1) OLTP.example_loaded no_tables
           sound_example_loaded).
  intros fl [<- | []]. unfold OLTP.valid_date. simpl. lia.
Defined.

End ChecksOnStore.

(** ** Tickers that differ by case only *)

Section TickerCase.
Import OLTP.
Local Open Scope list_scope.

Variable strptime : string -> string -> option date.
Variable to_datetime : string -> pydate.

Lemma filing_clash_self f y a i :
  nf_fiscal_year f = Some y -> nf_is_audited f = Some a ->
  filing_clash f (mkFiling i (nf_company_id f) (nf_filing_date f)
                           (nf_fiscal_year f) (nf_is_audited f)) = true.
Proof.
  intros Ey Ea. unfold filing_clash. cbn [filing_company_id filing_date fiscal_year is_audited].
  rewrite Ey, Ea, Z.eqb_refl, (proj2 (date_eqb_spec _ _) eq_refl), Z.eqb_refl.
  destruct a; reflexivity.
Qed.

(** Once a row clashes with [f], inserting [f] raises: [IntegrityError]
    when the years to insert fit in 64 bits. *)
Lemma insert_filings_clash f new :
  In f new ->
  forall rows,
    existsb (filing_clash f) rows = true ->
    exists e,
      insert_filings new rows = Raise e /\
      ((forall x, In x new -> fits_int64 (nf_fiscal_year x) = true) ->
       e = IntegrityError "UNIQUE constraint failed").
Proof.
  induction new as [ | x new IH]; intros Hf rows Hc; [contradiction | ].
  cbn [insert_filings].
  destruct (fits_int64 (nf_fiscal_year x)) eqn:Efit; cbn [negb].
  - destruct (existsb (filing_clash x) rows) eqn:Ex.
    + eexists. split; [reflexivity | intros _; reflexivity].
    + destruct Hf as [-> | Hf]; [congruence | ].
      destruct (IH Hf (rows ++ [mkFiling (next_id (List.map filing_id rows))
                                  (nf_company_id x) (nf_filing_date x)
                                  (nf_fiscal_year x) (nf_is_audited x)]))
        as (e & E & He).
      { rewrite existsb_app, Hc. reflexivity. }
      exists e. split; [exact E | ].
      intros H. apply He. intros x' Hx'. apply H. right. exact Hx'.
  - eexists. split; [reflexivity | ].
    intros H. rewrite (H x (or_introl eq_refl)) in Efit. discriminate.
Qed.

(** A filing that is to be inserted twice, with its year and its flag,
    makes the insert raise. *)
Lemma insert_filings_twice f y a l1 l2 l3 :
  nf_fiscal_year f = Some y -> nf_is_audited f = Some a ->
  forall rows,
    exists e,
      insert_filings (l1 ++ f :: l2 ++ f :: l3) rows = Raise e /\
      ((forall x, In x (l1 ++ f :: l2 ++ f :: l3) ->
                  fits_int64 (nf_fiscal_year x) = true) ->
       e = IntegrityError "UNIQUE constraint failed").
Proof.
  intros Ey Ea. induction l1 as [ | x l1 IH]; intros rows; cbn [app insert_filings].
  - destruct (fits_int64 (nf_fiscal_year f)) eqn:Efit; cbn [negb].
    + destruct (existsb (filing_clash f) rows).
      * eexists. split; [reflexivity | intros _; reflexivity].
      * destruct (insert_filings_clash f (l2 ++ f :: l3)
                    (in_elt f l2 l3)
                    (rows ++ [mkFiling (next_id (List.map filing_id rows))
                                (nf_company_id f) (nf_filing_date f)
                                (nf_fiscal_year f) (nf_is_audited f)]))
          as (e & E & He).
        { rewrite existsb_app. cbn [existsb].
          rewrite (filing_clash_self f y a _ Ey Ea). apply orb_true_r. }
        exists e. split; [exact E | ].
        intros H. apply He. intros x Hx. apply H. right. exact Hx.
    + eexists. split; [reflexivity | ].
      intros H. rewrite (H f (or_introl eq_refl)) in Efit. discriminate.
  - destruct (fits_int64 (nf_fiscal_year x)) eqn:Efit; cbn [negb].
    + destruct (existsb (filing_clash x) rows).
      * eexists. split; [reflexivity | intros _; reflexivity].
      * destruct (IH (rows ++ [mkFiling (next_id (List.map filing_id rows))
                                 (nf_company_id x) (nf_filing_date x)
                                 (nf_fiscal_year x) (nf_is_audited x)]))
          as (e & E & He).
        exists e. split; [exact E | ].
        intros H. apply He. intros x' Hx'. apply H. right. exact Hx'.
    + eexists. split; [reflexivity | ].
      intros H. rewrite (H x (or_introl eq_refl)) in Efit. discriminate.
Qed.

Lemma two_in_list {A : Type} (a b : A) l :
  In a l -> In b l -> a <> b ->
  exists l1 l2 l3,
    l = l1 ++ a :: l2 ++ b :: l3 \/ l = l1 ++ b :: l2 ++ a :: l3.
Proof.
  intros Ha Hb Hne.
  destruct (in_split _ _ Ha) as (u & v & ->).
  apply in_app_or in Hb. destruct Hb as [Hb | [Hb | Hb]]; [ | congruence | ].
  - destruct (in_split _ _ Hb) as (u1 & u2 & ->).
    exists u1, u2, v. right. rewrite <- app_assoc. reflexivity.
  - destruct (in_split _ _ Hb) as (v1 & v2 & ->).
    exists u, v1, v2. left. reflexivity.
Qed.


Lemma filings_outcome_insert F rows :
  filings_outcome F rows = insert_filings (missing_filings F rows) rows.
Proof.
  unfold filings_outcome. destruct (missing_filings F rows); reflexivity.
Qed.

Lemma flat_map_two {A B : Type} (g : A -> list B) a b f l :
  In a l -> In b l -> a <> b -> g a = [f] -> g b = [f] ->
  exists l1 l2 l3, flat_map g l = l1 ++ f :: l2 ++ f :: l3.
Proof.
  intros Ha Hb Hne Ga Gb.
  destruct (two_in_list a b l Ha Hb Hne) as (u & v & w & [-> | ->]);
    exists (flat_map g u), (flat_map g v), (flat_map g w);
    rewrite flat_map_app; cbn [flat_map]; rewrite flat_map_app; cbn [flat_map];
    rewrite Ga, Gb; reflexivity.
Qed.

Lemma filter_two {A : Type} (p : A -> bool) f l1 l2 l3 :
  p f = true ->
  filter p (l1 ++ f :: l2 ++ f :: l3)
  = filter p l1 ++ f :: filter p l2 ++ f :: filter p l3.
Proof.
  intros Hp. rewrite filter_app. cbn [filter]. rewrite Hp.
  rewrite filter_app. cbn [filter]. rewrite Hp. reflexivity.
Qed.


End TickerCase.


Section TickerCaseExample.
Import OLTP.
Local Open Scope list_scope.


End TickerCaseExample.
